(** * Import file generator (app.py): row transformation and field derivation

    A shallow embedding of [src/app.py]: reading the file, the data cleaning
    block, the rows [iterrows] hands to the loop, the data processing loop,
    the password gate and the names of the downloads; and the properties of
    the derived fields and of the three generated tables. *)

From Stdlib Require Import Ascii String List ZArith QArith Qabs Qpower Bool Arith Lia.
From Stdlib Require Import Floats.SpecFloat.
From Stdlib Require Import DecimalString.
Import ListNotations.

Local Close Scope Q_scope.
Local Open Scope list_scope.

(** ** Python strings

    A [str] is the sequence of its characters.  Characters are the code
    points 0..255 ([ascii]); the predicates below agree with Python's
    [str.isspace] and [str.lower] on that range. *)

Definition str := list ascii.

Definition lit (s : string) : str := list_ascii_of_string s.

Definition chr (n : nat) : ascii := ascii_of_nat n.

(** [c.isspace()] for a code point below 256: TAB..CR, FS..US, SPACE,
    NEL (133) and NBSP (160). *)
Definition isspace (c : ascii) : bool :=
  let n := nat_of_ascii c in
  ((9 <=? n) && (n <=? 13)) || ((28 <=? n) && (n <=? 32))
  || (n =? 133) || (n =? 160).

(** [s.lstrip()], [s.rstrip()] and [s.strip()] with no argument. *)
Fixpoint lstrip (s : str) : str :=
  match s with
  | [] => []
  | c :: t => if isspace c then lstrip t else s
  end.

Definition rstrip (s : str) : str := rev (lstrip (rev s)).

Definition strip (s : str) : str := rstrip (lstrip s).

(** [s.split(sep)] for a separator of one character: never the empty list. *)
Fixpoint split (sep : ascii) (s : str) : list str :=
  match s with
  | [] => [[]]
  | c :: t =>
      if Ascii.eqb c sep then [] :: split sep t
      else match split sep t with
           | p :: ps => (c :: p) :: ps
           | [] => [[c]]
           end
  end.

(** [sep.join(parts)] *)
Fixpoint join (sep : str) (parts : list str) : str :=
  match parts with
  | [] => []
  | p :: ps =>
      match ps with
      | [] => p
      | _ :: _ => p ++ sep ++ join sep ps
      end
  end.

(** [s.replace(old, new)] where [old] is one character. *)
Definition replace (old : ascii) (new : str) (s : str) : str :=
  flat_map (fun c => if Ascii.eqb c old then new else [c]) s.

(** [c.lower()] for a code point below 256: A..Z and the Latin-1 capitals
    192..222 (without the multiplication sign 215) move up by 32. *)
Definition lower_char (c : ascii) : ascii :=
  let n := nat_of_ascii c in
  if ((65 <=? n) && (n <=? 90))
     || ((192 <=? n) && (n <=? 222) && negb (n =? 215))
  then ascii_of_nat (n + 32) else c.

Definition lower (s : str) : str := map lower_char s.

(** [s[-n:]] for [n > 0]: the last [n] characters, all of [s] when shorter. *)
Definition suffix (n : nat) (s : str) : str := skipn (length s - n) s.

(** [s.startswith(p)] *)
Fixpoint startswith (p s : str) : bool :=
  match p, s with
  | [], _ => true
  | _ :: _, [] => false
  | a :: p', b :: s' => Ascii.eqb a b && startswith p' s'
  end.

(** [s.endswith(p)] *)
Definition endswith (p s : str) : bool := startswith (rev p) (rev s).

(** [sub in s] *)
Fixpoint contains (sub s : str) : bool :=
  startswith sub s ||
  match s with
  | [] => false
  | _ :: t => contains sub t
  end.

(** [s.split(sep)] for a separator of several characters ([sep] not empty):
    the occurrences of [sep] are taken from left to right and do not
    overlap.  [skip] counts the characters of a matched separator still to
    be passed over, [acc] holds the current part, reversed. *)
Fixpoint split_go (sep : str) (skip : nat) (acc : str) (s : str) : list str :=
  match s with
  | [] => [rev acc]
  | c :: t =>
      match skip with
      | S k => split_go sep k acc t
      | O =>
          if startswith sep s
          then rev acc :: split_go sep (length sep - 1) [] t
          else split_go sep 0 (c :: acc) t
      end
  end.

Definition split_str (sep : str) (s : str) : list str := split_go sep 0 [] s.

(** ** Field derivations on the description (app.py, lines 165-168, 214-218) *)

(** [' - '.join([part.strip() for part in original_description.split('|')])] *)
Definition netsuite_display_name (original_description : str) : str :=
  join (lit " - ") (map strip (split "|" original_description)).

(** [original_description.replace('|', '-')] *)
Definition parseable_name_for_tags (original_description : str) : str :=
  replace "|" (lit "-") original_description.

(** [parseable_name_for_tags.split('-')[0].strip()] *)
Definition fragrance (original_description : str) : str :=
  strip (hd [] (split "-" (parseable_name_for_tags original_description))).

(** [fragrance.replace(' ', '-').lower()] *)
Definition smells_like (original_description : str) : str :=
  lower (replace " " (lit "-") (fragrance original_description)).

(** The description up to its first '|' or '-'. *)
Fixpoint before_delimiter (s : str) : str :=
  match s with
  | [] => []
  | c :: t =>
      if Ascii.eqb c "|" || Ascii.eqb c "-" then [] else c :: before_delimiter t
  end.

(** ** Numbers and cell values

    A cell of a pandas table holds a string or a number; a number is an
    integer or a binary64 float, given by its IEEE 754 specification
    ([spec_float]).  A missing cell is the float NaN.  A table lists, cell by
    cell, the text or the number held; pandas stores each column in one
    dtype, which is read off the cells of the column ([dtype_of] below), and
    a cell read out of the table comes in the dtype of its column or of its
    row ([astype], [iterrows]).  The cells are those [read_csv] infers from
    the file: where a column holds a text, its other cells that are not
    missing are texts too; a column that [read_csv] infers as boolean is
    not modelled. *)

Inductive num :=
| NInt (z : Z)
| NFloat (f : spec_float).

Inductive value :=
| VStr (s : str)
| VNum (n : num).

Definition NaN : value := VNum (NFloat S754_nan).

Definition prec : Z := 53.
Definition emax : Z := 1024.

(** binary64 product *)
Definition fmul (x y : spec_float) : spec_float := SFmul prec emax x y.

(** [float(z)]: the binary64 nearest to the integer [z] *)
Definition float_of_int (z : Z) : spec_float := binary_normalize prec emax z 0 false.

(** The literals [16] (as a float) and [453.592]
    (0x1.c5978d4fdf3b6p+8, the binary64 nearest to 453592/1000). *)
Definition f16 : spec_float := S754_finite false 4503599627370496 (-48).
Definition f453_592 : spec_float := S754_finite false 7979674852258742 (-44).

(** int64 arithmetic of a column wraps around *)
Definition wrap64 (z : Z) : Z := ((z + 2 ^ 63) mod 2 ^ 64 - 2 ^ 63)%Z.

(** ** Column dtypes

    The dtypes pandas gives the columns of a table of strings and numbers.
    A column that holds a string is an [object] column and keeps its cells as
    they are; a numeric column that holds a float (a missing cell is one) is
    [float64]; a column of integers is [int64] when they all fit, [uint64]
    when they are all within 0..2^64-1, and [float64] otherwise. *)

Inductive dtype :=
| int64
| uint64
| float64
| object.

(** [str(z)] for an integer *)
Definition int_str (z : Z) : str :=
  list_ascii_of_string (NilEmpty.string_of_int (Z.to_int z)).

(** [pd.isna(v)] *)
Definition isna (v : value) : bool :=
  match v with
  | VNum (NFloat S754_nan) => true
  | _ => false
  end.

(** [.fillna(0)] on one cell of a numeric column: the fill value takes the
    float type of the column that holds the NaN. *)
Definition fillna0 (v : value) : value :=
  if isna v then VNum (NFloat (S754_zero false)) else v.

Definition is_str (v : value) : bool :=
  match v with VStr _ => true | VNum _ => false end.

Definition is_float (v : value) : bool :=
  match v with VNum (NFloat _) => true | _ => false end.

Definition in_int64 (v : value) : bool :=
  match v with
  | VNum (NInt z) => (- 2 ^ 63 <=? z)%Z && (z <? 2 ^ 63)%Z
  | _ => false
  end.

Definition in_uint64 (v : value) : bool :=
  match v with
  | VNum (NInt z) => (0 <=? z)%Z && (z <? 2 ^ 64)%Z
  | _ => false
  end.

(** The dtype of a column, from its cells. *)
Definition dtype_of (cells : list value) : dtype :=
  if existsb is_str cells then object
  else if existsb is_float cells then float64
  else if forallb in_int64 cells then int64
  else if forallb in_uint64 cells then uint64
  else float64.

(** A cell as a column or row of dtype [d] holds it: an integer of a
    float64 column or row is the float nearest to it. *)
Definition astype (d : dtype) (v : value) : value :=
  match d, v with
  | float64, VNum (NInt z) => VNum (NFloat (float_of_int z))
  | _, _ => v
  end.

Definition is_object (d : dtype) : bool :=
  match d with object => true | _ => false end.

Definition is_int64 (d : dtype) : bool :=
  match d with int64 => true | _ => false end.

Definition is_uint64 (d : dtype) : bool :=
  match d with uint64 => true | _ => false end.

(** The dtype of a row that crosses columns of the dtypes [ds]: [object]
    when one of them is, the integer dtype they all share, and [float64]
    for any other mix of numeric dtypes (int64 with uint64 included). *)
Definition common_type (ds : list dtype) : dtype :=
  if existsb is_object ds then object
  else if forallb is_int64 ds then int64
  else if forallb is_uint64 ds then uint64
  else float64.

(** [column * 16] on one cell of a column of dtype [d]: the int64 product
    wraps around modulo 2^64 into -2^63..2^63-1, the uint64 product into
    0..2^64-1, the float64 product is the binary64 product; in an object
    column Python multiplies (an exact integer, a string repeated). *)
Definition times16 (d : dtype) (v : value) : value :=
  match astype d v with
  | VNum (NInt z) =>
      VNum (NInt (match d with
                  | uint64 => (z * 16) mod 2 ^ 64
                  | object => z * 16
                  | _ => wrap64 (z * 16)
                  end)%Z)
  | VNum (NFloat f) => VNum (NFloat (fmul f f16))
  | VStr s => VStr (concat (repeat s 16))
  end.

(** A number that is not NaN. *)
Definition is_number (v : value) : bool :=
  match v with
  | VStr _ => false
  | VNum (NFloat S754_nan) => false
  | VNum _ => true
  end.

(** A number that is not NaN and not below zero. *)
Definition is_nonneg_number (v : value) : bool :=
  match v with
  | VStr _ => false
  | VNum (NInt z) => (0 <=? z)%Z
  | VNum (NFloat S754_nan) => false
  | VNum (NFloat (S754_zero _)) => true
  | VNum (NFloat (S754_infinity s)) => negb s
  | VNum (NFloat (S754_finite s _ _)) => negb s
  end.

(** Exceptions that reading the file and the processing loop can raise. *)
Inductive exn :=
| KeyError (key : str)
| TypeError
| OverflowError
| ValueError
| EmptyDataError
| ParserError.

Definition result (A : Type) : Type := exn + A.

Definition bind {A B : Type} (m : result A) (k : A -> result B) : result B :=
  match m with
  | inl e => inl e
  | inr a => k a
  end.

Notation "x <- m ;; k" := (bind m (fun x => k))
  (at level 61, m at next level, right associativity).

(** [v * f] for a cell [v] and a float [f], in the loop (Python arithmetic) *)
Definition mul_float (v : value) (f : spec_float) : result spec_float :=
  match v with
  | VNum (NInt z) => inr (fmul (float_of_int z) f)
  | VNum (NFloat x) => inr (fmul x f)
  | VStr _ => inl TypeError
  end.

(** [round(x)] with one argument: the nearest integer, a tie going to the
    even one; infinities and NaN raise. *)
Definition round_half_even (m : Z) (k : positive) : Z :=
  let d := Z.pow_pos 2 k in
  let q := (m / d)%Z in
  let r := (m mod d)%Z in
  match (2 * r ?= d)%Z with
  | Lt => q
  | Gt => (q + 1)%Z
  | Eq => if Z.even q then q else (q + 1)%Z
  end.

Definition py_round (x : spec_float) : result Z :=
  match x with
  | S754_zero _ => inr 0%Z
  | S754_infinity _ => inl OverflowError
  | S754_nan => inl ValueError
  | S754_finite s m e =>
      let a := match e with
               | Z0 => Zpos m
               | Zpos p => (Zpos m * Z.pow_pos 2 p)%Z
               | Zneg p => round_half_even (Zpos m) p
               end in
      inr (if s then (- a)%Z else a)
  end.

(** The rational a finite float stands for (0 for the others). *)
Definition float_value (x : spec_float) : Q :=
  match x with
  | S754_finite s m e =>
      let a := match e with
               | Z0 => inject_Z (Zpos m)
               | Zpos p => inject_Z (Zpos m * Z.pow_pos 2 p)
               | Zneg p => Qmake (Zpos m) (Pos.pow 2 p)
               end in
      if s then Qopp a else a
  | _ => inject_Z 0
  end.

(** A float that is neither infinite nor NaN. *)
Definition finite_float (x : spec_float) : bool :=
  match x with
  | S754_zero _ | S754_finite _ _ _ => true
  | _ => false
  end.

(** ** Tables

    A row ([Series]) maps column labels to cells; a [DataFrame] has its
    column labels and its rows in order, each under its index label.  The
    labels of the rows are numbers: the default labels 0, 1, 2, ... of
    [read_csv], or the numbers that stand for the labels read from the file
    (equal labels, equal numbers; the loop uses a label only to find its
    row).  The column names of a file are taken to be distinct once they are
    stripped, as in the files the program is written for: pandas keeps both
    columns of a repeated name, a row here gives the first. *)

Definition Series := list (str * value).

Record DataFrame := {
  columns : list str;
  body : list (nat * Series)
}.

Definition str_eqb (a b : str) : bool :=
  if list_eq_dec ascii_dec a b then true else false.

(** [col in labels] *)
Definition mem (col : str) (labels : list str) : bool := existsb (str_eqb col) labels.

Fixpoint lookup (key : str) (row : Series) : option value :=
  match row with
  | [] => None
  | (k, v) :: t => if str_eqb key k then Some v else lookup key t
  end.

(** [row[key]] *)
Definition getitem (row : Series) (key : str) : result value :=
  match lookup key row with
  | Some v => inr v
  | None => inl (KeyError key)
  end.

(** [row.get(key, default)] *)
Definition get (row : Series) (key : str) (default : value) : value :=
  match lookup key row with
  | Some v => v
  | None => default
  end.

(** The cell under [key] replaced by [f] of it. *)
Fixpoint update (key : str) (f : value -> value) (row : Series) : Series :=
  match row with
  | [] => []
  | (k, v) :: t => if str_eqb key k then (k, f v) :: t else (k, v) :: update key f t
  end.

(** [row[key] = v] *)
Fixpoint setitem (key : str) (v : value) (row : Series) : Series :=
  match row with
  | [] => [(key, v)]
  | (k, w) :: t => if str_eqb key k then (k, v) :: t else (k, w) :: setitem key v t
  end.

(** One row of a table with the columns [header]: its cells in the order
    of the columns, missing cells at the end where the line is shorter (as
    [read_csv] completes a short line); a table has no cell outside its
    columns. *)
Definition record (header : list str) (line : list value) : Series :=
  combine header (line ++ repeat NaN (length header - length line)).

(** The table with the columns [header] and the rows [lines] under the
    labels [index]. *)
Definition read_table (index : list nat) (header : list str) (lines : list (list value))
  : DataFrame :=
  {| columns := header;
     body := combine index (map (record header) lines) |}.

(** The table [pd.read_csv] returns for a file none of whose lines has
    more cells than its header: the header names the columns, the lines
    (those that are not blank: pandas skips a blank line) are the rows,
    labelled 0, 1, 2, ... *)
Definition read_csv (header : list str) (lines : list (list value)) : DataFrame :=
  read_table (seq 0 (length lines)) header lines.

(** Equal row labels: equal texts, equal numbers (0.0 and -0.0 are equal,
    a missing label equals a missing label). *)
Definition float_eqb (x y : spec_float) : bool :=
  match x, y with
  | S754_zero _, S754_zero _ => true
  | S754_infinity a, S754_infinity b => Bool.eqb a b
  | S754_nan, S754_nan => true
  | S754_finite a m e, S754_finite b n f => Bool.eqb a b && Pos.eqb m n && Z.eqb e f
  | _, _ => false
  end.

Definition label_eqb (a b : value) : bool :=
  match a, b with
  | VStr s, VStr t => str_eqb s t
  | VNum (NInt y), VNum (NInt z) => Z.eqb y z
  | VNum (NFloat x), VNum (NFloat y) => float_eqb x y
  | _, _ => false
  end.

Fixpoint key_eqb (a b : list value) : bool :=
  match a, b with
  | [], [] => true
  | x :: a', y :: b' => label_eqb x y && key_eqb a' b'
  | _, _ => false
  end.

(** The number that stands for a label: the place of its first occurrence. *)
Fixpoint first_index (key : list value) (keys : list (list value)) : nat :=
  match keys with
  | [] => 0
  | k :: t => if key_eqb key k then 0 else S (first_index key t)
  end.

Definition nth_cell (j : nat) (line : list value) : value := nth j line NaN.

(** The first [leading] cells of every line, each in the dtype of its
    column. *)
Definition index_keys (leading : nat) (lines : list (list value)) : list (list value) :=
  map (fun line =>
         map (fun j => astype (dtype_of (map (nth_cell j) lines)) (nth_cell j line))
             (seq 0 leading))
      lines.

(** [pd.read_csv(uploaded_file)] (line 118) on a file given by the cells of
    its header line and of the lines after it.  A file without a header
    line raises [EmptyDataError].  The lines are as wide as the wider of
    the header and the first line: a later line with more cells raises
    [ParserError], a shorter line is completed with missing cells.  When the
    first line is wider than the header, the cells in front are not data:
    they are the label of the row (lines with equal cells there carry the
    same label), and the header names the cells after them.  Otherwise the
    rows are labelled 0, 1, 2, ...  A line without any cell is a blank
    line, which [read_csv] skips. *)
Definition read_file (header : list str) (lines : list (list value)) : result DataFrame :=
  match header with
  | [] => inl EmptyDataError
  | _ :: _ =>
      let lines := filter (fun line => match line with [] => false | _ :: _ => true end)
                          lines in
      let fields := Nat.max (length header) (length (hd [] lines)) in
      if existsb (fun line => fields <? length line) lines then inl ParserError
      else
        let leading := fields - length header in
        let index :=
          match leading with
          | O => seq 0 (length lines)
          | S _ => let keys := index_keys leading lines in
                   map (fun key => first_index key keys) keys
          end in
        inr (read_table index header (map (skipn leading) lines))
  end.

(** [df.columns = df.columns.str.strip()] *)
Definition strip_columns (df : DataFrame) : DataFrame :=
  {| columns := map strip (columns df);
     body := map (fun ir => (fst ir, map (fun kv => (strip (fst kv), snd kv)) (snd ir))) (body df) |}.

(** [df[col] = f(df[col])] for a function that works cell by cell *)
Definition map_column (col : str) (f : value -> value) (df : DataFrame) : DataFrame :=
  {| columns := columns df;
     body := map (fun ir => (fst ir, update col f (snd ir))) (body df) |}.

(** [df[col]]: the cells of a column, from the first row to the last *)
Definition column (col : str) (df : DataFrame) : list value :=
  map (fun ir => get (snd ir) col NaN) (body df).

(** [df[new] = f(df[col])] for a label [new] not among the columns *)
Definition add_column (new col : str) (f : value -> value) (df : DataFrame) : DataFrame :=
  {| columns := columns df ++ [new];
     body := map (fun ir => (fst ir, snd ir ++ [(new, f (get (snd ir) col NaN))])) (body df) |}.

(** [pd.DataFrame(columns=labels)] *)
Definition empty_frame (labels : list str) : DataFrame :=
  {| columns := labels; body := [] |}.

(** [df.index] *)
Definition df_index (df : DataFrame) : list nat := map fst (body df).

(** [df.at[i, col] = v]: sets the cell of the row labelled [i]; a label
    that is not in the index adds a row, its other cells missing. *)
Definition at_set (df : DataFrame) (i : nat) (col : str) (v : value) : DataFrame :=
  if existsb (Nat.eqb i) (df_index df)
  then {| columns := columns df;
          body := map (fun jr => if Nat.eqb i (fst jr)
                                 then (fst jr, setitem col v (snd jr)) else jr)
                      (body df) |}
  else {| columns := columns df;
          body := body df ++ [(i, setitem col v (map (fun c => (c, NaN)) (columns df)))] |}.

(** A run of [.at] assignments on the row labelled [i], in order. *)
Definition assign (df : DataFrame) (i : nat) (cells : list (str * value)) : DataFrame :=
  fold_left (fun d cv => at_set d i (fst cv) (snd cv)) cells df.

(** The row a run of assignments leaves under a new label: every column
    missing, then the cells set in order. *)
Definition new_row (cols : list str) (cells : list (str * value)) : Series :=
  fold_left (fun r cv => setitem (fst cv) (snd cv) r) cells
            (map (fun c => (c, NaN)) cols).

Fixpoint row_at (rows : list (nat * Series)) (i : nat) : option Series :=
  match rows with
  | [] => None
  | (j, r) :: t => if Nat.eqb i j then Some r else row_at t i
  end.

(** [df.at[i, col]] *)
Definition at_get (df : DataFrame) (i : nat) (col : str) : option value :=
  match row_at (body df) i with
  | Some r => lookup col r
  | None => None
  end.

(** ** The program: constants *)

Definition numeric_cols_to_check : list str :=
  map lit ["Retail Price"; "End Weight (lbs)"; "Quantity"; "Burn Time";
           "End Weight"; "Height"; "Width"]%string.

Definition required_cols : list str :=
  map lit ["SKU"; "Fragrance - Vessel Description"; "Retail Price";
           "End Weight (lbs)"; "Quantity"]%string.

Definition netsuite_columns : list str :=
  map lit ["externalid"; "itemid"; "Display Name"; "unitstype"; "subsidiary";
           "includechildren"; "location"; "track landed cost"; "costingmethod";
           "costcategory"; "atpmethod"; "autopreferredstocklevel";
           "isspecialorderitem"; "usebins"; "cogsaccount"; "incomeaccount";
           "assetaccount"; "taxSchedule"; "isinactive"; "Price"; "Weight"]%string.

Definition shopify_columns : list str :=
  map lit ["Handle"; "Title"; "Body (HTML)"; "Vendor"; "Tags"; "Published";
           "Option1 Name"; "Option1 Value"; "Option2 Name"; "Option2 Value";
           "Option3 Name"; "Option3 Value"; "Variant SKU"; "Variant Grams";
           "Variant Inventory Tracker"; "Variant Inventory Qty";
           "Variant Inventory Policy"; "Variant Fulfillment Service";
           "Variant Price"; "Variant Compare At Price";
           "Variant Requires Shipping"; "Variant Taxable"; "Variant Barcode";
           "Image Src"; "Image Position"; "Image Alt Text"; "Gift Card";
           "SEO Title"; "SEO Description";
           "Google Shopping / Google Product Category";
           "Google Shopping / Gender"; "Google Shopping / Age Group";
           "Google Shopping / MPN"; "Google Shopping / AdWords Grouping";
           "Google Shopping / AdWords Labels"; "Google Shopping / Condition";
           "Google Shopping / Custom Product";
           "Google Shopping / Custom Label 0"; "Google Shopping / Custom Label 1";
           "Google Shopping / Custom Label 2"; "Google Shopping / Custom Label 3";
           "Google Shopping / Custom Label 4"; "Variant Image";
           "Variant Weight Unit"; "Variant Tax Code"; "Cost per item"; "Status";
           "Standard Product Type"; "Custom Product Type"]%string.

Definition inventory_columns : list str :=
  map lit ["External ID"; "Full name"; "Account"; "Class"; "Department"; "memo";
           "line qty adj"; "Line adj loc"; "Line memo"; "itemId"]%string.

(** The three tables the loop fills. *)
Record Tables := {
  netsuite_import : DataFrame;
  shopify_import : DataFrame;
  netsuite_inventory_adjustment : DataFrame
}.

(** The tables that hold one row each, under the label [i]. *)
Definition one_row (i : nat) (rn rs ri : Series) : Tables :=
  {| netsuite_import := {| columns := netsuite_columns; body := [(i, rn)] |};
     shopify_import := {| columns := shopify_columns; body := [(i, rs)] |};
     netsuite_inventory_adjustment := {| columns := inventory_columns; body := [(i, ri)] |} |}.

Definition initial_tables : Tables :=
  {| netsuite_import := empty_frame netsuite_columns;
     shopify_import := empty_frame shopify_columns;
     netsuite_inventory_adjustment := empty_frame inventory_columns |}.

(** How the run on an uploaded file goes, from line 118 to line 233:
    stopped by [st.stop()] after the missing-columns message; ended in the
    [except Exception] handler by an exception raised so far; or the loop
    has ended and line 233 is reached ("Processing complete") with the three
    tables built.  What follows (lines 235-256) shows the three tables and
    offers them for download; that part is Streamlit's and is not modelled
    ([st.dataframe] refuses a table with an integer outside int64, as
    'Variant Grams' of 2^63 or more).  Nor is the preview of line 154, which
    shows the first rows of the cleaned table, whose numeric columns are
    int64, uint64 or float64. *)
Inductive outcome :=
| Stopped (message : str)
| Unexpected (e : exn)
| Done (T : Tables).

Definition dq : ascii := chr 34.
Definition nl : ascii := chr 10.

Definition p_open : str :=
  lit "<p data-mce-fragment=" ++ [dq] ++ lit "1" ++ [dq] ++ lit ">".

Definition indent16 : str := lit "                ".

(** The f-string of 'Body (HTML)' (lines 208-212) over the four formatted
    values. *)
Definition body_html (burn_time end_weight height width : str) : str :=
  [nl] ++ indent16 ++ p_open ++ lit "Approximate Burn Time: " ++ burn_time
       ++ lit " hours</p>"
  ++ [nl] ++ indent16 ++ p_open ++ lit "Weight: " ++ end_weight ++ lit " oz</p>"
  ++ [nl] ++ indent16 ++ p_open ++ lit "Dimensions: " ++ height ++ [dq]
       ++ lit " Height x " ++ width ++ [dq] ++ lit " Width</p>"
  ++ [nl] ++ lit "            ".

(** The f-string of 'Tags' (line 218). *)
Definition tags (sku_str original_description : str) : str :=
  lit "_tab2_antique-restock-101,antique" ++ suffix 6 sku_str
  ++ lit ",_tab1_" ++ smells_like original_description
  ++ lit "-smells-like, " ++ fragrance original_description.

(** The message of [st.error] at line 141. *)
Definition missing_message (missing_cols : list str) : str :=
  lit "**Error:** Your file is missing the following required columns: `"
  ++ join (lit ", ") missing_cols ++ lit "`".

Definition VInt (z : Z) : value := VNum (NInt z).
Definition VLit (s : string) : value := VStr (lit s).

(** The example row of the specification. *)
Definition f1_5 : spec_float := S754_finite false 6755399441055744 (-52).
Definition f24_99 : spec_float := S754_finite false 7034059667999293 (-48).

Definition example_header : list str :=
  map lit ["SKU"; "Fragrance - Vessel Description"; "Retail Price";
           "End Weight (lbs)"; "Quantity"; "Burn Time"; "Height"; "Width"]%string.

Definition example_line : list value :=
  [ VLit "ABC123456"; VLit "Vanilla Bean | Mason Jar"; VNum (NFloat f24_99);
    VNum (NFloat f1_5); VInt 3; VInt 40; VInt 4; VInt 3 ].


(** ** The program: data cleaning and the processing loop

    Two functions of the Python runtime are parameters: the text of a float
    ([str(x)] and f-string formatting) and the parser of [pd.to_numeric]
    for a string cell ([None] where it does not parse). *)

Class Runtime := {
  float_str : spec_float -> str;
  parse_num : str -> option num
}.

Section Program.

Context {rt : Runtime}.

(** [str(v)], also the formatting of [{v}] in an f-string *)
Definition py_str (v : value) : str :=
  match v with
  | VStr s => s
  | VNum (NInt z) => int_str z
  | VNum (NFloat f) => float_str f
  end.

(** [pd.to_numeric(cell, errors='coerce')] *)
Definition to_numeric (v : value) : value :=
  match v with
  | VStr s => match parse_num s with
              | Some n => VNum n
              | None => NaN
              end
  | VNum _ => v
  end.

(** Line 146 on one cell *)
Definition coerce (v : value) : value := fillna0 (to_numeric v).

(** Lines 125-150: the cleaned table, or the message of the
    missing-columns error. *)
Definition data_cleaning (antique_import : DataFrame) : str + DataFrame :=
  let antique_import := strip_columns antique_import in
  let numeric_cols :=
    filter (fun col => mem col (columns antique_import)) numeric_cols_to_check in
  let missing_cols :=
    filter (fun col => negb (mem col (columns antique_import))) required_cols in
  match missing_cols with
  | _ :: _ => inl (missing_message missing_cols)
  | [] =>
      let antique_import :=
        fold_left (fun df col => map_column col coerce df) numeric_cols antique_import in
      let antique_import :=
        if negb (mem (lit "End Weight") (columns antique_import))
           && mem (lit "End Weight (lbs)") (columns antique_import)
        then add_column (lit "End Weight") (lit "End Weight (lbs)")
               (times16 (dtype_of (column (lit "End Weight (lbs)") antique_import)))
               antique_import
        else antique_import in
      inr antique_import
  end.

(** One line of the file as a row, under the stripped column names. *)
Definition raw_row (header : list str) (line : list value) : Series :=
  map (fun kv => (strip (fst kv), snd kv)) (record header line).

(** What lines 144-146 do to one line of the file: the cells of the checked
    columns are coerced, one by one. *)
Definition clean_row (header : list str) (line : list value) : Series :=
  let cols := map strip header in
  let row := raw_row header line in
  fold_left (fun r col => update col coerce r)
            (filter (fun col => mem col cols) numeric_cols_to_check) row.

(** The dtype of 'End Weight (lbs)' after cleaning, for the lines of a
    file. *)
Definition lbs_dtype (header : list str) (lines : list (list value)) : dtype :=
  dtype_of (map (fun line => get (clean_row header line) (lit "End Weight (lbs)") NaN) lines).

(** One line of the file as a row of the cleaned table: line 150 adds the
    product of its 'End Weight (lbs)' in the dtype of that column. *)
Definition cleaned_row (header : list str) (lines : list (list value))
    (line : list value) : Series :=
  let cols := map strip header in
  let row := clean_row header line in
  if negb (mem (lit "End Weight") cols) && mem (lit "End Weight (lbs)") cols
  then row ++ [(lit "End Weight",
                times16 (lbs_dtype header lines) (get row (lit "End Weight (lbs)") NaN))]
  else row.

(** Lines 171-189: the cells assigned in [netsuite_import], in order. *)
Definition netsuite_cells (sku : value) (display_name : str) (price lbs : value)
  : list (str * value) :=
  [ (lit "externalid", sku);
    (lit "itemid", sku);
    (lit "Display Name", VStr display_name);
    (lit "unitstype", VLit "Quantity");
    (lit "location", VLit "ACC 1611");
    (lit "track landed cost", VLit "FALSE");
    (lit "costingmethod", VLit "AVERAGE");
    (lit "costcategory", VLit "Default");
    (lit "atpmethod", VLit "Discrete ATP");
    (lit "autopreferredstocklevel", VLit "TRUE");
    (lit "isspecialorderitem", VLit "FALSE");
    (lit "usebins", VLit "FALSE");
    (lit "cogsaccount", VInt 318);
    (lit "incomeaccount", VInt 429);
    (lit "assetaccount", VInt 227);
    (lit "taxSchedule", VLit "Non-taxable");
    (lit "isinactive", VLit "FALSE");
    (lit "Price", price);
    (lit "Weight", lbs) ].

(** Lines 192-202: the cells assigned in [netsuite_inventory_adjustment]. *)
Definition inventory_cells (sku : value) (display_name : str) (qty : value)
  : list (str * value) :=
  let sku_str := py_str sku in
  [ (lit "External ID", VStr (lit "Antique Restock " ++ suffix 6 sku_str));
    (lit "Full name", VStr (py_str sku ++ lit " " ++ display_name));
    (lit "Account", VInt 325);
    (lit "Class", VLit "Operations : Production");
    (lit "Department", VLit "Retail");
    (lit "memo", VStr (lit "Antique Restock " ++ suffix 6 sku_str));
    (lit "line qty adj", qty);
    (lit "Line adj loc", VLit "ACC 1611");
    (lit "Line memo", VStr (lit "Antique Restock " ++ suffix 6 sku_str));
    (lit "itemId", sku) ].

(** Lines 205-231: the cells assigned in [shopify_import]. *)
Definition shopify_cells (sku : value) (original_description : str)
    (burn_time end_weight height width : value) (grams : Z) (price : value)
  : list (str * value) :=
  let sku_str := py_str sku in
  [ (lit "Handle", VStr (replace " " [] sku_str));
    (lit "Title", VStr original_description);
    (lit "Body (HTML)",
       VStr (body_html (py_str burn_time) (py_str end_weight)
                       (py_str height) (py_str width)));
    (lit "Tags", VStr (tags sku_str original_description));
    (lit "Published", VLit "FALSE");
    (lit "Variant SKU", sku);
    (lit "Variant Grams", VInt grams);
    (lit "Variant Inventory Tracker", VLit "shopify");
    (lit "Variant Inventory Policy", VLit "deny");
    (lit "Variant Fulfillment Service", VLit "manual");
    (lit "Variant Price", price);
    (lit "Variant Requires Shipping", VLit "TRUE");
    (lit "Variant Taxable", VLit "TRUE");
    (lit "Gift Card", VLit "FALSE");
    (lit "Variant Weight Unit", VLit "lb");
    (lit "Status", VLit "active") ].

(** Lines 164-231: one pass of the loop body for the row [row] labelled
    [index].  The cells of [row] are read in the order of the source, so the
    first exception is the one the source raises. *)
Definition loop_body (T : Tables) (index : nat) (row : Series) : result Tables :=
  d <- getitem row (lit "Fragrance - Vessel Description") ;;
  let original_description := py_str d in
  let display_name := netsuite_display_name original_description in
  sku <- getitem row (lit "SKU") ;;
  price <- getitem row (lit "Retail Price") ;;
  lbs <- getitem row (lit "End Weight (lbs)") ;;
  let ns := assign (netsuite_import T) index
              (netsuite_cells sku display_name price lbs) in
  qty <- getitem row (lit "Quantity") ;;
  let inv := assign (netsuite_inventory_adjustment T) index
               (inventory_cells sku display_name qty) in
  burn_time <- getitem row (lit "Burn Time") ;;
  end_weight <- getitem row (lit "End Weight") ;;
  let height := get row (lit "Height") (VLit "N/A") in
  let width := get row (lit "Width") (VLit "N/A") in
  product <- mul_float lbs f453_592 ;;
  grams <- py_round product ;;
  let sh := assign (shopify_import T) index
              (shopify_cells sku original_description burn_time end_weight
                             height width grams price) in
  inr {| netsuite_import := ns;
         shopify_import := sh;
         netsuite_inventory_adjustment := inv |}.

(** The dtype of each column of the cleaned table: read off its cells,
    except that the product of line 150 has the dtype of 'End Weight (lbs)'
    ([synthesized] tells whether line 150 added the column). *)
Definition dtypes (synthesized : bool) (df : DataFrame) (col : str) : dtype :=
  if synthesized && str_eqb col (lit "End Weight")
  then dtype_of (column (lit "End Weight (lbs)") df)
  else dtype_of (column col df).

(** [df.iterrows()]: each row under its label, as a Series of one dtype,
    the common type of the columns.  In a table with a text column the row
    is an object Series and every cell comes as its column holds it; in a
    table of numeric columns that are not all int64 (or all uint64) every
    cell of the row comes as a float. *)
Definition iterrows (dt : str -> dtype) (df : DataFrame) : list (nat * Series) :=
  let d := common_type (map dt (columns df)) in
  map (fun ir =>
         (fst ir, map (fun kv => (fst kv, astype d (astype (dt (fst kv)) (snd kv))))
                      (snd ir)))
      (body df).

(** The rows the loop goes through: [antique_import.iterrows()] on the
    cleaned table (none when the column check stops the run). *)
Definition normalized_rows (antique_import : DataFrame) : list (nat * Series) :=
  match data_cleaning antique_import with
  | inl _ => []
  | inr cleaned =>
      let cols := map strip (columns antique_import) in
      iterrows (dtypes (negb (mem (lit "End Weight") cols)
                        && mem (lit "End Weight (lbs)") cols) cleaned) cleaned
  end.

(** [for index, row in antique_import.iterrows(): ...] *)
Fixpoint process (rows : list (nat * Series)) (T : Tables) : result Tables :=
  match rows with
  | [] => inr T
  | (index, row) :: rest =>
      T' <- loop_body T index row ;;
      process rest T'
  end.

(** Lines 125-233 on the table [antique_import] that line 118 has read. *)
Definition run (antique_import : DataFrame) : outcome :=
  match data_cleaning antique_import with
  | inl message => Stopped message
  | inr _ =>
      match process (normalized_rows antique_import) initial_tables with
      | inl e => Unexpected e
      | inr T => Done T
      end
  end.

(** The run on the table with the columns [header] and the rows [lines]
    under the labels 0, 1, 2, ...: the table of a file none of whose lines
    has more cells than its header. *)
Definition main (header : list str) (lines : list (list value)) : outcome :=
  run (read_csv header lines).

(** Lines 117-233 on an uploaded file, given by the cells of its header
    line and of its other lines: an exception of [read_csv] ends the run in
    the handler. *)
Definition run_file (header : list str) (lines : list (list value)) : outcome :=
  match read_file header lines with
  | inl e => Unexpected e
  | inr antique_import => run antique_import
  end.

(** The three tables a run has built when it reaches line 233; a run that
    is stopped or ends in the handler shows none. *)
Definition output_tables (o : outcome) : list DataFrame :=
  match o with
  | Done T => [netsuite_import T; shopify_import T; netsuite_inventory_adjustment T]
  | _ => []
  end.

(** ** Notions used in the statements *)

(** The columns of the cleaned table of a file with the columns [header]. *)
Definition cleaned_columns (header : list str) : list str :=
  map strip header
  ++ (if negb (mem (lit "End Weight") (map strip header))
         && mem (lit "End Weight (lbs)") (map strip header)
      then [lit "End Weight"] else []).

(** The dtype of a column of the cleaned table of a file, the dtype of its
    rows, and one line of the file as [iterrows] hands it to the loop. *)
Definition col_dtype (header : list str) (lines : list (list value)) (col : str) : dtype :=
  let cols := map strip header in
  dtype_of
    (map (fun line =>
            get (cleaned_row header lines line)
                (if (negb (mem (lit "End Weight") cols) && mem (lit "End Weight (lbs)") cols)
                    && str_eqb col (lit "End Weight")
                 then lit "End Weight (lbs)" else col) NaN)
         lines).

Definition row_dtype (header : list str) (lines : list (list value)) : dtype :=
  common_type (map (col_dtype header lines) (cleaned_columns header)).

Definition seen_row (header : list str) (lines : list (list value)) (line : list value)
  : Series :=
  map (fun kv => (fst kv, astype (row_dtype header lines)
                            (astype (col_dtype header lines (fst kv)) (snd kv))))
      (cleaned_row header lines line).

(** The same number: the cell itself, or the float of the integer it
    holds. *)
Definition presented (v0 v : value) : Prop :=
  v = v0 \/ v = astype float64 v0.

Definition tables_ok (T : Tables) : Prop :=
  columns (netsuite_import T) = netsuite_columns
  /\ columns (shopify_import T) = shopify_columns
  /\ columns (netsuite_inventory_adjustment T) = inventory_columns.

Definition fresh (i : nat) (T : Tables) : Prop :=
  ~ In i (df_index (netsuite_import T))
  /\ ~ In i (df_index (shopify_import T))
  /\ ~ In i (df_index (netsuite_inventory_adjustment T)).

(** [T] with one more row at the end of each table. *)
Definition extend (T : Tables) (i : nat) (rn rs ri : Series) : Tables :=
  {| netsuite_import :=
       {| columns := netsuite_columns; body := body (netsuite_import T) ++ [(i, rn)] |};
     shopify_import :=
       {| columns := shopify_columns; body := body (shopify_import T) ++ [(i, rs)] |};
     netsuite_inventory_adjustment :=
       {| columns := inventory_columns;
          body := body (netsuite_inventory_adjustment T) ++ [(i, ri)] |} |}.

(** The rows one run of the loop adds, one triple per input row. *)
Definition rows_added (rows : list (nat * Series)) (outs : list (Series * Series * Series)) : Prop :=
  Forall2 (fun ir o =>
             loop_body initial_tables (fst ir) (snd ir)
             = inr (one_row (fst ir) (fst (fst o)) (snd (fst o)) (snd o)))
          rows outs.

(** The cells a pass reads and the three rows it builds when it ends
    normally. *)
Inductive pass (row : Series) : Series -> Series -> Series -> Prop :=
| pass_intro (d sku price lbs qty burn_time end_weight : value)
      (product : spec_float) (grams : Z) :
    lookup (lit "Fragrance - Vessel Description") row = Some d ->
    lookup (lit "SKU") row = Some sku ->
    lookup (lit "Retail Price") row = Some price ->
    lookup (lit "End Weight (lbs)") row = Some lbs ->
    lookup (lit "Quantity") row = Some qty ->
    lookup (lit "Burn Time") row = Some burn_time ->
    lookup (lit "End Weight") row = Some end_weight ->
    mul_float lbs f453_592 = inr product ->
    py_round product = inr grams ->
    pass row
      (new_row netsuite_columns
         (netsuite_cells sku (netsuite_display_name (py_str d)) price lbs))
      (new_row shopify_columns
         (shopify_cells sku (py_str d) burn_time end_weight
            (get row (lit "Height") (VLit "N/A"))
            (get row (lit "Width") (VLit "N/A")) grams price))
      (new_row inventory_columns
         (inventory_cells sku (netsuite_display_name (py_str d)) qty)).

End Program.

(** ** Closed examples

    A runtime for the closed examples below: a string of decimal digits
    parses as that integer and any other string does not parse; the text of
    a float that is a whole number below 2^53 is its digits followed by
    ".0" ([str(24.0)] is "24.0"), and the text of any other float is not
    spelled out.  The examples hold no other numeric text and state nothing
    about the text of any other float. *)

Definition digit_value (c : ascii) : option Z :=
  let n := nat_of_ascii c in
  if (48 <=? n) && (n <=? 57) then Some (Z.of_nat (n - 48)) else None.

Fixpoint parse_digits (acc : Z) (s : str) : option Z :=
  match s with
  | [] => Some acc
  | c :: t => match digit_value c with
              | Some d => parse_digits (10 * acc + d) t
              | None => None
              end
  end.

Definition whole_float_str (f : spec_float) : str :=
  match f with
  | S754_zero s => if s then lit "-0.0" else lit "0.0"
  | S754_finite s m e =>
      let n := match e with
               | Z0 => Some (Zpos m)
               | Zpos p => Some (Zpos m * Z.pow_pos 2 p)%Z
               | Zneg p => if (Zpos m mod Z.pow_pos 2 p =? 0)%Z
                           then Some (Zpos m / Z.pow_pos 2 p)%Z else None
               end in
      match n with
      | Some z => if (z <? 2 ^ 53)%Z
                  then (if s then lit "-" else []) ++ int_str z ++ lit ".0"
                  else lit "<float>"
      | None => lit "<float>"
      end
  | _ => lit "<float>"
  end.

Definition example_runtime : Runtime :=
  {| float_str := whole_float_str;
     parse_num := fun s => match s with
                           | [] => None
                           | _ :: _ => option_map NInt (parse_digits 0 s)
                           end |}.

(** The tables of the run on the example row. *)
Definition example_tables : Tables :=
  Eval vm_compute in
    match main (rt := example_runtime) example_header [example_line] with
    | Done T => T
    | _ => initial_tables
    end.

(** The example file without its 'Quantity' column, and with only the
    required columns. *)
Definition header_no_quantity : list str :=
  map lit ["SKU"; "Fragrance - Vessel Description"; "Retail Price";
           "End Weight (lbs)"; "Burn Time"; "Height"; "Width"]%string.

Definition header_required : list str :=
  map lit ["SKU"; "Fragrance - Vessel Description"; "Retail Price";
           "End Weight (lbs)"; "Quantity"]%string.

Definition line_required : list value :=
  [ VLit "ABC123456"; VLit "Vanilla Bean | Mason Jar"; VNum (NFloat f24_99);
    VNum (NFloat f1_5); VInt 3 ].

(** ** The password gate (app.py, lines 13-37)

    [st.session_state] is a dictionary from keys to strings and booleans.
    The code's own reads and writes of it are modelled; what the widget
    does (it stores the text the user typed under its key, then calls
    [on_change]) is [submit]. *)

Inductive sval :=
| SStr (s : str)
| SBool (b : bool).

Definition session_state := list (str * sval).

Fixpoint state_lookup (key : str) (ss : session_state) : option sval :=
  match ss with
  | [] => None
  | (k, v) :: t => if str_eqb key k then Some v else state_lookup key t
  end.

(** [st.session_state[key]] *)
Definition state_getitem (ss : session_state) (key : str) : result sval :=
  match state_lookup key ss with
  | Some v => inr v
  | None => inl (KeyError key)
  end.

(** [st.session_state[key] = v] *)
Fixpoint state_set (key : str) (v : sval) (ss : session_state) : session_state :=
  match ss with
  | [] => [(key, v)]
  | (k, w) :: t => if str_eqb key k then (k, v) :: t else (k, w) :: state_set key v t
  end.

(** [del st.session_state[key]] *)
Definition state_del (key : str) (ss : session_state) : result session_state :=
  match state_lookup key ss with
  | Some _ => inr (filter (fun kv => negb (str_eqb key (fst kv))) ss)
  | None => inl (KeyError key)
  end.

(** The truth value of a string or boolean. *)
Definition truthy (v : sval) : bool :=
  match v with
  | SBool b => b
  | SStr [] => false
  | SStr (_ :: _) => true
  end.

(** [v == w] *)
Definition sval_eqb (v w : sval) : bool :=
  match v, w with
  | SStr a, SStr b => str_eqb a b
  | SBool a, SBool b => Bool.eqb a b
  | _, _ => false
  end.

(** Lines 15-21, with [secret] for [st.secrets["password"]]. *)
Definition password_entered (secret : str) (ss : session_state) : result session_state :=
  p <- state_getitem ss (lit "password") ;;
  if sval_eqb p (SStr secret)
  then state_del (lit "password") (state_set (lit "password_correct") (SBool true) ss)
  else inr (state_set (lit "password_correct") (SBool false) ss).

(** What [check_password] puts on the page. *)
Inductive element :=
| PasswordInput
| PasswordIncorrect.

(** Lines 23-33: the returned boolean and the elements shown. *)
Definition check_password (ss : session_state) : bool * list element :=
  let password_correct :=
    match state_lookup (lit "password_correct") ss with
    | Some v => v
    | None => SBool false
    end in
  if truthy password_correct then (true, [])
  else
    (false,
     PasswordInput ::
     match state_lookup (lit "password_correct") ss with
     | Some v => if negb (truthy v) then [PasswordIncorrect] else []
     | None => []
     end).

(** The user types [p] in the password input: the widget stores it under
    its key "password" and calls [password_entered]. *)
Definition submit (secret p : str) (ss : session_state) : result session_state :=
  password_entered secret (state_set (lit "password") (SStr p) ss).

(** One run of the script (lines 36-37 and 113-259): stopped at the gate,
    waiting for a file, or the run on the uploaded file. *)
Inductive page :=
| AtGate (shown : list element)
| NoUpload
| Ran (o : outcome).

Definition script {rt : Runtime} (ss : session_state)
    (uploaded_file : option (list str * list (list value))) : page :=
  if negb (fst (check_password ss)) then AtGate (snd (check_password ss))
  else match uploaded_file with
       | None => NoUpload
       | Some (header, lines) => Ran (main header lines)
       end.

Definition page_tables (p : page) : list DataFrame :=
  match p with
  | Ran o => output_tables o
  | _ => []
  end.

(** ** The names of the downloads (lines 235, 246, 251, 256) *)

Record date := { year : nat; month : nat; day : nat }.

Definition digit (n : nat) : ascii := ascii_of_nat (48 + n).

(** Two decimal digits, for a number below 100. *)
Definition two_digits (n : nat) : str := [digit (n / 10); digit (n mod 10)].

(** [today.strftime("%m_%d_%y")] *)
Definition strftime_m_d_y (today : date) : str :=
  two_digits (month today) ++ lit "_" ++ two_digits (day today) ++ lit "_"
  ++ two_digits (year today mod 100).

Definition netsuite_file_name (today : str) : str :=
  lit "netsuite_import_" ++ today ++ lit ".csv".

Definition shopify_file_name (today : str) : str :=
  lit "shopify_import_" ++ today ++ lit ".csv".

Definition inventory_file_name (today : str) : str :=
  lit "inventory_adjustment_" ++ today ++ lit ".csv".

(** A calendar date as [datetime.date] holds it. *)
Definition valid_date (d : date) : Prop :=
  1 <= month d <= 12 /\ 1 <= day d <= 31 /\ 1 <= year d.

(** ** More files for closed examples *)

(** The example header with blanks around some names. *)
Definition header_spaced : list str :=
  map lit [" SKU"; "Fragrance - Vessel Description  "; "Retail Price";
           "  End Weight (lbs) "; "Quantity"; "Burn Time"; "Height"; "Width"]%string.

(** A line with an infinite weight. *)
Definition line_infinite_weight : list value :=
  [ VLit "XYZ000001"; VLit "Cedar | Tin"; VInt 10;
    VNum (NFloat (S754_infinity false)); VInt 1; VInt 40; VInt 4; VInt 3 ].

(** A line whose price does not parse and whose weight is missing. *)
Definition line_unparseable : list value :=
  [ VLit "ABC123456"; VLit "Vanilla Bean | Mason Jar"; VLit "call us";
    NaN; VInt 3; VInt 40; VInt 4; VInt 3 ].

(** The example header with an 'End Weight' column, and a line for it. *)
Definition header_with_end_weight : list str :=
  example_header ++ [lit "End Weight"].

Definition line_with_end_weight : list value :=
  example_line ++ [VInt 99].

(** A file of numbers only: the SKU and the description are numbers too,
    and no column holds a text. *)
Definition line_numeric : list value :=
  [ VInt 123456789; VInt 2024; VNum (NFloat f24_99); VNum (NFloat f1_5);
    VInt 3; VInt 40; VInt 4; VInt 3 ].

Definition numeric_tables : Tables :=
  Eval vm_compute in
    match main (rt := example_runtime) example_header [line_numeric] with
    | Done T => T
    | _ => initial_tables
    end.

(** The cleaned table of the example file, and 24.0, its 'End Weight'. *)
Definition example_cleaned : DataFrame :=
  Eval vm_compute in
    match data_cleaning (rt := example_runtime) (read_csv example_header [example_line]) with
    | inr df => df
    | inl _ => empty_frame []
    end.

Definition f24 : spec_float := S754_finite false 6755399441055744 (-48).

(** A line with a quantity below zero. *)
Definition line_negative_quantity : list value :=
  [ VLit "ABC123456"; VLit "Vanilla Bean | Mason Jar"; VNum (NFloat f24_99);
    VNum (NFloat f1_5); VInt (-5); VInt 40; VInt 4; VInt 3 ].

(** A line with a weight of 6 * 10^17 pounds, an integer. *)
Definition line_heavy : list value :=
  [ VLit "ABC123456"; VLit "Vanilla Bean | Mason Jar"; VNum (NFloat f24_99);
    VInt 600000000000000000; VInt 3; VInt 40; VInt 4; VInt 3 ].

(** Two lines with one cell more than the example header has names, and
    the same first cell. *)
Definition line_second : list value :=
  [ VLit "XYZ000001"; VLit "Cedar | Tin"; VInt 10; VNum (NFloat f1_5);
    VInt 1; VInt 40; VInt 4; VInt 3 ].

Definition lines_labelled : list (list value) :=
  [ VLit "lot 7" :: example_line; VLit "lot 7" :: line_second ].

(** ** Tactics

    The two roundings of a binary64 product by 16, which shift the mantissa
    by [n] bits and then by none. *)
Ltac shift_by n :=
  match goal with
  | |- context [(fexp prec emax ?a - ?b)%Z] =>
      replace (fexp prec emax a - b)%Z with n
        by (unfold fexp, emin, prec, emax; lia)
  end.

Ltac fmul_f16_shift n :=
  unfold fmul, f16, SFmul;
  rewrite xorb_false_r, Pos.mul_comm;
  unfold binary_round_aux, shr_fexp;
  cbn [Pos.mul Zdigits2 digits2_pos];
  shift_by n;
  unfold shr at 1;
  match goal with
  | |- context [iter_pos shr_1 ?p ?r] =>
      let v := eval vm_compute in (iter_pos shr_1 p r) in
      change (iter_pos shr_1 p r) with v
  end;
  cbn [shr_m loc_of_shr_record round_nearest_even shr_record_of_loc Zdigits2 digits2_pos];
  shift_by 0%Z;
  cbn [shr shr_m].

(** The row or the cell a statement leaves open, read off a closed
    example. *)
Ltac pin_cell H := vm_compute in H; injection H as H.

(** * Properties *)

Section Properties.

Context {rt : Runtime}.

(** The float literals are the binary64 numbers nearest to their decimal
    text. *)
Example ex_literals :
  float_of_int 16 = f16
  /\ SFdiv prec emax (float_of_int 3) (float_of_int 2) = f1_5
  /\ SFdiv prec emax (float_of_int 2499) (float_of_int 100) = f24_99
  /\ SFdiv prec emax (float_of_int 453592) (float_of_int 1000) = f453_592.
Proof. repeat split; vm_compute; reflexivity. Qed.

Example ex_int_str : int_str 318 = lit "318" /\ int_str 0 = lit "0" /\ int_str (-5) = lit "-5".
Proof. repeat split; reflexivity. Qed.

Example ex_round : py_round (fmul (S754_finite false 6755399441055744 (-52)) f453_592) = inr 680%Z.
Proof. vm_compute. reflexivity. Qed.

Example ex_round2 : map (fun m => py_round (S754_finite false m (-1))) [1;2;3;4;5;7]%positive
   = map inr [0;1;2;2;2;4]%Z.
Proof. vm_compute. reflexivity. Qed.

Example ex_display :
  netsuite_display_name (lit "Vanilla Bean | Mason Jar") = lit "Vanilla Bean - Mason Jar".
Proof. reflexivity. Qed.

Example ex_split_str : split_str (lit " - ") (lit "a - - b -  - c - ") = [lit "a"; lit "- b"; lit ""; lit "c"; lit ""].
Proof. vm_compute. reflexivity. Qed.

Example ex_smells : smells_like (lit " Vanilla Bean - x| Mason Jar") = lit "vanilla-bean".
Proof. reflexivity. Qed.

Example ex_main :
  match main example_header [example_line] with
  | Done T => at_get (shopify_import T) 0 (lit "Variant Grams") = Some (VInt 680)
              /\ at_get (netsuite_import T) 0 (lit "Display Name") = Some (VLit "Vanilla Bean - Mason Jar")
              /\ at_get (netsuite_inventory_adjustment T) 0 (lit "External ID") = Some (VLit "Antique Restock 123456")
              /\ at_get (shopify_import T) 0 (lit "Option1 Name") = Some NaN
  | _ => False
  end.
Proof. vm_compute. repeat split. Qed.

(** ** Strings: [split], [join] and [strip] *)

Lemma split_nonempty (sep : ascii) (s : str) : split sep s <> [].
Proof.
  destruct s as [|c t]; simpl; [discriminate|].
  destruct (Ascii.eqb c sep); [discriminate|].
  destruct (split sep t); discriminate.
Qed.

(** Joining the parts with the separator gives the string back. *)
Lemma join_split (sep : ascii) (s : str) : join [sep] (split sep s) = s.
Proof.
  induction s as [|c t IH]; simpl; [reflexivity|].
  destruct (Ascii.eqb_spec c sep) as [->|Hne].
  - pose proof (split_nonempty sep t) as Hnil.
    destruct (split sep t) as [|p ps]; [contradiction|].
    simpl in *. now rewrite IH.
  - pose proof (split_nonempty sep t) as Hnil.
    destruct (split sep t) as [|p ps]; [contradiction|].
    simpl in *. destruct ps; simpl; now rewrite <- IH.
Qed.

(** No part holds the separator. *)
Lemma split_parts_free (sep : ascii) (s : str) :
  Forall (fun p => ~ In sep p) (split sep s).
Proof.
  induction s as [|c t IH]; simpl.
  - constructor; [intros []|constructor].
  - destruct (Ascii.eqb_spec c sep) as [->|Hne].
    + constructor; [intros []|exact IH].
    + destruct (split sep t) as [|p ps].
      * constructor; [|constructor]. intros [H|[]]. now apply Hne.
      * inversion IH; subst. constructor; [|assumption].
        intros [H|H]; [now apply Hne | contradiction].
Qed.

(** A string without the separator is its own single part. *)
Lemma split_no_sep (sep : ascii) (s : str) : ~ In sep s -> split sep s = [s].
Proof.
  induction s as [|c t IH]; simpl; intros Hn; [reflexivity|].
  destruct (Ascii.eqb_spec c sep) as [->|Hne].
  - exfalso. apply Hn. now left.
  - rewrite IH; [reflexivity|]. intros H. apply Hn. now right.
Qed.

Lemma lstrip_decomp (s : str) :
  exists ws, s = ws ++ lstrip s /\ forallb isspace ws = true.
Proof.
  induction s as [|c t [ws [Heq Hws]]]; simpl.
  - exists []. split; reflexivity.
  - destruct (isspace c) eqn:Hc.
    + exists (c :: ws). simpl. rewrite Hc, Hws. split; [now f_equal|reflexivity].
    + exists []. split; reflexivity.
Qed.

Lemma lstrip_head (s : str) (c : ascii) (t : str) :
  lstrip s = c :: t -> isspace c = false.
Proof.
  induction s as [|a u IH]; simpl; [discriminate|].
  destruct (isspace a) eqn:Ha; [exact IH|].
  intros H. injection H as -> _. exact Ha.
Qed.

Lemma forallb_rev {A : Type} (f : A -> bool) (l : list A) :
  forallb f (rev l) = forallb f l.
Proof.
  induction l as [|a l IH]; simpl; [reflexivity|].
  rewrite forallb_app, IH. simpl. rewrite andb_true_r. apply andb_comm.
Qed.

Lemma rstrip_decomp (s : str) :
  exists ws, s = rstrip s ++ ws /\ forallb isspace ws = true.
Proof.
  unfold rstrip. destruct (lstrip_decomp (rev s)) as [ws [Heq Hws]].
  exists (rev ws). split.
  - rewrite <- rev_app_distr, <- Heq. now rewrite rev_involutive.
  - now rewrite forallb_rev.
Qed.

(** [strip] removes a run of whitespace at each end, and nothing else. *)
Lemma strip_decomp (s : str) :
  exists l r, s = l ++ strip s ++ r
              /\ forallb isspace l = true /\ forallb isspace r = true.
Proof.
  destruct (lstrip_decomp s) as [l [Hl Hlw]].
  destruct (rstrip_decomp (lstrip s)) as [r [Hr Hrw]].
  exists l, r. unfold strip. rewrite <- Hr. auto.
Qed.

(** What [strip] returns neither starts nor ends with whitespace. *)
Lemma strip_first (s : str) (c : ascii) (t : str) :
  strip s = c :: t -> isspace c = false.
Proof.
  intros H. destruct (rstrip_decomp (lstrip s)) as [r [Hr _]].
  fold (strip s) in Hr. rewrite H in Hr. simpl in Hr.
  exact (lstrip_head _ _ _ Hr).
Qed.

Lemma strip_last (s : str) (t : str) (c : ascii) :
  strip s = t ++ [c] -> isspace c = false.
Proof.
  unfold strip, rstrip. intros H.
  apply (f_equal (@rev ascii)) in H.
  rewrite rev_involutive, rev_app_distr in H. simpl in H.
  exact (lstrip_head _ _ _ H).
Qed.
(** ** Tables: assignment by label *)

Lemma str_eqb_eq (a b : str) : str_eqb a b = true <-> a = b.
Proof.
  unfold str_eqb. destruct (list_eq_dec ascii_dec a b); split; intros; congruence.
Qed.

Lemma str_eqb_refl (a : str) : str_eqb a a = true.
Proof. now apply str_eqb_eq. Qed.

Lemma mem_In (col : str) (labels : list str) : mem col labels = true <-> In col labels.
Proof.
  unfold mem. rewrite existsb_exists. split.
  - intros [x [Hin Hx]]. apply str_eqb_eq in Hx. now subst.
  - intros H. exists col. split; [assumption|apply str_eqb_refl].
Qed.

Lemma existsb_label (i : nat) (l : list nat) :
  existsb (Nat.eqb i) l = true <-> In i l.
Proof.
  rewrite existsb_exists. split.
  - intros [x [Hin Hx]]. apply Nat.eqb_eq in Hx. now subst.
  - intros H. exists i. split; [assumption|apply Nat.eqb_refl].
Qed.

Lemma map_untouched (i : nat) (f : Series -> Series) (B : list (nat * Series)) :
  ~ In i (map fst B) ->
  map (fun jr => if Nat.eqb i (fst jr) then (fst jr, f (snd jr)) else jr) B = B.
Proof.
  induction B as [|[j r] B IH]; simpl; intros Hn; [reflexivity|].
  destruct (Nat.eqb_spec i j) as [->|Hne].
  - exfalso. apply Hn. now left.
  - f_equal. apply IH. intros H. apply Hn. now right.
Qed.

(** The first assignment under a new label adds the row at the end. *)
Lemma at_set_fresh (df : DataFrame) (i : nat) (col : str) (v : value) :
  ~ In i (df_index df) ->
  at_set df i col v =
  {| columns := columns df;
     body := body df ++ [(i, setitem col v (map (fun c => (c, NaN)) (columns df)))] |}.
Proof.
  intros Hn. unfold at_set.
  destruct (existsb (Nat.eqb i) (df_index df)) eqn:E; [|reflexivity].
  apply existsb_label in E. contradiction.
Qed.

(** A later assignment under the label of the last row changes that row
    alone. *)
Lemma at_set_last (cols : list str) (B : list (nat * Series)) (i : nat)
    (r : Series) (col : str) (v : value) :
  ~ In i (map fst B) ->
  at_set {| columns := cols; body := B ++ [(i, r)] |} i col v =
  {| columns := cols; body := B ++ [(i, setitem col v r)] |}.
Proof.
  intros Hn. unfold at_set, df_index. simpl.
  rewrite map_app, existsb_app. simpl. rewrite Nat.eqb_refl, orb_true_r.
  f_equal. rewrite map_app. simpl. rewrite Nat.eqb_refl.
  now rewrite map_untouched.
Qed.

Lemma assign_last (cols : list str) (B : list (nat * Series)) (i : nat)
    (cells : list (str * value)) (r : Series) :
  ~ In i (map fst B) ->
  assign {| columns := cols; body := B ++ [(i, r)] |} i cells =
  {| columns := cols;
     body := B ++ [(i, fold_left (fun r cv => setitem (fst cv) (snd cv) r) cells r)] |}.
Proof.
  intros Hn. revert r. induction cells as [|[c v] cells IH]; intros r; simpl.
  - reflexivity.
  - unfold assign in *. simpl. rewrite at_set_last by assumption. apply IH.
Qed.

(** A run of assignments under a new label adds exactly one row. *)
Lemma assign_fresh (df : DataFrame) (i : nat) (cells : list (str * value)) :
  ~ In i (df_index df) -> cells <> [] ->
  assign df i cells =
  {| columns := columns df;
     body := body df ++ [(i, new_row (columns df) cells)] |}.
Proof.
  intros Hn Hne. destruct cells as [|[c v] cells]; [contradiction|].
  unfold assign, new_row. simpl. rewrite at_set_fresh by assumption.
  apply (assign_last (columns df) (body df) i cells _ Hn).
Qed.

Lemma row_at_combine_seq (xs : list Series) (n start k : nat) :
  length xs = n ->
  row_at (combine (seq start n) xs) (start + k) = nth_error xs k.
Proof.
  intros <-. revert start k. induction xs as [|x xs IH]; intros start k; simpl.
  - now destruct k.
  - destruct k as [|k].
    + now rewrite Nat.add_0_r, Nat.eqb_refl.
    + destruct (Nat.eqb_spec (start + S k) start) as [E|_]; [lia|].
      replace (start + S k) with (S start + k) by lia. apply IH.
Qed.

Lemma nth_error_combine_seq {A : Type} (xs : list A) (n start k : nat) (x : A) :
  length xs = n ->
  nth_error xs k = Some x ->
  nth_error (combine (seq start n) xs) k = Some (start + k, x).
Proof.
  intros <-. revert start k. induction xs as [|y xs IH]; intros start k; simpl.
  - now destruct k.
  - destruct k as [|k]; simpl.
    + intros [= ->]. now rewrite Nat.add_0_r.
    + intros H. rewrite (IH (S start) k H). f_equal. f_equal. lia.
Qed.

(** ** Rows: lookups after cleaning *)

Lemma some_inj {A : Type} (a b : A) : Some a = Some b -> a = b.
Proof. now intros [= ->]. Qed.

Lemma lookup_in_keys (key : str) (row : Series) :
  In key (map fst row) -> exists v, lookup key row = Some v.
Proof.
  induction row as [|[k v] row IH]; simpl; [intros []|].
  destruct (str_eqb key k) eqn:E; [eauto|].
  intros [->|H]; [now rewrite str_eqb_refl in E | auto].
Qed.

Lemma lookup_not_in_keys (key : str) (row : Series) :
  ~ In key (map fst row) -> lookup key row = None.
Proof.
  induction row as [|[k v] row IH]; simpl; [reflexivity|].
  intros Hn. destruct (str_eqb key k) eqn:E.
  - apply str_eqb_eq in E. subst. exfalso. apply Hn. now left.
  - apply IH. intros H. apply Hn. now right.
Qed.

Lemma lookup_app (key : str) (r r' : Series) :
  lookup key (r ++ r') =
  match lookup key r with Some v => Some v | None => lookup key r' end.
Proof.
  induction r as [|[k v] r IH]; simpl; [reflexivity|].
  destruct (str_eqb key k); auto.
Qed.

Lemma keys_update (key : str) (f : value -> value) (row : Series) :
  map fst (update key f row) = map fst row.
Proof.
  induction row as [|[k v] row IH]; simpl; [reflexivity|].
  destruct (str_eqb key k); simpl; now rewrite ?IH.
Qed.

Lemma lookup_update (key key' : str) (f : value -> value) (row : Series) :
  lookup key (update key' f row) =
  if str_eqb key key' then option_map f (lookup key row) else lookup key row.
Proof.
  induction row as [|[k v] row IH]; simpl.
  - now destruct (str_eqb key key').
  - destruct (str_eqb key' k) eqn:E'; simpl.
    + apply str_eqb_eq in E'. subst k.
      destruct (str_eqb key key'); reflexivity.
    + destruct (str_eqb key k) eqn:E.
      * apply str_eqb_eq in E. subst k.
        destruct (str_eqb key key') eqn:E2; [|reflexivity].
        apply str_eqb_eq in E2. subst. now rewrite str_eqb_refl in E'.
      * exact IH.
Qed.

Lemma keys_fold_update (f : value -> value) (cols : list str) (row : Series) :
  map fst (fold_left (fun r c => update c f r) cols row) = map fst row.
Proof.
  revert row. induction cols as [|c cols IH]; intros row; simpl; [reflexivity|].
  now rewrite IH, keys_update.
Qed.

Lemma lookup_fold_update (key : str) (f : value -> value) (cols : list str)
    (row : Series) :
  NoDup cols ->
  lookup key (fold_left (fun r c => update c f r) cols row) =
  if mem key cols then option_map f (lookup key row) else lookup key row.
Proof.
  intros Hnd. revert row. induction Hnd as [|c cols Hc Hnd IH]; intros row; simpl.
  - reflexivity.
  - rewrite IH, lookup_update.
    destruct (str_eqb key c) eqn:E; simpl.
    + apply str_eqb_eq in E. subst c.
      destruct (mem key cols) eqn:M; [|reflexivity].
      apply mem_In in M. contradiction.
    + reflexivity.
Qed.

Lemma keys_record (header : list str) (line : list value) :
  map fst (record header line) = header.
Proof.
  unfold record.
  assert (H : forall (a : list str) (b : list value),
             length a <= length b -> map fst (combine a b) = a).
  { induction a as [|x a IH]; intros [|y b] Hl; simpl in *; try reflexivity; try lia.
    f_equal. apply IH. lia. }
  apply H. rewrite length_app, repeat_length. lia.
Qed.

Lemma keys_raw_row (header : list str) (line : list value) :
  map fst (raw_row header line) = map strip header.
Proof.
  unfold raw_row. rewrite map_map. cbn [fst].
  rewrite <- (keys_record header line) at 2. now rewrite map_map.
Qed.

Lemma numeric_cols_NoDup (cols : list str) :
  NoDup (filter (fun col => mem col cols) numeric_cols_to_check).
Proof.
  apply NoDup_filter.
  repeat (constructor; [cbv; intuition discriminate|]). constructor.
Qed.

Lemma mem_filter (key : str) (g : str -> bool) (l : list str) :
  mem key (filter g l) = mem key l && g key.
Proof.
  induction l as [|x l IH]; simpl; [reflexivity|].
  destruct (g x) eqn:G; simpl; rewrite IH.
  - destruct (str_eqb key x) eqn:E; simpl; [|reflexivity].
    apply str_eqb_eq in E. subst. now rewrite G.
  - destruct (str_eqb key x) eqn:E; simpl; [|reflexivity].
    apply str_eqb_eq in E. subst. rewrite G. now rewrite andb_false_r.
Qed.

(** The cells of a cleaned line: a column that is checked and present holds
    the coerced cell, any other column of the file the cell as read. *)
Lemma lookup_clean_row (header : list str) (line : list value) (key : str) :
  In key (map strip header) ->
  lookup key (clean_row header line) =
  if mem key numeric_cols_to_check
  then option_map coerce (lookup key (raw_row header line))
  else lookup key (raw_row header line).
Proof.
  intros Hin. unfold clean_row.
  rewrite lookup_fold_update by apply numeric_cols_NoDup.
  rewrite mem_filter. apply mem_In in Hin. rewrite Hin. now rewrite andb_true_r.
Qed.

Lemma keys_clean_row_eq (header : list str) (line : list value) :
  map fst (clean_row header line) = map strip header.
Proof. unfold clean_row. now rewrite keys_fold_update, keys_raw_row. Qed.

(** A column of the file is a cell of every cleaned line. *)
Lemma clean_row_present (header : list str) (line : list value) (key : str) :
  In key (map strip header) ->
  exists v, lookup key (clean_row header line) = Some v.
Proof.
  intros Hin. apply lookup_in_keys. now rewrite keys_clean_row_eq.
Qed.

Lemma clean_row_absent (header : list str) (line : list value) (key : str) :
  ~ In key (map strip header) ->
  lookup key (clean_row header line) = None.
Proof.
  intros H. apply lookup_not_in_keys. now rewrite keys_clean_row_eq.
Qed.

(** ** Rows of the cleaned table *)

Lemma keys_cleaned_row (header : list str) (lines : list (list value))
    (line : list value) :
  map fst (cleaned_row header lines line) = cleaned_columns header.
Proof.
  unfold cleaned_row, cleaned_columns.
  destruct (negb _ && _).
  - now rewrite map_app, keys_clean_row_eq.
  - now rewrite keys_clean_row_eq, app_nil_r.
Qed.

(** A column of the file: the cleaned table holds the cleaned cell. *)
Lemma lookup_cleaned_row (header : list str) (lines : list (list value))
    (line : list value) (key : str) :
  In key (map strip header) ->
  lookup key (cleaned_row header lines line) = lookup key (clean_row header line).
Proof.
  intros Hin. unfold cleaned_row. destruct (negb _ && _); [|reflexivity].
  rewrite lookup_app.
  destruct (clean_row_present header line key Hin) as [v ->]. reflexivity.
Qed.

Lemma get_cleaned_row (header : list str) (lines : list (list value))
    (line : list value) (key : str) :
  In key (map strip header) ->
  get (cleaned_row header lines line) key NaN = get (clean_row header line) key NaN.
Proof. intros Hin. unfold get. now rewrite lookup_cleaned_row. Qed.

Lemma mem_false (col : str) (labels : list str) :
  ~ In col labels -> mem col labels = false.
Proof.
  intros H. destruct (mem col labels) eqn:E; [|reflexivity].
  apply mem_In in E. contradiction.
Qed.

(** The synthesized 'End Weight'. *)
Lemma cleaned_row_end_weight (header : list str) (lines : list (list value))
    (line : list value) :
  ~ In (lit "End Weight") (map strip header) ->
  In (lit "End Weight (lbs)") (map strip header) ->
  exists w,
    lookup (lit "End Weight (lbs)") (clean_row header line) = Some w
    /\ lookup (lit "End Weight") (cleaned_row header lines line)
       = Some (times16 (lbs_dtype header lines) w).
Proof.
  intros Hno Hlbs.
  destruct (clean_row_present header line _ Hlbs) as [w Hw].
  exists w. split; [exact Hw|].
  unfold cleaned_row. rewrite (mem_false _ _ Hno).
  apply mem_In in Hlbs. rewrite Hlbs. cbn [negb andb].
  rewrite lookup_app, (clean_row_absent header line _ Hno).
  unfold get. rewrite Hw. cbn [lookup]. now rewrite str_eqb_refl.
Qed.

(** A column that is neither in the file nor synthesized is in no row. *)
Lemma cleaned_row_absent (header : list str) (lines : list (list value))
    (line : list value) (key : str) :
  ~ In key (map strip header) -> key <> lit "End Weight" ->
  lookup key (cleaned_row header lines line) = None.
Proof.
  intros H1 H2. apply lookup_not_in_keys. rewrite keys_cleaned_row.
  unfold cleaned_columns. intros H. apply in_app_or in H.
  destruct H as [H|H]; [contradiction|].
  destruct (negb _ && _); [destruct H as [H|[]]; congruence|destruct H].
Qed.
(** ** Floats: a product with a finite float is NaN only for NaN *)

Lemma shr_1_nonneg (mrs : shr_record) :
  (0 <= shr_m mrs)%Z -> (0 <= shr_m (shr_1 mrs))%Z.
Proof.
  destruct mrs as [m r s]. destruct m as [|[p|p|]|p]; simpl; lia.
Qed.

Lemma iter_pos_invariant {A : Type} (P : A -> Prop) (f : A -> A) :
  (forall x, P x -> P (f x)) -> forall p x, P x -> P (iter_pos f p x).
Proof.
  intros Hf. induction p as [p IH|p IH|]; intros x Hx; simpl; auto.
Qed.

Lemma shr_nonneg (mrs : shr_record) (e n : Z) :
  (0 <= shr_m mrs)%Z -> (0 <= shr_m (fst (shr mrs e n)))%Z.
Proof.
  intros H. destruct n as [|p|p]; simpl; try assumption.
  apply (iter_pos_invariant (fun x => (0 <= shr_m x)%Z)); [apply shr_1_nonneg|assumption].
Qed.

Lemma shr_record_of_loc_m (m : Z) (l : location) : shr_m (shr_record_of_loc m l) = m.
Proof. destruct l as [|[]]; reflexivity. Qed.

Lemma shr_fexp_nonneg (m e : Z) (l : location) :
  (0 <= m)%Z -> (0 <= shr_m (fst (shr_fexp prec emax m e l)))%Z.
Proof.
  intros H. unfold shr_fexp. apply shr_nonneg. now rewrite shr_record_of_loc_m.
Qed.

Lemma round_nearest_even_nonneg (m : Z) (l : location) :
  (0 <= m)%Z -> (0 <= round_nearest_even m l)%Z.
Proof.
  intros H. destruct l as [|[]]; simpl; try lia.
  destruct (Z.even m); lia.
Qed.

Lemma binary_round_aux_not_nan (s : bool) (m e : Z) (l : location) :
  (0 <= m)%Z -> binary_round_aux prec emax s m e l <> S754_nan.
Proof.
  intros H. unfold binary_round_aux.
  pose proof (shr_fexp_nonneg m e l H) as H1.
  destruct (shr_fexp prec emax m e l) as [mrs' e'].
  cbn [fst] in H1.
  pose proof (shr_fexp_nonneg _ e' loc_Exact
                (round_nearest_even_nonneg _ (loc_of_shr_record mrs') H1)) as H2.
  destruct (shr_fexp prec emax _ e' loc_Exact) as [mrs'' e''].
  cbn [fst] in H2.
  destruct (shr_m mrs'') as [|p|p]; [discriminate| |lia].
  destruct (Z.leb e'' (emax - prec)); discriminate.
Qed.

Lemma fmul_not_nan (x : spec_float) (s : bool) (m : positive) (e : Z) :
  x <> S754_nan -> fmul x (S754_finite s m e) <> S754_nan.
Proof.
  intros Hx. unfold fmul. destruct x as [sx|sx| |sx mx ex]; simpl;
    try discriminate; try contradiction.
  apply binary_round_aux_not_nan. lia.
Qed.

Lemma float_of_int_not_nan (z : Z) : float_of_int z <> S754_nan.
Proof.
  unfold float_of_int, binary_normalize.
  destruct z as [|m|m]; [discriminate| |]; unfold binary_round;
    destruct (shl_align _ _ _) as [mz ez]; apply binary_round_aux_not_nan; lia.
Qed.

Lemma astype_str (d : dtype) (s : str) : astype d (VStr s) = VStr s.
Proof. now destruct d. Qed.

Lemma astype_float (d : dtype) (f : spec_float) : astype d (VNum (NFloat f)) = VNum (NFloat f).
Proof. now destruct d. Qed.

(** A number stays a number in any dtype. *)
Lemma astype_is_number (d : dtype) (v : value) :
  is_number v = true -> is_number (astype d v) = true.
Proof.
  destruct v as [s|[z|f]]; intros H.
  - now rewrite astype_str.
  - destruct d; cbn [astype]; try reflexivity.
    pose proof (float_of_int_not_nan z) as Hn.
    cbn [is_number]. destruct (float_of_int z); try reflexivity. now contradiction Hn.
  - now rewrite astype_float.
Qed.

(** ** Data cleaning, row by row *)

Lemma fold_map_column (cols : list str) (df : DataFrame) :
  fold_left (fun d col => map_column col coerce d) cols df =
  {| columns := columns df;
     body := map (fun ir => (fst ir, fold_left (fun r col => update col coerce r) cols (snd ir)))
                 (body df) |}.
Proof.
  revert df. induction cols as [|c cols IH]; intros df; simpl.
  - destruct df as [cs B]. simpl. f_equal.
    rewrite <- (map_id B) at 1. apply map_ext. now intros [i r].
  - rewrite IH. unfold map_column. simpl. f_equal. rewrite map_map. reflexivity.
Qed.

Lemma map_combine_index {A B C : Type} (F : nat * B -> nat * C) (G : A -> C)
    (h : A -> B) (xs : list A) (index : list nat) :
  (forall i x, F (i, h x) = (i, G x)) ->
  map F (combine index (map h xs)) = combine index (map G xs).
Proof.
  intros HF. revert index. induction xs as [|x xs IH]; intros [|i index]; simpl;
    try reflexivity.
  now rewrite HF, IH.
Qed.

Lemma map_combine_rows {A B C : Type} (F : nat * B -> nat * C) (G : A -> C)
    (h : A -> B) (xs : list A) (start : nat) :
  (forall i x, F (i, h x) = (i, G x)) ->
  map F (combine (seq start (length xs)) (map h xs))
  = combine (seq start (length xs)) (map G xs).
Proof. apply map_combine_index. Qed.

Lemma body_add_column_if (b : bool) (new col : str) (f : value -> value)
    (df : DataFrame) :
  body (if b then add_column new col f df else df)
  = map (fun ir => (fst ir,
                    if b then snd ir ++ [(new, f (get (snd ir) col NaN))] else snd ir))
        (body df).
Proof.
  destruct b; cbn [body add_column]; [reflexivity|].
  rewrite <- (map_id (body df)) at 1. apply map_ext. now intros [i r].
Qed.

Lemma map_snd_combine {A : Type} (index : list nat) (xs : list A) :
  length index = length xs -> map snd (combine index xs) = xs.
Proof.
  revert index. induction xs as [|x xs IH]; intros [|i index]; simpl; try discriminate;
    try reflexivity.
  intros [= H]. now rewrite IH.
Qed.

Lemma map_fst_combine {A : Type} (index : list nat) (xs : list A) :
  length index = length xs -> map fst (combine index xs) = index.
Proof.
  revert index. induction xs as [|x xs IH]; intros [|i index]; simpl; try discriminate;
    try reflexivity.
  intros [= H]. now rewrite IH.
Qed.

(** The cells of a column of a table whose rows are built line by line. *)
Lemma column_combine {A : Type} (index : list nat) (cols : list str) (g : A -> Series)
    (xs : list A) (col : str) :
  length index = length xs ->
  column col {| columns := cols; body := combine index (map g xs) |}
  = map (fun x => get (g x) col NaN) xs.
Proof.
  intros Hl. unfold column. cbn [body].
  rewrite <- (map_map snd (fun r => get r col NaN)).
  rewrite map_snd_combine by now rewrite length_map.
  now rewrite map_map.
Qed.

(** Lines 125-146 on a table: the checked columns coerced cell by cell. *)
Lemma coerced_table (index : list nat) (header : list str) (lines : list (list value)) :
  fold_left (fun df col => map_column col coerce df)
            (filter (fun col => mem col (map strip header)) numeric_cols_to_check)
            (strip_columns (read_table index header lines))
  = {| columns := map strip header;
       body := combine index (map (clean_row header) lines) |}.
Proof.
  rewrite fold_map_column. cbn [columns strip_columns read_table body]. f_equal.
  rewrite (map_combine_index _ (raw_row header) (record header) lines index)
    by (intros i x; reflexivity).
  apply map_combine_index. intros i x. reflexivity.
Qed.

(** The cleaned table has the columns of the file (and 'End Weight') and
    holds the cleaned lines, in order, under their labels. *)
Lemma data_cleaning_table (index : list nat) (header : list str)
    (lines : list (list value)) (df : DataFrame) :
  length index = length lines ->
  data_cleaning (read_table index header lines) = inr df ->
  columns df = cleaned_columns header
  /\ body df = combine index (map (cleaned_row header lines) lines).
Proof.
  intros Hl. unfold data_cleaning.
  destruct (filter _ required_cols) as [|m ms]; [|discriminate].
  change (columns (strip_columns (read_table index header lines))) with (map strip header).
  rewrite coerced_table. cbn [columns].
  rewrite (column_combine index (map strip header) (clean_row header) lines _ Hl).
  fold (lbs_dtype header lines).
  intros H. split.
  - apply (f_equal (fun x => match x with inr d => columns d | inl _ => [] end)) in H.
    rewrite <- H. unfold cleaned_columns.
    destruct (negb _ && _); cbn [columns add_column]; [reflexivity|].
    now rewrite app_nil_r.
  - apply (f_equal (fun x => match x with inr d => body d | inl _ => [] end)) in H.
    rewrite <- H. rewrite body_add_column_if. cbn [body].
    apply map_combine_index. intros i line. unfold cleaned_row. cbn [fst snd].
    now destruct (negb _ && _).
Qed.

Lemma data_cleaning_rows (header : list str) (lines : list (list value)) (df : DataFrame) :
  data_cleaning (read_csv header lines) = inr df ->
  body df = combine (seq 0 (length lines)) (map (cleaned_row header lines) lines).
Proof.
  intros H. apply (data_cleaning_table (seq 0 (length lines)) header lines df); [apply length_seq|exact H].
Qed.

(** The run stops exactly when a required column is missing. *)
Lemma data_cleaning_stops_table (index : list nat) (header : list str)
    (lines : list (list value)) :
  let missing_cols :=
    filter (fun col => negb (mem col (map strip header))) required_cols in
  data_cleaning (read_table index header lines) =
  match missing_cols with
  | [] => data_cleaning (read_table index header lines)
  | _ :: _ => inl (missing_message missing_cols)
  end.
Proof.
  unfold data_cleaning. cbn [columns strip_columns read_table].
  destruct (filter _ required_cols); reflexivity.
Qed.

Lemma data_cleaning_stops (header : list str) (lines : list (list value)) :
  let missing_cols :=
    filter (fun col => negb (mem col (map strip header))) required_cols in
  data_cleaning (read_csv header lines) =
  match missing_cols with
  | [] => data_cleaning (read_csv header lines)
  | _ :: _ => inl (missing_message missing_cols)
  end.
Proof. apply data_cleaning_stops_table. Qed.

(** ** The rows [iterrows] yields *)

Lemma lookup_map_cells (f : str -> value -> value) (row : Series) (key : str) :
  lookup key (map (fun kv => (fst kv, f (fst kv) (snd kv))) row)
  = option_map (f key) (lookup key row).
Proof.
  induction row as [|[k v] row IH]; simpl; [reflexivity|].
  destruct (str_eqb key k) eqn:E; [|exact IH].
  apply str_eqb_eq in E. now subst.
Qed.

(** The dtypes the loop meets are those of the columns of the file's lines. *)
Lemma dtypes_table (index : list nat) (header : list str) (lines : list (list value))
    (df : DataFrame) (col : str) :
  length index = length lines ->
  data_cleaning (read_table index header lines) = inr df ->
  dtypes (negb (mem (lit "End Weight") (map strip header))
          && mem (lit "End Weight (lbs)") (map strip header)) df col
  = col_dtype header lines col.
Proof.
  intros Hl Hdf. destruct (data_cleaning_table _ _ _ _ Hl Hdf) as [Hc Hb].
  destruct df as [cs B]. cbn [columns body] in Hc, Hb. subst cs B.
  unfold dtypes, col_dtype.
  rewrite !(column_combine index _ (cleaned_row header lines) lines _ Hl).
  now destruct (_ && str_eqb col (lit "End Weight")).
Qed.

(** The loop goes through the lines of the file, in order, each as
    [seen_row] gives it, under its label. *)
Lemma normalized_rows_table (index : list nat) (header : list str)
    (lines : list (list value)) (df : DataFrame) :
  length index = length lines ->
  data_cleaning (read_table index header lines) = inr df ->
  normalized_rows (read_table index header lines)
  = combine index (map (seen_row header lines) lines).
Proof.
  intros Hl Hdf. unfold normalized_rows. rewrite Hdf.
  change (columns (read_table index header lines)) with header.
  pose proof (dtypes_table index header lines df) as Hdt.
  destruct (data_cleaning_table _ _ _ _ Hl Hdf) as [Hc Hb].
  unfold iterrows. rewrite Hc, Hb.
  rewrite (map_ext _ (col_dtype header lines) (fun col => Hdt col Hl Hdf)).
  fold (row_dtype header lines).
  apply map_combine_index. intros i line. cbn [fst snd]. f_equal.
  unfold seen_row. apply map_ext. intros [k v]. cbn [fst snd].
  now rewrite (Hdt k Hl Hdf).
Qed.

Lemma keys_seen_row (header : list str) (lines : list (list value)) (line : list value) :
  map fst (seen_row header lines line) = cleaned_columns header.
Proof.
  unfold seen_row. rewrite map_map. cbn [fst]. apply keys_cleaned_row.
Qed.

(** A cell of a row the loop gets: the cell of the cleaned table, in the
    dtype of its column and then of the row. *)
Lemma lookup_seen_row (header : list str) (lines : list (list value))
    (line : list value) (key : str) :
  lookup key (seen_row header lines line)
  = option_map (fun v => astype (row_dtype header lines)
                           (astype (col_dtype header lines key) v))
               (lookup key (cleaned_row header lines line)).
Proof.
  unfold seen_row.
  apply (lookup_map_cells
           (fun k v => astype (row_dtype header lines) (astype (col_dtype header lines k) v))).
Qed.

(** Casting twice shows the cell itself or the float of its integer. *)
Lemma astype_presented (d d' : dtype) (v : value) : presented v (astype d (astype d' v)).
Proof.
  unfold presented. destruct v as [s|[z|f]].
  - left. now rewrite !astype_str.
  - destruct d', d; cbn [astype]; auto.
  - left. now rewrite !astype_float.
Qed.

(** A column of the file, in a row the loop gets: the cleaned cell of the
    line, or the float of the integer it holds. *)
Lemma seen_row_cell (header : list str) (lines : list (list value))
    (line : list value) (key : str) :
  In key (map strip header) ->
  exists v0 v,
    lookup key (clean_row header line) = Some v0
    /\ lookup key (seen_row header lines line) = Some v
    /\ v = astype (row_dtype header lines) (astype (col_dtype header lines key) v0)
    /\ presented v0 v.
Proof.
  intros Hin. destruct (clean_row_present header line key Hin) as [v0 Hv0].
  exists v0. eexists. split; [exact Hv0|].
  rewrite lookup_seen_row, (lookup_cleaned_row _ _ _ _ Hin), Hv0. cbn [option_map].
  split; [reflexivity|]. split; [reflexivity|]. apply astype_presented.
Qed.

Lemma seen_row_absent (header : list str) (lines : list (list value))
    (line : list value) (key : str) :
  ~ In key (map strip header) -> key <> lit "End Weight" ->
  lookup key (seen_row header lines line) = None.
Proof.
  intros H1 H2. rewrite lookup_seen_row, (cleaned_row_absent _ _ _ _ H1 H2). reflexivity.
Qed.

(** The synthesized 'End Weight' is in every row the loop gets. *)
Lemma seen_row_end_weight (header : list str) (lines : list (list value))
    (line : list value) :
  In (lit "End Weight (lbs)") (map strip header) ->
  exists ew, lookup (lit "End Weight") (seen_row header lines line) = Some ew.
Proof.
  intros Hl.
  destruct (in_dec (list_eq_dec ascii_dec) (lit "End Weight") (map strip header))
    as [Hin|Hout].
  - destruct (seen_row_cell header lines line _ Hin) as (v0 & v & _ & Hv & _). eauto.
  - destruct (cleaned_row_end_weight header lines line Hout Hl) as (w & _ & Hw).
    rewrite lookup_seen_row, Hw. cbn [option_map]. eauto.
Qed.
(** ** The loop: one row per pass *)

Lemma netsuite_cells_nonempty a b c d : netsuite_cells a b c d <> [].
Proof. discriminate. Qed.

Lemma inventory_cells_nonempty a b c : inventory_cells a b c <> [].
Proof. discriminate. Qed.

Lemma shopify_cells_nonempty a b c d e f g h : shopify_cells a b c d e f g h <> [].
Proof. discriminate. Qed.

(** A pass that ends normally adds one row to each table under the label
    of the input row, and that row is the one the same pass builds from
    empty tables: it depends on the input row alone. *)
Lemma loop_body_frame (T : Tables) (i : nat) (row : Series) (T' : Tables) :
  tables_ok T -> fresh i T ->
  loop_body T i row = inr T' ->
  exists rn rs ri,
    loop_body initial_tables i row = inr (one_row i rn rs ri)
    /\ T' = extend T i rn rs ri.
Proof.
  intros (Hn & Hs & Hi) (Fn & Fs & Fi). unfold loop_body.
  destruct (getitem row (lit "Fragrance - Vessel Description")) as [e|d]; cbn [bind]; [discriminate|].
  destruct (getitem row (lit "SKU")) as [e|sku]; cbn [bind]; [discriminate|].
  destruct (getitem row (lit "Retail Price")) as [e|price]; cbn [bind]; [discriminate|].
  destruct (getitem row (lit "End Weight (lbs)")) as [e|lbs]; cbn [bind]; [discriminate|].
  destruct (getitem row (lit "Quantity")) as [e|qty]; cbn [bind]; [discriminate|].
  destruct (getitem row (lit "Burn Time")) as [e|bt]; cbn [bind]; [discriminate|].
  destruct (getitem row (lit "End Weight")) as [e|ew]; cbn [bind]; [discriminate|].
  destruct (mul_float lbs f453_592) as [e|product]; cbn [bind]; [discriminate|].
  destruct (py_round product) as [e|grams]; cbn [bind]; [discriminate|].
  intros H.
  apply (f_equal (fun x => match x with inr t => t | inl _ => T' end)) in H.
  rewrite <- H; clear H.
  rewrite !assign_fresh
    by (first [assumption | apply netsuite_cells_nonempty
              | apply inventory_cells_nonempty | apply shopify_cells_nonempty
              | intros []]).
  rewrite Hn, Hs, Hi. cbn [initial_tables netsuite_import shopify_import
    netsuite_inventory_adjustment empty_frame columns body app].
  do 3 eexists. split; reflexivity.
Qed.

Lemma extend_ok (T : Tables) (i : nat) (rn rs ri : Series) : tables_ok (extend T i rn rs ri).
Proof. repeat split. Qed.

Lemma process_spec (rows : list (nat * Series)) (T T' : Tables) :
  tables_ok T -> NoDup (map fst rows) ->
  (forall i, In i (map fst rows) -> fresh i T) ->
  process rows T = inr T' ->
  exists outs,
    rows_added rows outs
    /\ body (netsuite_import T') =
       body (netsuite_import T) ++ combine (map fst rows) (map (fun o => fst (fst o)) outs)
    /\ body (shopify_import T') =
       body (shopify_import T) ++ combine (map fst rows) (map (fun o => snd (fst o)) outs)
    /\ body (netsuite_inventory_adjustment T') =
       body (netsuite_inventory_adjustment T) ++ combine (map fst rows) (map snd outs).
Proof.
  revert T. induction rows as [|[i row] rows IH]; intros T Hok Hnd Hfr; simpl.
  - intros [= <-]. exists []. rewrite !app_nil_r. repeat split. constructor.
  - destruct (loop_body T i row) as [e|Tm] eqn:Hb; [discriminate|]. cbn [bind].
    intros Hp.
    destruct (loop_body_frame T i row Tm Hok (Hfr i (or_introl eq_refl)) Hb)
      as (rn & rs & ri & H1 & ->).
    inversion Hnd as [|? ? Hni Hnd']; subst.
    destruct (IH (extend T i rn rs ri) (extend_ok _ _ _ _ _) Hnd') as (outs & Hadd & En & Es & Ei).
    + intros j Hj. destruct (Hfr j (or_intror Hj)) as (Fn & Fs & Fi).
      assert (j <> i) by (intros ->; contradiction).
      unfold fresh, df_index, extend. cbn [netsuite_import shopify_import
        netsuite_inventory_adjustment body].
      rewrite !map_app. simpl.
      repeat split; intros Hin; apply in_app_or in Hin;
        destruct Hin as [Hin|[Hin|[]]]; auto.
    + exact Hp.
    + exists ((rn, rs, ri) :: outs). split; [constructor; assumption|].
      rewrite En, Es, Ei. unfold extend. cbn [netsuite_import shopify_import
        netsuite_inventory_adjustment body map fst snd combine].
      rewrite <- !app_assoc. repeat split.
Qed.

Lemma map_fst_combine_seq {A : Type} (xs : list A) (n start : nat) :
  length xs = n ->
  map fst (combine (seq start n) xs) = seq start n.
Proof.
  intros <-. revert start. induction xs as [|x xs IH]; intros start; simpl; [reflexivity|].
  now rewrite IH.
Qed.

Lemma Forall2_nth_left {A B : Type} (P : A -> B -> Prop) (l : list A) (l' : list B)
    (k : nat) (a : A) :
  Forall2 P l l' -> nth_error l k = Some a ->
  exists b, nth_error l' k = Some b /\ P a b.
Proof.
  intros H. revert k. induction H as [|x y l l' Hxy H IH]; intros k.
  - now destruct k.
  - destruct k as [|k]; simpl.
    + intros [= <-]. eauto.
    + apply IH.
Qed.

Lemma nth_error_combine {A : Type} (index : list nat) (xs : list A) (k i : nat) (x : A) :
  nth_error index k = Some i -> nth_error xs k = Some x ->
  nth_error (combine index xs) k = Some (i, x).
Proof.
  revert index k. induction xs as [|y xs IH]; intros [|j index] [|k]; simpl;
    try discriminate.
  - now intros [= ->] [= ->].
  - apply IH.
Qed.

Lemma row_at_combine (index : list nat) (xs : list Series) (k i : nat) (x : Series) :
  NoDup index ->
  nth_error index k = Some i -> nth_error xs k = Some x ->
  row_at (combine index xs) i = Some x.
Proof.
  intros Hnd. revert xs k. induction Hnd as [|j index Hj Hnd IH]; intros [|y xs] [|k];
    simpl; try discriminate.
  - intros [= ->] [= ->]. now rewrite Nat.eqb_refl.
  - intros Hi Hx. destruct (Nat.eqb_spec i j) as [->|_].
    + exfalso. apply Hj. eapply nth_error_In. exact Hi.
    + exact (IH xs k Hi Hx).
Qed.

Lemma nth_error_seq_lt (start n k : nat) :
  k < n -> nth_error (seq start n) k = Some (start + k).
Proof.
  revert start k. induction n as [|n IH]; intros start k Hk; [lia|].
  destruct k as [|k]; simpl; [now rewrite Nat.add_0_r|].
  rewrite IH by lia. f_equal. lia.
Qed.

Lemma nth_error_lt {A : Type} (l : list A) (k : nat) (x : A) :
  nth_error l k = Some x -> k < length l.
Proof. intros H. apply nth_error_Some. rewrite H. discriminate. Qed.

(** A run that reaches line 233: the three tables hold the rows added for
    the rows the loop went through, in order, under their labels, when no
    two rows of the input share a label. *)
Lemma run_done (index : list nat) (header : list str) (lines : list (list value))
    (T : Tables) :
  length index = length lines -> NoDup index ->
  run (read_table index header lines) = Done T ->
  exists outs,
    rows_added (combine index (map (seen_row header lines) lines)) outs
    /\ length outs = length lines
    /\ normalized_rows (read_table index header lines)
       = combine index (map (seen_row header lines) lines)
    /\ body (netsuite_import T) = combine index (map (fun o => fst (fst o)) outs)
    /\ body (shopify_import T) = combine index (map (fun o => snd (fst o)) outs)
    /\ body (netsuite_inventory_adjustment T) = combine index (map snd outs).
Proof.
  intros Hl Hnd. unfold run.
  destruct (data_cleaning (read_table index header lines)) as [m|df] eqn:Hc; [discriminate|].
  rewrite (normalized_rows_table _ _ _ _ Hl Hc).
  destruct (process _ initial_tables) as [e|T0] eqn:Hp; [discriminate|].
  intros [= <-].
  assert (Hlab : map fst (combine index (map (seen_row header lines) lines)) = index)
    by (apply map_fst_combine; now rewrite length_map).
  assert (Hok : tables_ok initial_tables) by (repeat split).
  assert (Hnd' : NoDup (map fst (combine index (map (seen_row header lines) lines))))
    by now rewrite Hlab.
  assert (Hfr : forall i, In i (map fst (combine index (map (seen_row header lines) lines)))
                          -> fresh i initial_tables)
    by (intros i _; repeat split; intros []).
  destruct (process_spec _ _ _ Hok Hnd' Hfr Hp) as (outs & Hadd & En & Es & Ei).
  exists outs. rewrite Hlab in En, Es, Ei. cbn in En, Es, Ei.
  split; [exact Hadd|]. split; [|auto].
  unfold rows_added in Hadd. apply Forall2_length in Hadd.
  rewrite length_combine, length_map, Hl, Nat.min_id in Hadd. auto.
Qed.

(** What one pass builds from empty tables, in terms of the cells it reads. *)
Lemma loop_body_initial (i : nat) (row : Series) :
  loop_body initial_tables i row =
  (d <- getitem row (lit "Fragrance - Vessel Description") ;;
   sku <- getitem row (lit "SKU") ;;
   price <- getitem row (lit "Retail Price") ;;
   lbs <- getitem row (lit "End Weight (lbs)") ;;
   qty <- getitem row (lit "Quantity") ;;
   burn_time <- getitem row (lit "Burn Time") ;;
   end_weight <- getitem row (lit "End Weight") ;;
   product <- mul_float lbs f453_592 ;;
   grams <- py_round product ;;
   inr (one_row i
          (new_row netsuite_columns
             (netsuite_cells sku (netsuite_display_name (py_str d)) price lbs))
          (new_row shopify_columns
             (shopify_cells sku (py_str d) burn_time end_weight
                (get row (lit "Height") (VLit "N/A"))
                (get row (lit "Width") (VLit "N/A")) grams price))
          (new_row inventory_columns
             (inventory_cells sku (netsuite_display_name (py_str d)) qty)))).
Proof.
  unfold loop_body.
  destruct (getitem row (lit "Fragrance - Vessel Description")) as [e|d]; cbn [bind]; [reflexivity|].
  destruct (getitem row (lit "SKU")) as [e|sku]; cbn [bind]; [reflexivity|].
  destruct (getitem row (lit "Retail Price")) as [e|price]; cbn [bind]; [reflexivity|].
  destruct (getitem row (lit "End Weight (lbs)")) as [e|lbs]; cbn [bind]; [reflexivity|].
  destruct (getitem row (lit "Quantity")) as [e|qty]; cbn [bind]; [reflexivity|].
  destruct (getitem row (lit "Burn Time")) as [e|bt]; cbn [bind]; [reflexivity|].
  destruct (getitem row (lit "End Weight")) as [e|ew]; cbn [bind]; [reflexivity|].
  destruct (mul_float lbs f453_592) as [e|product]; cbn [bind]; [reflexivity|].
  destruct (py_round product) as [e|grams]; cbn [bind]; [reflexivity|].
  rewrite !assign_fresh
    by (first [ apply netsuite_cells_nonempty | apply inventory_cells_nonempty
              | apply shopify_cells_nonempty | intros [] ]).
  reflexivity.
Qed.

Lemma getitem_inr (row : Series) (key : str) (v : value) :
  getitem row key = inr v <-> lookup key row = Some v.
Proof.
  unfold getitem. destruct (lookup key row); split; intros H; congruence.
Qed.

Lemma loop_body_pass (i : nat) (row rn rs ri : Series) :
  loop_body initial_tables i row = inr (one_row i rn rs ri) ->
  pass row rn rs ri.
Proof.
  rewrite loop_body_initial.
  destruct (getitem row (lit "Fragrance - Vessel Description")) as [e|d] eqn:E1; cbn [bind]; [discriminate|].
  destruct (getitem row (lit "SKU")) as [e|sku] eqn:E2; cbn [bind]; [discriminate|].
  destruct (getitem row (lit "Retail Price")) as [e|price] eqn:E3; cbn [bind]; [discriminate|].
  destruct (getitem row (lit "End Weight (lbs)")) as [e|lbs] eqn:E4; cbn [bind]; [discriminate|].
  destruct (getitem row (lit "Quantity")) as [e|qty] eqn:E5; cbn [bind]; [discriminate|].
  destruct (getitem row (lit "Burn Time")) as [e|bt] eqn:E6; cbn [bind]; [discriminate|].
  destruct (getitem row (lit "End Weight")) as [e|ew] eqn:E7; cbn [bind]; [discriminate|].
  destruct (mul_float lbs f453_592) as [e|product] eqn:E8; cbn [bind]; [discriminate|].
  destruct (py_round product) as [e|grams] eqn:E9; cbn [bind]; [discriminate|].
  intros H.
  apply (f_equal (fun x => match x with inr t => t | inl _ => initial_tables end)) in H.
  assert (Hn := f_equal (fun t => body (netsuite_import t)) H).
  assert (Hs := f_equal (fun t => body (shopify_import t)) H).
  assert (Hi := f_equal (fun t => body (netsuite_inventory_adjustment t)) H).
  cbn [one_row body netsuite_import shopify_import netsuite_inventory_adjustment] in Hn, Hs, Hi.
  apply getitem_inr in E1, E2, E3, E4, E5, E6, E7.
  injection Hn as <-. injection Hs as <-. injection Hi as <-.
  now apply (pass_intro row d sku price lbs qty bt ew product grams).
Qed.

(** Row [k] of every table of a run that reaches line 233 is what one pass
    builds from row [k] of the input, under its label. *)
Lemma run_row (index : list nat) (header : list str) (lines : list (list value))
    (T : Tables) (k i : nat) (line : list value) :
  length index = length lines -> NoDup index ->
  run (read_table index header lines) = Done T ->
  nth_error lines k = Some line ->
  nth_error index k = Some i ->
  exists rn rs ri,
    loop_body initial_tables i (seen_row header lines line) = inr (one_row i rn rs ri)
    /\ nth_error (normalized_rows (read_table index header lines)) k
       = Some (i, seen_row header lines line)
    /\ nth_error (body (netsuite_import T)) k = Some (i, rn)
    /\ nth_error (body (shopify_import T)) k = Some (i, rs)
    /\ nth_error (body (netsuite_inventory_adjustment T)) k = Some (i, ri)
    /\ row_at (body (netsuite_import T)) i = Some rn
    /\ row_at (body (shopify_import T)) i = Some rs
    /\ row_at (body (netsuite_inventory_adjustment T)) i = Some ri.
Proof.
  intros Hl Hnd Hm Hk Hi.
  destruct (run_done _ _ _ _ Hl Hnd Hm) as (outs & Hadd & Hlen & Hrows & En & Es & Ei).
  assert (Hrow : nth_error (combine index (map (seen_row header lines) lines)) k
                 = Some (i, seen_row header lines line)).
  { apply nth_error_combine; [exact Hi|]. now apply map_nth_error. }
  destruct (Forall2_nth_left _ _ _ _ _ Hadd Hrow) as ([[rn rs] ri] & Ho & Hb).
  cbn [fst snd] in Hb.
  exists rn, rs, ri. split; [exact Hb|]. split; [now rewrite Hrows|].
  rewrite En, Es, Ei.
  pose proof (map_nth_error (fun o => fst (fst o)) _ _ Ho) as H1.
  pose proof (map_nth_error (fun o => snd (fst o)) _ _ Ho) as H2.
  pose proof (map_nth_error snd _ _ Ho) as H3.
  cbn [fst snd] in H1, H2, H3.
  repeat split;
    first [ now apply nth_error_combine
          | now apply (row_at_combine index _ k) ].
Qed.

Lemma main_done (header : list str) (lines : list (list value)) (T : Tables) :
  main header lines = Done T ->
  exists outs,
    rows_added (combine (seq 0 (length lines)) (map (seen_row header lines) lines)) outs
    /\ length outs = length lines
    /\ body (netsuite_import T) =
       combine (seq 0 (length lines)) (map (fun o => fst (fst o)) outs)
    /\ body (shopify_import T) =
       combine (seq 0 (length lines)) (map (fun o => snd (fst o)) outs)
    /\ body (netsuite_inventory_adjustment T) =
       combine (seq 0 (length lines)) (map snd outs).
Proof.
  intros Hm.
  destruct (run_done (seq 0 (length lines)) header lines T (length_seq _ _)
              (seq_NoDup _ _) Hm) as (outs & H1 & H2 & _ & H3).
  exists outs. auto.
Qed.

(** Row [k] of every table of a finished run is what one pass builds from
    line [k] as the loop gets it, under the label [k]. *)
Lemma main_row (header : list str) (lines : list (list value)) (T : Tables)
    (k : nat) (line : list value) :
  main header lines = Done T ->
  nth_error lines k = Some line ->
  exists rn rs ri,
    loop_body initial_tables k (seen_row header lines line) = inr (one_row k rn rs ri)
    /\ nth_error (normalized_rows (read_csv header lines)) k
       = Some (k, seen_row header lines line)
    /\ nth_error (body (netsuite_import T)) k = Some (k, rn)
    /\ nth_error (body (shopify_import T)) k = Some (k, rs)
    /\ nth_error (body (netsuite_inventory_adjustment T)) k = Some (k, ri)
    /\ row_at (body (netsuite_import T)) k = Some rn
    /\ row_at (body (shopify_import T)) k = Some rs
    /\ row_at (body (netsuite_inventory_adjustment T)) k = Some ri.
Proof.
  intros Hm Hk.
  apply (run_row (seq 0 (length lines)) header lines T k k line);
    [apply length_seq|apply seq_NoDup|exact Hm|exact Hk|].
  apply (nth_error_seq_lt 0). exact (nth_error_lt _ _ _ Hk).
Qed.

Lemma at_get_row (df : DataFrame) (k : nat) (col : str) (r : Series) :
  row_at (body df) k = Some r -> at_get df k col = lookup col r.
Proof. unfold at_get. now intros ->. Qed.

(** Every finished run: the pass over line [k] as the loop gets it, and the
    rows [k] of the three tables. *)
Lemma main_pass (header : list str) (lines : list (list value)) (T : Tables)
    (k : nat) (line : list value) :
  main header lines = Done T ->
  nth_error lines k = Some line ->
  exists rn rs ri,
    pass (seen_row header lines line) rn rs ri
    /\ (forall col, at_get (netsuite_import T) k col = lookup col rn)
    /\ (forall col, at_get (shopify_import T) k col = lookup col rs)
    /\ (forall col, at_get (netsuite_inventory_adjustment T) k col = lookup col ri)
    /\ nth_error (normalized_rows (read_csv header lines)) k
       = Some (k, seen_row header lines line).
Proof.
  intros Hm Hk.
  destruct (main_row _ _ _ _ _ Hm Hk)
    as (rn & rs & ri & Hb & Hrow & _ & _ & _ & Rn & Rs & Ri).
  exists rn, rs, ri. split; [exact (loop_body_pass _ _ _ _ _ Hb)|].
  repeat split; try exact Hrow; intros col; now apply at_get_row.
Qed.

(** Every cell the loop assigns belongs to a declared column, so no
    assignment adds a column. *)
Lemma cells_are_columns (sku price lbs qty burn_time end_weight height width : value)
    (display_name original_description : str) (grams : Z) :
  Forall (fun cv => In (fst cv) netsuite_columns)
         (netsuite_cells sku display_name price lbs)
  /\ Forall (fun cv => In (fst cv) inventory_columns)
            (inventory_cells sku display_name qty)
  /\ Forall (fun cv => In (fst cv) shopify_columns)
            (shopify_cells sku original_description burn_time end_weight
                           height width grams price).
Proof.
  repeat split; repeat (apply Forall_cons; [cbv; tauto|]); apply Forall_nil.
Qed.

(** ** Runs that pass the column check *)

Lemma filter_none {A : Type} (f : A -> bool) (l : list A) :
  (forall x, In x l -> f x = false) -> filter f l = [].
Proof.
  induction l as [|a l IH]; intros H; simpl; [reflexivity|].
  rewrite (H a (or_introl eq_refl)). apply IH. intros x Hx. apply H. now right.
Qed.

Lemma run_validated (index : list nat) (header : list str) (lines : list (list value))
    (T : Tables) :
  run (read_table index header lines) = Done T ->
  forall col, In col required_cols -> In col (map strip header).
Proof.
  intros Hm col Hreq.
  destruct (mem col (map strip header)) eqn:E; [now apply mem_In|].
  exfalso. revert Hm. unfold run. rewrite data_cleaning_stops_table.
  assert (Hin : In col (filter (fun c => negb (mem c (map strip header))) required_cols)).
  { apply filter_In. split; [assumption|]. now rewrite E. }
  destruct (filter _ required_cols); [destruct Hin|discriminate].
Qed.

Lemma done_validated (header : list str) (lines : list (list value)) (T : Tables) :
  main header lines = Done T ->
  forall col, In col required_cols -> In col (map strip header).
Proof. apply run_validated. Qed.

Lemma data_cleaning_ok_table (index : list nat) (header : list str)
    (lines : list (list value)) :
  (forall col, In col required_cols -> In col (map strip header)) ->
  exists df, data_cleaning (read_table index header lines) = inr df.
Proof.
  intros Hreq. unfold data_cleaning.
  change (columns (strip_columns (read_table index header lines))) with (map strip header).
  assert (E : filter (fun col => negb (mem col (map strip header))) required_cols = []).
  { apply filter_none. intros c Hc.
    apply negb_false_iff. now apply mem_In, Hreq. }
  rewrite E. eauto.
Qed.

Lemma data_cleaning_ok (header : list str) (lines : list (list value)) :
  (forall col, In col required_cols -> In col (map strip header)) ->
  exists df, data_cleaning (read_csv header lines) = inr df.
Proof. apply data_cleaning_ok_table. Qed.

(** The run on a table that passes the column check is the loop over the
    lines as [seen_row] gives them. *)
Lemma run_process (index : list nat) (header : list str) (lines : list (list value)) :
  length index = length lines ->
  (forall col, In col required_cols -> In col (map strip header)) ->
  run (read_table index header lines)
  = match process (combine index (map (seen_row header lines) lines)) initial_tables with
    | inl e => Unexpected e
    | inr T => Done T
    end.
Proof.
  intros Hl Hreq. unfold run.
  destruct (data_cleaning_ok_table index header lines Hreq) as [df Hdf].
  rewrite Hdf. now rewrite (normalized_rows_table _ _ _ _ Hl Hdf).
Qed.

Lemma main_process (header : list str) (lines : list (list value)) :
  (forall col, In col required_cols -> In col (map strip header)) ->
  main header lines
  = match process (combine (seq 0 (length lines)) (map (seen_row header lines) lines))
                  initial_tables with
    | inl e => Unexpected e
    | inr T => Done T
    end.
Proof. apply run_process, length_seq. Qed.

(** Whether a pass ends normally does not depend on the tables it is given. *)
Lemma loop_body_total (T : Tables) (i : nat) (row : Series) :
  (exists T1, loop_body initial_tables i row = inr T1) ->
  exists T', loop_body T i row = inr T'.
Proof.
  unfold loop_body. intros [T1 H]. revert H.
  destruct (getitem row (lit "Fragrance - Vessel Description")) as [e|d]; cbn [bind]; [discriminate|].
  destruct (getitem row (lit "SKU")) as [e|sku]; cbn [bind]; [discriminate|].
  destruct (getitem row (lit "Retail Price")) as [e|price]; cbn [bind]; [discriminate|].
  destruct (getitem row (lit "End Weight (lbs)")) as [e|lbs]; cbn [bind]; [discriminate|].
  destruct (getitem row (lit "Quantity")) as [e|qty]; cbn [bind]; [discriminate|].
  destruct (getitem row (lit "Burn Time")) as [e|bt]; cbn [bind]; [discriminate|].
  destruct (getitem row (lit "End Weight")) as [e|ew]; cbn [bind]; [discriminate|].
  destruct (mul_float lbs f453_592) as [e|product]; cbn [bind]; [discriminate|].
  destruct (py_round product) as [e|grams]; cbn [bind]; [discriminate|].
  intros _. eauto.
Qed.

Lemma process_total (rows : list (nat * Series)) (T : Tables) :
  (forall i row, In (i, row) rows -> exists T1, loop_body initial_tables i row = inr T1) ->
  exists T', process rows T = inr T'.
Proof.
  revert T. induction rows as [|[i row] rows IH]; intros T H; simpl; [eauto|].
  destruct (loop_body_total T i row (H i row (or_introl eq_refl))) as [Tm ->].
  cbn [bind]. apply IH. intros j r Hin. apply (H j r). now right.
Qed.
(** ** C1: the NetSuite display name *)

Lemma presented_str (s : str) (v : value) : presented (VStr s) v -> v = VStr s.
Proof. intros [H|H]; exact H. Qed.

(** A column of the file that cleaning leaves alone, in a row the loop
    gets: the cell as read, or the float of the integer it holds. *)
Lemma seen_row_unchecked (header : list str) (lines : list (list value))
    (line : list value) (key : str) :
  In key (map strip header) -> ~ In key numeric_cols_to_check ->
  exists raw v,
    lookup key (raw_row header line) = Some raw
    /\ lookup key (seen_row header lines line) = Some v
    /\ presented raw v.
Proof.
  intros Hin Hnum.
  destruct (seen_row_cell header lines line key Hin) as (v0 & v & Hv0 & Hv & _ & Hp).
  exists v0, v. split; [|auto].
  rewrite <- Hv0, (lookup_clean_row _ _ _ Hin), (mem_false _ _ Hnum). reflexivity.
Qed.

(** C1.  For row [k] of a run that reaches line 233, with [d] the
    description cell of the row as the loop gets it (the text of the file
    when the cell is text; for a numeric cell its number, shown as a float
    where the row is one): the 'Display Name' cell of the NetSuite table is
    the text of [d] split on '|', each part stripped, the parts joined with
    " - "; the parts are those that give the text back when joined with '|',
    none holding a '|'; a description without '|' comes out stripped and
    otherwise unchanged; stripping a part removes a run of whitespace at
    each end and nothing else; "Vanilla Bean | Mason Jar" gives
    "Vanilla Bean - Mason Jar". *)
Theorem c1_display_name (header : list str) (lines : list (list value))
    (T : Tables) (k : nat) (line : list value) :
  main header lines = Done T ->
  nth_error lines k = Some line ->
  exists row raw d parts,
    nth_error (normalized_rows (read_csv header lines)) k = Some (k, row)
    /\ lookup (lit "Fragrance - Vessel Description") (raw_row header line) = Some raw
    /\ lookup (lit "Fragrance - Vessel Description") row = Some d
    /\ presented raw d
    /\ (forall s, raw = VStr s -> py_str d = s)
    /\ join (lit "|") parts = py_str d
    /\ Forall (fun p => ~ In "|"%char p) parts
    /\ Forall (fun p =>
                 (exists l r, p = l ++ strip p ++ r
                              /\ forallb isspace l = true /\ forallb isspace r = true)
                 /\ (forall c t, strip p = c :: t -> isspace c = false)
                 /\ (forall t c, strip p = t ++ [c] -> isspace c = false)) parts
    /\ at_get (netsuite_import T) k (lit "Display Name")
       = Some (VStr (join (lit " - ") (map strip parts)))
    /\ (~ In "|"%char (py_str d) ->
        at_get (netsuite_import T) k (lit "Display Name") = Some (VStr (strip (py_str d))))
    /\ netsuite_display_name (lit "Vanilla Bean | Mason Jar")
       = lit "Vanilla Bean - Mason Jar".
Proof.
  intros Hm Hk.
  pose proof (done_validated _ _ _ Hm) as Hreq.
  destruct (main_pass _ _ _ _ _ Hm Hk) as (rn & rs & ri & Hp & Hn & _ & _ & Hrow).
  destruct Hp as [d sku price lbs qty bt ew product grams Hd _ _ _ _ _ _ _ _].
  destruct (seen_row_unchecked header lines line (lit "Fragrance - Vessel Description"))
    as (raw & d' & Hraw & Hd' & Hpres);
    [apply Hreq; cbv; tauto|cbv; intuition discriminate|].
  rewrite Hd in Hd'. injection Hd' as <-.
  exists (seen_row header lines line), raw, d, (split "|" (py_str d)).
  split; [exact Hrow|]. split; [exact Hraw|]. split; [exact Hd|]. split; [exact Hpres|].
  split; [intros s ->; now rewrite (presented_str _ _ Hpres)|].
  split; [apply join_split|].
  split; [apply split_parts_free|].
  split.
  { apply Forall_forall. intros p _. split; [apply strip_decomp|].
    split; [apply strip_first|apply strip_last]. }
  assert (Hcell : at_get (netsuite_import T) k (lit "Display Name")
                  = Some (VStr (netsuite_display_name (py_str d)))).
  { rewrite Hn. reflexivity. }
  split; [exact Hcell|].
  split; [|reflexivity].
  intros Hno. rewrite Hcell. unfold netsuite_display_name.
  now rewrite (split_no_sep _ _ Hno).
Qed.
(** ** C8: the inventory adjustment row *)

Lemma suffix_short (n : nat) (s : str) : length s <= n -> suffix n s = s.
Proof.
  intros H. unfold suffix. replace (length s - n) with 0 by lia. reflexivity.
Qed.

Lemma suffix_length (n : nat) (s : str) : length (suffix n s) = Nat.min n (length s).
Proof. unfold suffix. rewrite length_skipn. lia. Qed.

Lemma suffix_tail (n : nat) (s : str) : exists pre, s = pre ++ suffix n s.
Proof.
  exists (firstn (length s - n) s). unfold suffix. now rewrite firstn_skipn.
Qed.

(** C8.  For row [k] of a run that reaches line 233, with the SKU, the
    description and the Quantity of the row as the loop gets it: the
    inventory adjustment table has 'External ID', 'memo' and 'Line memo'
    equal to "Antique Restock " followed by the last 6 characters of the
    text of the SKU (all of it when shorter), 'Full name' equal to the text
    of the SKU, one space and the display name, 'line qty adj' equal to the
    Quantity cell and 'itemId' equal to the SKU cell.  The text of a SKU that
    is text in the file is that text; the text of an integer is its decimal
    digits and the text of a float is [str] of it (a SKU of digits alone, in
    a table without a text column, reaches the loop as a float). *)
Theorem c8_inventory_row (header : list str) (lines : list (list value))
    (T : Tables) (k : nat) (line : list value) :
  main header lines = Done T ->
  nth_error lines k = Some line ->
  exists row raw sku d qty sku_str,
    nth_error (normalized_rows (read_csv header lines)) k = Some (k, row)
    /\ lookup (lit "SKU") (raw_row header line) = Some raw
    /\ lookup (lit "SKU") row = Some sku
    /\ presented raw sku
    /\ lookup (lit "Fragrance - Vessel Description") row = Some d
    /\ lookup (lit "Quantity") row = Some qty
    /\ match sku with
       | VStr s => sku_str = s
       | VNum (NInt z) => sku_str = int_str z
       | VNum (NFloat f) => sku_str = float_str f
       end
    /\ (forall s, raw = VStr s -> sku_str = s)
    /\ let last6 := skipn (length sku_str - 6) sku_str in
       let inv := netsuite_inventory_adjustment T in
       (exists pre, sku_str = pre ++ last6)
       /\ length last6 = Nat.min 6 (length sku_str)
       /\ (length sku_str <= 6 -> last6 = sku_str)
       /\ at_get inv k (lit "External ID") = Some (VStr (lit "Antique Restock " ++ last6))
       /\ at_get inv k (lit "memo") = Some (VStr (lit "Antique Restock " ++ last6))
       /\ at_get inv k (lit "Line memo") = Some (VStr (lit "Antique Restock " ++ last6))
       /\ at_get inv k (lit "Full name")
          = Some (VStr (sku_str ++ lit " " ++ netsuite_display_name (py_str d)))
       /\ at_get inv k (lit "line qty adj") = Some qty
       /\ at_get inv k (lit "itemId") = Some sku.
Proof.
  intros Hm Hk.
  pose proof (done_validated _ _ _ Hm) as Hreq.
  destruct (main_pass _ _ _ _ _ Hm Hk) as (rn & rs & ri & Hp & _ & _ & Hi & Hrow).
  destruct Hp as [d sku price lbs qty bt ew product grams Hd Hsku _ _ Hq _ _ _ _].
  destruct (seen_row_unchecked header lines line (lit "SKU"))
    as (raw & sku' & Hraw & Hsku' & Hpres);
    [apply Hreq; cbv; tauto|cbv; intuition discriminate|].
  rewrite Hsku in Hsku'. injection Hsku' as <-.
  exists (seen_row header lines line), raw, sku, d, qty, (py_str sku).
  split; [exact Hrow|]. split; [exact Hraw|]. split; [exact Hsku|].
  split; [exact Hpres|]. split; [exact Hd|]. split; [exact Hq|].
  split; [destruct sku as [s|[z|f]]; reflexivity|].
  split; [intros s ->; now rewrite (presented_str _ _ Hpres)|].
  cbv zeta. fold (suffix 6 (py_str sku)).
  split; [apply suffix_tail|]. split; [apply suffix_length|].
  split; [apply suffix_short|].
  rewrite !Hi. repeat split.
Qed.
(** ** C2: fragrance, smells-like tag and Tags *)

Lemma hd_split_before (s : str) :
  hd [] (split "-" (parseable_name_for_tags s)) = before_delimiter s.
Proof.
  unfold parseable_name_for_tags, replace.
  induction s as [|c t IH]; [reflexivity|].
  cbn [flat_map before_delimiter].
  destruct (Ascii.eqb_spec c "|") as [->|Hp]; cbn [orb].
  - reflexivity.
  - cbn [app split lit list_ascii_of_string].
    destruct (Ascii.eqb c "-"); [reflexivity|].
    pose proof (split_nonempty "-"
      (flat_map (fun c0 => if Ascii.eqb c0 "|" then lit "-" else [c0]) t)) as Hne.
    destruct (split "-" _) as [|p ps]; [contradiction|].
    cbn [hd] in *. now rewrite IH.
Qed.

Lemma lower_char_space (c : ascii) :
  Ascii.eqb (lower_char c) " " = Ascii.eqb c " ".
Proof. destruct c as [[] [] [] [] [] [] [] []]; reflexivity. Qed.

(** Lowering the case and replacing spaces by hyphens commute. *)
Lemma lower_replace_space (s : str) :
  lower (replace " " (lit "-") s) = replace " " (lit "-") (lower s).
Proof.
  unfold lower, replace. induction s as [|c t IH]; [reflexivity|].
  cbn [flat_map map]. rewrite lower_char_space, map_app, IH.
  destruct (Ascii.eqb c " "); reflexivity.
Qed.

(** C2.  For row [k] of a run that reaches line 233, with [s] the text of
    the description and [sku_str] the text of the SKU of the row as the loop
    gets it (the texts of the file when the cells are text): the fragrance
    is [s] with every '|' replaced by '-', split on '-', first part,
    stripped (the text before the first '|' or '-', stripped); the
    smells-like tag is the fragrance in lower case with its spaces replaced
    by hyphens; the 'Tags' cell is built from them and from the last six
    characters of [sku_str].  On the example row (SKU "ABC123456",
    "Vanilla Bean | Mason Jar") 'Tags' contains "antique123456" and
    "_tab1_vanilla-bean-smells-like". *)
Theorem c2_fragrance_tags (header : list str) (lines : list (list value))
    (T : Tables) (k : nat) (line : list value) :
  main header lines = Done T ->
  nth_error lines k = Some line ->
  (exists row raw_d d raw_sku sku,
    nth_error (normalized_rows (read_csv header lines)) k = Some (k, row)
    /\ lookup (lit "Fragrance - Vessel Description") (raw_row header line) = Some raw_d
    /\ lookup (lit "Fragrance - Vessel Description") row = Some d
    /\ presented raw_d d
    /\ lookup (lit "SKU") (raw_row header line) = Some raw_sku
    /\ lookup (lit "SKU") row = Some sku
    /\ presented raw_sku sku
    /\ (forall t, raw_d = VStr t -> py_str d = t)
    /\ (forall t, raw_sku = VStr t -> py_str sku = t)
    /\ let s := py_str d in
       fragrance s = strip (hd [] (split "-" (replace "|" (lit "-") s)))
       /\ fragrance s = strip (before_delimiter s)
       /\ smells_like s = replace " " (lit "-") (lower (fragrance s))
       /\ at_get (shopify_import T) k (lit "Tags")
          = Some (VStr (lit "_tab2_antique-restock-101,antique"
                        ++ skipn (length (py_str sku) - 6) (py_str sku)
                        ++ lit ",_tab1_" ++ smells_like s
                        ++ lit "-smells-like, " ++ fragrance s)))
  /\ (exists T0 t,
        main example_header [example_line] = Done T0
        /\ at_get (shopify_import T0) 0 (lit "Tags") = Some (VStr t)
        /\ contains (lit "antique123456") t = true
        /\ contains (lit "_tab1_vanilla-bean-smells-like") t = true).
Proof.
  intros Hm Hk. split.
  - pose proof (done_validated _ _ _ Hm) as Hreq.
    destruct (main_pass _ _ _ _ _ Hm Hk) as (rn & rs & ri & Hp & _ & Hs & _ & Hrow).
    destruct Hp as [d sku price lbs qty bt ew product grams Hd Hsku _ _ _ _ _ _ _].
    destruct (seen_row_unchecked header lines line (lit "Fragrance - Vessel Description"))
      as (raw_d & d' & Hrd & Hd' & Hpd);
      [apply Hreq; cbv; tauto|cbv; intuition discriminate|].
    rewrite Hd in Hd'. injection Hd' as <-.
    destruct (seen_row_unchecked header lines line (lit "SKU"))
      as (raw_sku & sku' & Hrs & Hsku' & Hps);
      [apply Hreq; cbv; tauto|cbv; intuition discriminate|].
    rewrite Hsku in Hsku'. injection Hsku' as <-.
    exists (seen_row header lines line), raw_d, d, raw_sku, sku.
    split; [exact Hrow|]. split; [exact Hrd|]. split; [exact Hd|]. split; [exact Hpd|].
    split; [exact Hrs|]. split; [exact Hsku|]. split; [exact Hps|].
    split; [intros t ->; now rewrite (presented_str _ _ Hpd)|].
    split; [intros t ->; now rewrite (presented_str _ _ Hps)|].
    cbv zeta. split; [reflexivity|].
    split; [unfold fragrance; now rewrite hd_split_before|].
    split; [apply lower_replace_space|].
    rewrite Hs. reflexivity.
  - eexists. eexists. split; [vm_compute; reflexivity|].
    split; [vm_compute; reflexivity|]. split; vm_compute; reflexivity.
Qed.
(** ** C3: missing required columns *)

Lemma startswith_app (p s : str) : startswith p (p ++ s) = true.
Proof.
  induction p as [|a p IH]; simpl; [now destruct s|].
  now rewrite Ascii.eqb_refl, IH.
Qed.

Lemma contains_here (sub s : str) : startswith sub s = true -> contains sub s = true.
Proof. intros H. destruct s; simpl in *; now rewrite H. Qed.

Lemma contains_mid (sub pre post : str) : contains sub (pre ++ sub ++ post) = true.
Proof.
  induction pre as [|c pre IH]; simpl.
  - apply contains_here, startswith_app.
  - rewrite IH. apply orb_true_r.
Qed.

Lemma join_mem (sep c : str) (l : list str) :
  In c l -> exists pre post, join sep l = pre ++ c ++ post.
Proof.
  induction l as [|p ps IH]; [intros []|].
  intros [->|Hin].
  - destruct ps as [|q ps]; simpl.
    + exists [], []. now rewrite app_nil_r.
    + exists [], (sep ++ join sep (q :: ps)). reflexivity.
  - destruct (IH Hin) as (pre & post & E).
    destruct ps as [|q ps]; [destruct Hin|].
    exists (p ++ sep ++ pre), post.
    change (join sep (p :: q :: ps)) with (p ++ sep ++ join sep (q :: ps)).
    rewrite E. now rewrite <- !app_assoc.
Qed.

(** C3.  When a required column is not among the stripped header names,
    the run is stopped with the missing-columns message (so no output table
    is handed over, with no row at all); the message lists exactly the
    required columns that are missing, and names each of them. *)
Theorem c3_missing_columns (header : list str) (lines : list (list value)) :
  (exists col, In col required_cols /\ ~ In col (map strip header)) ->
  exists missing_cols,
    main header lines = Stopped (missing_message missing_cols)
    /\ (forall col, In col missing_cols
                    <-> In col required_cols /\ ~ In col (map strip header))
    /\ (forall col, In col missing_cols
                    -> contains col (missing_message missing_cols) = true)
    /\ output_tables (main header lines) = [].
Proof.
  intros (c & Hreq & Hmiss).
  set (missing_cols := filter (fun col => negb (mem col (map strip header))) required_cols).
  assert (Hspec : forall col, In col missing_cols
                    <-> In col required_cols /\ ~ In col (map strip header)).
  { intros col. unfold missing_cols. rewrite filter_In, negb_true_iff.
    split; intros [H1 H2]; split; auto.
    - intros Hin. apply mem_In in Hin. congruence.
    - destruct (mem col (map strip header)) eqn:E; [|reflexivity].
      apply mem_In in E. contradiction. }
  assert (Hmain : main header lines = Stopped (missing_message missing_cols)).
  { unfold main, run. rewrite data_cleaning_stops. fold missing_cols.
    destruct missing_cols as [|m ms] eqn:E; [|reflexivity].
    exfalso. apply (proj2 (Hspec c)). auto. }
  exists missing_cols. split; [exact Hmain|]. split; [exact Hspec|].
  split; [|now rewrite Hmain].
  intros col Hin. unfold missing_message.
  destruct (join_mem (lit ", ") col missing_cols Hin) as (pre & post & ->).
  rewrite <- !app_assoc, app_assoc. apply contains_mid.
Qed.

(** ** C4: one output row per input row *)

(** ** C5: numeric fields after cleaning *)

Lemma coerce_is_number (v : value) : is_number (coerce v) = true.
Proof.
  unfold coerce, fillna0, to_numeric.
  destruct v as [s|[z|f]].
  - destruct (parse_num s) as [[z|f]|]; try reflexivity.
    destruct f; reflexivity.
  - reflexivity.
  - destruct f; reflexivity.
Qed.

Lemma coerce_null (v : value) :
  isna v = true \/ (exists s, v = VStr s /\ parse_num s = None) ->
  coerce v = VNum (NFloat (S754_zero false)).
Proof.
  unfold coerce, fillna0, to_numeric. intros [H|(s & -> & ->)]; [|reflexivity].
  destruct v as [s|[z|[]]]; try discriminate. reflexivity.
Qed.

Lemma times16_is_number (d : dtype) (v : value) :
  is_number v = true -> is_number (times16 d v) = true.
Proof.
  intros H. unfold times16. apply (astype_is_number d) in H.
  destruct (astype d v) as [s|[z|f]]; [discriminate|reflexivity|].
  pose proof (fmul_not_nan f false 4503599627370496 (-48)) as Hn.
  fold f16 in Hn. cbn [is_number]. destruct (fmul f f16); try reflexivity.
  exfalso. apply Hn; [|reflexivity]. intros ->. discriminate.
Qed.

Lemma In_numeric_mem (col : str) :
  In col numeric_cols_to_check -> mem col numeric_cols_to_check = true.
Proof. apply mem_In. Qed.

(** A string that parses as NaN is a missing cell too. *)
Lemma coerce_nan_text (s : str) :
  parse_num s = Some (NFloat S754_nan) ->
  coerce (VStr s) = VNum (NFloat (S754_zero false)).
Proof. unfold coerce, fillna0, to_numeric. now intros ->. Qed.

(** A number of the file, and a string that parses as a number, are kept
    by the coercion. *)
Lemma coerce_keeps (raw : value) (n : num) :
  raw = VNum n \/ (exists s, raw = VStr s /\ parse_num s = Some n) ->
  is_number (VNum n) = true ->
  coerce raw = VNum n.
Proof.
  unfold coerce, fillna0, to_numeric. intros [->|(s & -> & ->)] Hn;
    destruct n as [z|[]]; try reflexivity; discriminate.
Qed.

(** The row the loop gets for line [k] of a file. *)
Lemma normalized_row (header : list str) (lines : list (list value)) (k : nat)
    (line : list value) (i : nat) (row : Series) :
  nth_error lines k = Some line ->
  nth_error (normalized_rows (read_csv header lines)) k = Some (i, row) ->
  i = k /\ row = seen_row header lines line
  /\ forall col, In col required_cols -> In col (map strip header).
Proof.
  intros Hk Hrow. unfold read_csv in Hrow.
  destruct (data_cleaning (read_table (seq 0 (length lines)) header lines))
    as [m|df] eqn:Hdf.
  - unfold normalized_rows in Hrow. rewrite Hdf in Hrow. now destruct k.
  - rewrite (normalized_rows_table _ _ _ _ (length_seq _ _) Hdf) in Hrow.
    rewrite (nth_error_combine _ _ k k (seen_row header lines line)) in Hrow.
    + injection Hrow as <- <-. split; [reflexivity|]. split; [reflexivity|].
      intros col Hreq.
      destruct (mem col (map strip header)) eqn:E; [now apply mem_In|].
      exfalso. rewrite data_cleaning_stops_table in Hdf.
      assert (Hin : In col (filter (fun c => negb (mem c (map strip header))) required_cols)).
      { apply filter_In. split; [assumption|]. now rewrite E. }
      destruct (filter _ required_cols); [destruct Hin|discriminate].
    + apply (nth_error_seq_lt 0). exact (nth_error_lt _ _ _ Hk).
    + now apply map_nth_error.
Qed.

(** C5 (as amended).  In a row the loop gets, every field among 'Retail
    Price', 'End Weight (lbs)', 'Quantity', 'Burn Time', 'End Weight',
    'Height', 'Width' that is present holds a number and is never null;
    where the cell of the file was null, or a string that does not parse (or
    parses as NaN), the field holds 0; and any other cell keeps the number
    of the file (the number itself, or the float of an integer), whatever
    its sign. *)
Theorem c5_numeric_fields (header : list str) (lines : list (list value)) (k : nat)
    (line : list value) (row : Series) (col : str) (v : value) :
  nth_error lines k = Some line ->
  nth_error (normalized_rows (read_csv header lines)) k = Some (k, row) ->
  In col numeric_cols_to_check ->
  lookup col row = Some v ->
  is_number v = true
  /\ forall raw,
       lookup col (raw_row header line) = Some raw ->
       (isna raw = true
        \/ (exists s, raw = VStr s
                      /\ (parse_num s = None \/ parse_num s = Some (NFloat S754_nan))) ->
        v = VNum (NFloat (S754_zero false)))
       /\ (forall n,
             raw = VNum n \/ (exists s, raw = VStr s /\ parse_num s = Some n) ->
             is_number (VNum n) = true ->
             presented (VNum n) v).
Proof.
  intros Hk Hrow Hnum Hv.
  destruct (normalized_row _ _ _ _ _ _ Hk Hrow) as (_ & -> & Hreq).
  destruct (in_dec (list_eq_dec ascii_dec) col (map strip header)) as [Hin|Hout].
  - destruct (seen_row_cell header lines line col Hin) as (v0 & v' & Hv0 & Hv' & Hcast & Hp).
    rewrite Hv in Hv'. injection Hv' as <-.
    rewrite (lookup_clean_row _ _ _ Hin), (In_numeric_mem _ Hnum) in Hv0.
    destruct (lookup col (raw_row header line)) as [raw|]; [|discriminate].
    injection Hv0 as <-. split.
    + rewrite Hcast. do 2 apply astype_is_number. apply coerce_is_number.
    + intros raw' [= <-]. split.
      * intros Hbad.
        assert (Hz : coerce raw = VNum (NFloat (S754_zero false))).
        { destruct Hbad as [Hna|(s & -> & [Hnone|Hnan])].
          - apply coerce_null. now left.
          - apply coerce_null. right. eauto.
          - now apply coerce_nan_text. }
        rewrite Hcast, Hz. now rewrite !astype_float.
      * intros n Hn Hnumber. now rewrite <- (coerce_keeps raw n Hn Hnumber).
  - assert (Hraw : lookup col (raw_row header line) = None)
      by (apply lookup_not_in_keys; now rewrite keys_raw_row).
    split; [|intros raw; rewrite Hraw; discriminate].
    destruct (list_eq_dec ascii_dec col (lit "End Weight")) as [->|Hne].
    + assert (Hl : In (lit "End Weight (lbs)") (map strip header))
        by (apply Hreq; cbv; tauto).
      destruct (cleaned_row_end_weight header lines line Hout Hl) as (w & Hw & Hew).
      rewrite lookup_seen_row, Hew in Hv. cbn [option_map] in Hv.
      apply some_inj in Hv. subst v.
      do 2 apply astype_is_number. apply times16_is_number.
      rewrite (lookup_clean_row _ _ _ Hl) in Hw.
      change (mem (lit "End Weight (lbs)") numeric_cols_to_check) with true in Hw.
      cbv iota in Hw.
      destruct (lookup (lit "End Weight (lbs)") (raw_row header line));
        cbn [option_map] in Hw; [|discriminate].
      apply some_inj in Hw. subst w. apply coerce_is_number.
    + rewrite (seen_row_absent header lines line col Hout Hne) in Hv. discriminate.
Qed.
(** ** C10: Variant Grams and [round] *)

Lemma round_half_even_spec (m : Z) (k : positive) :
  let d := Z.pow_pos 2 k in
  let g := round_half_even m k in
  (2 * Z.abs (g * d - m) <= d)%Z
  /\ ((2 * Z.abs (g * d - m) = d)%Z -> Z.even g = true).
Proof.
  cbv zeta. unfold round_half_even.
  set (d := Z.pow_pos 2 k).
  assert (Hd : (0 < d)%Z) by (unfold d; rewrite Z.pow_pos_fold; apply Z.pow_pos_nonneg; lia).
  pose proof (Z.div_mod m d ltac:(lia)) as Hdm.
  pose proof (Z.mod_pos_bound m d Hd) as Hr.
  set (q := (m / d)%Z) in *. set (r := (m mod d)%Z) in *.
  destruct (Z.compare_spec (2 * r) d) as [E|L|G].
  - destruct (Z.even q) eqn:Ev.
    + split; [|auto]. replace (q * d - m)%Z with (- r)%Z by lia. lia.
    + split; [replace ((q + 1) * d - m)%Z with (d - r)%Z by lia; lia|].
      intros _. rewrite Z.even_add, Ev. reflexivity.
  - replace (q * d - m)%Z with (- r)%Z by lia. split; lia.
  - replace ((q + 1) * d - m)%Z with (d - r)%Z by lia. split; lia.
Qed.

Lemma pow_pos_Zpos (k : positive) : Z.pow_pos 2 k = Zpos (Pos.pow 2 k).
Proof. rewrite Z.pow_pos_fold. now rewrite Pos2Z.inj_pow. Qed.

Lemma Qabs_diff_neg (a b : Q) : (Qabs (- a - - b) == Qabs (a - b))%Q.
Proof.
  setoid_replace (- a - - b)%Q with (- (a - b))%Q by ring. apply Qabs_opp.
Qed.

(** [round] gives an integer nearest to the float, the even one on a tie. *)
Lemma py_round_spec (x : spec_float) (g : Z) :
  py_round x = inr g ->
  (Qabs (inject_Z g - float_value x) <= 1 # 2)%Q
  /\ ((Qabs (inject_Z g - float_value x) == 1 # 2)%Q -> Z.even g = true).
Proof.
  assert (Hexact : forall a : Z,
            (Qabs (inject_Z a - inject_Z a) <= 1 # 2)%Q
            /\ ((Qabs (inject_Z a - inject_Z a) == 1 # 2)%Q -> Z.even a = true)).
  { intros a. setoid_replace (inject_Z a - inject_Z a)%Q with 0%Q by ring.
    split; [discriminate|]. intros H. discriminate H. }
  assert (Hneg : forall (a : Z) (v : Q),
            (Qabs (inject_Z a - v) <= 1 # 2)%Q
            /\ ((Qabs (inject_Z a - v) == 1 # 2)%Q -> Z.even a = true) ->
            (Qabs (inject_Z (- a) - - v) <= 1 # 2)%Q
            /\ ((Qabs (inject_Z (- a) - - v) == 1 # 2)%Q -> Z.even (- a) = true)).
  { intros a v [H1 H2].
    assert (E : (Qabs (inject_Z (- a) - - v) == Qabs (inject_Z a - v))%Q).
    { rewrite inject_Z_opp. apply Qabs_diff_neg. }
    rewrite E, Z.even_opp. auto. }
  destruct x as [s|s| |s m e]; simpl; try discriminate.
  - intros [= <-]. apply (Hexact 0%Z).
  - intros [= <-].
    assert (Hpos : forall a v,
              ((Qabs (inject_Z a - v) <= 1 # 2)%Q
               /\ ((Qabs (inject_Z a - v) == 1 # 2)%Q -> Z.even a = true)) ->
              (Qabs (inject_Z (if s then - a else a)%Z - (if s then - v else v)) <= 1 # 2)%Q
              /\ ((Qabs (inject_Z (if s then - a else a)%Z - (if s then - v else v)) == 1 # 2)%Q
                  -> Z.even (if s then - a else a)%Z = true)).
    { intros a v H. destruct s; [now apply Hneg|exact H]. }
    apply Hpos. destruct e as [|p|p].
    + apply Hexact.
    + apply Hexact.
    + destruct (round_half_even_spec (Zpos m) p) as [H1 H2].
      rewrite pow_pos_Zpos in H1, H2.
      set (g := round_half_even (Zpos m) p) in *.
      assert (Hq : Qabs (inject_Z g - (Zpos m # 2 ^ p))
                   = (Z.abs (g * Zpos (2 ^ p) - Zpos m) # (2 ^ p))%Q).
      { unfold Qabs, Qminus, Qplus, Qopp, inject_Z. cbn [Qnum Qden].
        f_equal. f_equal. lia. }
      rewrite Hq. unfold Qle, Qeq. cbn [Qnum Qden]. split.
      * lia.
      * intros H. apply H2. lia.
Qed.

(** The literal 453.592 is the binary64 nearest to 453592/1000 (within
    half a unit in the last place, 2^-45), and is a valid binary64. *)
Lemma f453_592_nearest :
  (Qabs (float_value f453_592 - (453592 # 1000)) <= 1 # (2 ^ 45))%Q
  /\ valid_binary prec emax f453_592 = true.
Proof. split; [discriminate|reflexivity]. Qed.

Lemma py_round_finite (x : spec_float) (g : Z) :
  py_round x = inr g -> finite_float x = true.
Proof. destruct x; simpl; try discriminate; reflexivity. Qed.

(** The product does not depend on the dtype in which the weight comes. *)
Lemma mul_float_astype (d : dtype) (v : value) (f : spec_float) :
  mul_float (astype d v) f = mul_float v f.
Proof. destruct v as [s|[z|x]], d; reflexivity. Qed.

Lemma mul_float_presented (v0 v : value) (f : spec_float) :
  presented v0 v -> mul_float v f = mul_float v0 f.
Proof. intros [->| ->]; [reflexivity|apply mul_float_astype]. Qed.

(** C10.  For row [k] of a run that reaches line 233, 'Variant Grams' is
    [round] of the binary64 product of the 'End Weight (lbs)' cell of the
    row the loop gets (an integer cell taken as the float nearest to it) and
    of the binary64 nearest to 453.592; the product is finite, and the cell
    is an integer within one half of that product, the even one when the
    product lies half-way between two integers. *)
Theorem c10_variant_grams (header : list str) (lines : list (list value))
    (T : Tables) (k : nat) (line : list value) :
  main header lines = Done T ->
  nth_error lines k = Some line ->
  exists row lbs0 lbs x product grams,
    nth_error (normalized_rows (read_csv header lines)) k = Some (k, row)
    /\ lookup (lit "End Weight (lbs)") (clean_row header line) = Some lbs0
    /\ lookup (lit "End Weight (lbs)") row = Some lbs
    /\ presented lbs0 lbs
    /\ match lbs with
       | VNum (NFloat f) => x = f
       | VNum (NInt z) => x = binary_normalize 53 1024 z 0 false
       | VStr _ => False
       end
    /\ product = SFmul 53 1024 x (S754_finite false 7979674852258742 (-44))
    /\ (Qabs (float_value (S754_finite false 7979674852258742 (-44)) - (453592 # 1000))
        <= 1 # (2 ^ 45))%Q
    /\ finite_float product = true
    /\ at_get (shopify_import T) k (lit "Variant Grams") = Some (VNum (NInt grams))
    /\ (Qabs (inject_Z grams - float_value product) <= 1 # 2)%Q
    /\ ((Qabs (inject_Z grams - float_value product) == 1 # 2)%Q -> Z.even grams = true).
Proof.
  intros Hm Hk.
  pose proof (done_validated _ _ _ Hm) as Hreq.
  destruct (main_pass _ _ _ _ _ Hm Hk) as (rn & rs & ri & Hp & _ & Hs & _ & Hrow).
  destruct Hp as [d sku price lbs qty bt ew product grams _ _ _ Hl _ _ _ Hprod Hg].
  destruct (seen_row_cell header lines line (lit "End Weight (lbs)"))
    as (lbs0 & lbs' & Hl0 & Hl' & _ & Hpres); [apply Hreq; cbv; tauto|].
  rewrite Hl in Hl'. apply some_inj in Hl'. subst lbs'.
  assert (Hx : exists x,
             match lbs with
             | VNum (NFloat f) => x = f
             | VNum (NInt z) => x = binary_normalize 53 1024 z 0 false
             | VStr _ => False
             end
             /\ product = SFmul 53 1024 x (S754_finite false 7979674852258742 (-44))).
  { destruct lbs as [s|[z|f]]; cbn [mul_float] in Hprod; [discriminate| |];
      apply (f_equal (fun r => match r with inr p => p | inl _ => product end)) in Hprod;
      eexists; (split; [reflexivity|]); rewrite <- Hprod; reflexivity. }
  destruct Hx as (x & Hx & Hproduct).
  exists (seen_row header lines line), lbs0, lbs, x, product, grams.
  split; [exact Hrow|]. split; [exact Hl0|]. split; [exact Hl|]. split; [exact Hpres|].
  split; [exact Hx|]. split; [exact Hproduct|].
  split; [exact (proj1 f453_592_nearest)|].
  split; [exact (py_round_finite _ _ Hg)|].
  split; [rewrite Hs; reflexivity|].
  now apply py_round_spec.
Qed.
(** ** C9: splitting the display name on " - " *)

Lemma startswith_inv (p s : str) :
  startswith p s = true -> exists t, s = p ++ t.
Proof.
  revert s. induction p as [|a p IH]; intros s; simpl.
  - intros _. now exists s.
  - destruct s as [|b s]; [discriminate|].
    intros H. apply andb_true_iff in H. destruct H as [E H].
    apply Ascii.eqb_eq in E. subst b.
    destruct (IH s H) as [t ->]. now exists t.
Qed.

Lemma contains_inv (sub s : str) :
  contains sub s = true -> exists a b, s = a ++ sub ++ b.
Proof.
  induction s as [|c s IH]; simpl.
  - rewrite orb_false_r. intros H. destruct (startswith_inv _ _ H) as [t E].
    exists [], t. exact E.
  - intros H. apply orb_true_iff in H. destruct H as [H|H].
    + destruct (startswith_inv _ _ H) as [t E]. exists [], t. exact E.
    + destruct (IH H) as (a & b & ->). now exists (c :: a), b.
Qed.

(** A substring of a part is a substring of the whole. *)
Lemma contains_context (sub x pre post : str) :
  contains sub x = true -> contains sub (pre ++ x ++ post) = true.
Proof.
  intros H. destruct (contains_inv _ _ H) as (a & b & ->).
  rewrite <- !app_assoc. rewrite app_assoc. apply contains_mid.
Qed.

Lemma contains_strip (sub p : str) :
  contains sub (strip p) = true -> contains sub p = true.
Proof.
  intros H. destruct (strip_decomp p) as (l & r & E & _).
  rewrite E. now apply contains_context.
Qed.

Lemma contains_part (sub p s : str) (sep : ascii) :
  In p (split sep s) -> contains sub p = true -> contains sub s = true.
Proof.
  intros Hin H. destruct (join_mem [sep] p _ Hin) as (pre & post & E).
  rewrite join_split in E. rewrite E. now apply contains_context.
Qed.

Lemma split_go_cons (sep acc : str) (c : ascii) (t : str) :
  split_go sep 0 acc (c :: t) =
  if startswith sep (c :: t)
  then rev acc :: split_go sep (length sep - 1) [] t
  else split_go sep 0 (c :: acc) t.
Proof. reflexivity. Qed.

Lemma split_go_skip (sep acc x rest : str) :
  split_go sep (length x) acc (x ++ rest) = split_go sep 0 acc rest.
Proof.
  induction x as [|c x IH]; [reflexivity|exact IH].
Qed.

(** Scanning a part in which no separator starts. *)
Lemma split_go_scan (sep acc p rest : str) :
  (forall p1 p2, p = p1 ++ p2 -> p2 <> [] -> startswith sep (p2 ++ rest) = false) ->
  split_go sep 0 acc (p ++ rest) = split_go sep 0 (rev p ++ acc) rest.
Proof.
  revert acc. induction p as [|c p IH]; intros acc Hfree; [reflexivity|].
  cbn [app]. rewrite split_go_cons.
  change (c :: p ++ rest) with ((c :: p) ++ rest).
  rewrite (Hfree [] (c :: p) eq_refl ltac:(discriminate)).
  rewrite IH.
  - cbn [rev]. now rewrite <- app_assoc.
  - intros p1 p2 E Hne. apply (Hfree (c :: p1) p2); [now rewrite E|assumption].
Qed.

(** Passing over a separator ends the current part. *)
Lemma split_go_sep (sep acc rest : str) :
  sep <> [] ->
  split_go sep 0 acc (sep ++ rest) = rev acc :: split_go sep 0 [] rest.
Proof.
  intros Hne. destruct sep as [|c sep']; [contradiction|].
  cbn [app]. rewrite split_go_cons.
  change (c :: sep' ++ rest) with ((c :: sep') ++ rest).
  rewrite startswith_app. f_equal.
  replace (length (c :: sep') - 1) with (length sep') by (cbn [length]; lia).
  apply split_go_skip.
Qed.

Lemma startswith_in_context (sub p1 p2 : str) :
  startswith sub p2 = true -> contains sub (p1 ++ p2) = true.
Proof.
  intros H. destruct (startswith_inv _ _ H) as [t ->]. apply contains_mid.
Qed.

Lemma endswith_app (p s : str) : endswith p (s ++ p) = true.
Proof. unfold endswith. rewrite rev_app_distr. apply startswith_app. Qed.

(** Where " - " can start in a part that is followed by " - ". *)
Lemma dash_start (p2 r : str) :
  p2 <> [] ->
  startswith (lit " - ") (p2 ++ lit " - " ++ r) = true ->
  startswith (lit " - ") p2 = true \/ p2 = lit " -".
Proof.
  intros Hne. destruct p2 as [|a [|b [|c p2]]]; [contradiction| | |];
    cbn [startswith app lit list_ascii_of_string]; intros H.
  - apply andb_true_iff in H. destruct H as [_ H].
    apply andb_true_iff in H. destruct H as [H _]. discriminate H.
  - apply andb_true_iff in H. destruct H as [Ha H].
    apply andb_true_iff in H. destruct H as [Hb _].
    apply Ascii.eqb_eq in Ha, Hb. subst. now right.
  - left. exact H.
Qed.

(** Parts without " - ", none but the last ending in " -", are recovered
    from their join. *)
Lemma split_str_join (ps : list str) :
  ps <> [] ->
  Forall (fun p => contains (lit " - ") p = false) ps ->
  Forall (fun p => endswith (lit " -") p = false) (removelast ps) ->
  split_str (lit " - ") (join (lit " - ") ps) = ps.
Proof.
  unfold split_str. induction ps as [|p ps IH]; [contradiction|].
  intros _ Hc He. inversion Hc as [|? ? Hp Hc']; subst.
  destruct ps as [|q ps].
  - cbn [join]. rewrite <- (app_nil_r p) at 1. rewrite split_go_scan.
    + cbn [split_go]. now rewrite app_nil_r, rev_involutive.
    + intros p1 p2 E _. rewrite app_nil_r.
      destruct (startswith (lit " - ") p2) eqn:S; [|reflexivity].
      rewrite E, (startswith_in_context _ p1 p2 S) in Hp. discriminate.
  - change (join (lit " - ") (p :: q :: ps))
      with (p ++ lit " - " ++ join (lit " - ") (q :: ps)).
    change (removelast (p :: q :: ps)) with (p :: removelast (q :: ps)) in He.
    inversion He as [|? ? Hpe He']; subst.
    rewrite split_go_scan.
    + rewrite split_go_sep by discriminate.
      rewrite app_nil_r, rev_involutive. f_equal.
      apply IH; [discriminate|assumption|assumption].
    + intros p1 p2 E Hne.
      destruct (startswith (lit " - ") (p2 ++ lit " - " ++ join (lit " - ") (q :: ps))) eqn:S;
        [|reflexivity].
      destruct (dash_start _ _ Hne S) as [S'| ->].
      * rewrite E, (startswith_in_context _ p1 p2 S') in Hp. discriminate.
      * rewrite E, endswith_app in Hpe. discriminate.
Qed.

(** C9 (as amended).  For a description that holds no " - ", and of which no
    stripped '|' part other than the last ends in " -", splitting the
    display name on " - " gives exactly the stripped '|' parts of the
    description. *)
Theorem c9_round_trip (s : str) :
  contains (lit " - ") s = false ->
  forallb (fun p => negb (endswith (lit " -") p))
          (removelast (map strip (split "|" s))) = true ->
  split_str (lit " - ") (netsuite_display_name s) = map strip (split "|" s).
Proof.
  intros Hc He. unfold netsuite_display_name. apply split_str_join.
  - pose proof (split_nonempty "|" s). destruct (split "|" s); [contradiction|discriminate].
  - apply Forall_forall. intros p Hin. apply in_map_iff in Hin.
    destruct Hin as (p0 & <- & Hin).
    destruct (contains (lit " - ") (strip p0)) eqn:C; [|reflexivity].
    rewrite (contains_part _ _ _ _ Hin (contains_strip _ _ C)) in Hc. discriminate.
  - apply Forall_forall. intros p Hin.
    rewrite forallb_forall in He. specialize (He p Hin).
    now apply negb_true_iff in He.
Qed.

(** ** C6: absent optional columns *)

(** Absent 'Height' and 'Width' columns: the body text of a finished run
    shows "N/A" for them. *)
Lemma height_width_placeholder (header : list str) (lines : list (list value))
    (T : Tables) (k : nat) (line : list value) :
  ~ In (lit "Height") (map strip header) ->
  ~ In (lit "Width") (map strip header) ->
  main header lines = Done T ->
  nth_error lines k = Some line ->
  exists burn_time end_weight,
    at_get (shopify_import T) k (lit "Body (HTML)")
    = Some (VStr (body_html burn_time end_weight (lit "N/A") (lit "N/A"))).
Proof.
  intros Hh Hw Hm Hk.
  destruct (main_pass _ _ _ _ _ Hm Hk) as (rn & rs & ri & Hp & _ & Hs & _).
  destruct Hp as [d sku price lbs qty bt ew product grams _ _ _ _ _ _ _ _ _].
  exists (py_str bt), (py_str ew). rewrite Hs. unfold get.
  rewrite (seen_row_absent header lines line (lit "Height") Hh) by discriminate.
  rewrite (seen_row_absent header lines line (lit "Width") Hw) by discriminate.
  reflexivity.
Qed.

(** C6 (what the code does where the claim fails).  On a file that has the
    required columns and at least one line but no 'Burn Time' column, the
    first pass of the loop raises [KeyError('Burn Time')]: the run ends in
    the exception handler and hands over no table, where the claim has the
    absent optional column replaced by a placeholder and the run
    completing. *)
Theorem c6_burn_time_absent (header : list str) (line : list value)
    (rest : list (list value)) :
  (forall col, In col required_cols -> In col (map strip header)) ->
  ~ In (lit "Burn Time") (map strip header) ->
  main header (line :: rest) = Unexpected (KeyError (lit "Burn Time"))
  /\ output_tables (main header (line :: rest)) = [].
Proof.
  intros Hreq Hbt.
  assert (Hmain : main header (line :: rest) = Unexpected (KeyError (lit "Burn Time"))).
  { rewrite (main_process header (line :: rest) Hreq).
    cbn [length seq map combine process].
    rewrite loop_body_initial.
    destruct (seen_row_cell header (line :: rest) line (lit "Fragrance - Vessel Description"))
      as (d0 & d & _ & Hd & _); [apply Hreq; cbv; tauto|].
    destruct (seen_row_cell header (line :: rest) line (lit "SKU"))
      as (sku0 & sku & _ & Hsku & _); [apply Hreq; cbv; tauto|].
    destruct (seen_row_cell header (line :: rest) line (lit "Retail Price"))
      as (price0 & price & _ & Hprice & _); [apply Hreq; cbv; tauto|].
    destruct (seen_row_cell header (line :: rest) line (lit "End Weight (lbs)"))
      as (lbs0 & lbs & _ & Hlbs & _); [apply Hreq; cbv; tauto|].
    destruct (seen_row_cell header (line :: rest) line (lit "Quantity"))
      as (qty0 & qty & _ & Hqty & _); [apply Hreq; cbv; tauto|].
    unfold getitem. rewrite Hd, Hsku, Hprice, Hlbs, Hqty.
    rewrite (seen_row_absent header (line :: rest) line (lit "Burn Time") Hbt)
      by discriminate.
    reflexivity. }
  split; [exact Hmain|]. now rewrite Hmain.
Qed.

(** ** C7: the synthesized 'End Weight' *)

Lemma wrap64_small (z : Z) :
  (- 2 ^ 63 <= z < 2 ^ 63)%Z -> wrap64 z = z.
Proof.
  intros H. unfold wrap64. rewrite Z.mod_small by lia. lia.
Qed.

Lemma Qpower2_pos (p : positive) :
  (Qpower 2 (Zpos p) == inject_Z (Zpos (2 ^ p)))%Q.
Proof.
  rewrite (Qpower_decomp_pos p 2 1). unfold Qeq, inject_Z. cbn [Qnum Qden].
  rewrite !Pos2Z.inj_pow, Z.pow_1_l by lia. lia.
Qed.

Lemma float_value_power (s : bool) (m : positive) (e : Z) :
  (float_value (S754_finite s m e)
   == (if s then - (1) else 1) * inject_Z (Zpos m) * Qpower 2 e)%Q.
Proof.
  assert (H : (match e with
               | Z0 => inject_Z (Zpos m)
               | Zpos p => inject_Z (Zpos m * Z.pow_pos 2 p)
               | Zneg p => Qmake (Zpos m) (Pos.pow 2 p)
               end == inject_Z (Zpos m) * Qpower 2 e)%Q).
  { destruct e as [|p|p].
    - cbn [Qpower]. ring.
    - rewrite inject_Z_mult, pow_pos_Zpos, Qpower2_pos. reflexivity.
    - rewrite Qmake_Qdiv. unfold Qdiv.
      change (Qpower 2 (Zneg p)) with (/ Qpower 2 (Zpos p))%Q.
      now rewrite Qpower2_pos. }
  cbn [float_value]. destruct s; rewrite H; ring.
Qed.

(** The value of a float whose mantissa is multiplied by [c] and whose
    exponent is raised by [j]. *)
Lemma float_value_scaled (s : bool) (m c : positive) (e j : Z) :
  (float_value (S754_finite s (c * m) (e + j))
   == inject_Z (Zpos c) * Qpower 2 j * float_value (S754_finite s m e))%Q.
Proof.
  rewrite !float_value_power.
  rewrite Qpower_plus by discriminate.
  rewrite Pos2Z.inj_mul, inject_Z_mult. ring.
Qed.

(** The product of a normal float by 16 keeps the mantissa and adds 4 to the
    exponent, when that does not overflow. *)
Lemma fmul_f16_normal (s : bool) (m : positive) (e : Z) :
  digits2_pos m = 53%positive -> (- 1074 <= e)%Z -> (e + 4 <= 971)%Z ->
  fmul (S754_finite s m e) f16 = S754_finite s m (e + 4).
Proof.
  intros Hd He1 He2. fmul_f16_shift 52%Z.
  replace (e + -48 + 52 <=? emax - prec)%Z with true
    by (symmetry; apply Z.leb_le; unfold emax, prec; lia).
  f_equal. lia.
Qed.

(** The product of a subnormal float by 16. *)
Lemma fmul_f16_subnormal (s : bool) (m : positive) :
  (digits2_pos m < 53)%positive ->
  exists (c : positive) (j : Z),
    fmul (S754_finite s m (-1074)) f16 = S754_finite s (c * m) (-1074 + j)
    /\ (Zpos c * 2 ^ j = 16)%Z /\ (0 <= j)%Z.
Proof.
  intros Hd.
  assert (H : (digits2_pos m <= 49 \/ digits2_pos m = 50 \/ digits2_pos m = 51
               \/ digits2_pos m = 52)%positive) by lia.
  destruct H as [H|[H|[H|H]]].
  - exists 16%positive, 0%Z. split; [|split; [reflexivity|lia]].
    fmul_f16_shift 48%Z. reflexivity.
  - exists 8%positive, 1%Z. split; [|split; [reflexivity|lia]].
    fmul_f16_shift 49%Z. reflexivity.
  - exists 4%positive, 2%Z. split; [|split; [reflexivity|lia]].
    fmul_f16_shift 50%Z. reflexivity.
  - exists 2%positive, 3%Z. split; [|split; [reflexivity|lia]].
    fmul_f16_shift 51%Z. reflexivity.
Qed.

(** Multiplying a binary64 number by 16 is exact when the product does not
    overflow. *)
Lemma fmul_f16_exact (s : bool) (m : positive) (e : Z) :
  bounded prec emax m e = true -> (e + 4 <= 971)%Z ->
  exists (m' : positive) (e' : Z),
    fmul (S754_finite s m e) f16 = S754_finite s m' e'
    /\ (float_value (S754_finite s m' e') == 16 * float_value (S754_finite s m e))%Q.
Proof.
  intros Hb He.
  unfold bounded, canonical_mantissa in Hb.
  apply andb_prop in Hb. destruct Hb as [Hc _].
  apply Z.eqb_eq in Hc. unfold fexp, emin, prec, emax in Hc.
  assert (H : (digits2_pos m = 53%positive /\ - 1074 <= e)%Z
              \/ ((digits2_pos m < 53)%positive /\ e = (-1074)%Z)) by lia.
  destruct H as [[Hd He1]|[Hd ->]].
  - exists m, (e + 4)%Z. split; [now apply fmul_f16_normal|].
    rewrite <- (Pos.mul_1_l m) at 1. rewrite float_value_scaled. 
    change (inject_Z 1 * Qpower 2 4)%Q with 16%Q. reflexivity.
  - destruct (fmul_f16_subnormal s m Hd) as (c & j & Hf & Hcj & Hj).
    exists (c * m)%positive, (-1074 + j)%Z. split; [exact Hf|].
    rewrite float_value_scaled.
    assert (Hq : (inject_Z (Zpos c) * Qpower 2 j == 16)%Q).
    { destruct j as [|p|p]; [| |lia].
      - assert (c = 16%positive) by lia. subst c. reflexivity.
      - rewrite Qpower2_pos, <- inject_Z_mult, Pos2Z.inj_pow, Hcj. reflexivity. }
    now rewrite Hq.
Qed.

(** The cells of a column of numbers, in the dtype of the column: integers
    in an integer column, floats in a float column. *)
Lemma dtype_of_numbers (cells : list value) (w : value) :
  (forall c, In c cells -> is_number c = true) -> In w cells ->
  match astype (dtype_of cells) w with
  | VNum (NInt _) => dtype_of cells = int64 \/ dtype_of cells = uint64
  | VNum (NFloat x) => dtype_of cells = float64 /\ x <> S754_nan
  | VStr _ => False
  end.
Proof.
  intros Hn Hw. unfold dtype_of.
  assert (Hs : existsb is_str cells = false).
  { destruct (existsb is_str cells) eqn:E; [|reflexivity].
    apply existsb_exists in E. destruct E as (c & Hc & Hsc).
    specialize (Hn c Hc). destruct c; [discriminate Hn|discriminate Hsc]. }
  rewrite Hs. pose proof (Hn w Hw) as Hnw.
  destruct (existsb is_float cells) eqn:Ef.
  - destruct w as [s|[z|x]]; cbn [astype].
    + discriminate Hnw.
    + split; [reflexivity|apply float_of_int_not_nan].
    + split; [reflexivity|]. intros ->. discriminate Hnw.
  - destruct w as [s|[z|x]].
    + discriminate Hnw.
    + destruct (forallb in_int64 cells); [cbn [astype]; now left|].
      destruct (forallb in_uint64 cells); [cbn [astype]; now right|].
      cbn [astype]. split; [reflexivity|apply float_of_int_not_nan].
    + assert (E : existsb is_float cells = true)
        by (apply existsb_exists; exists (VNum (NFloat x)); now split).
      rewrite E in Ef. discriminate Ef.
Qed.

(** The 'End Weight (lbs)' column of the cleaned table of a file. *)
Lemma cleaned_lbs_column (header : list str) (lines : list (list value)) (df : DataFrame) :
  In (lit "End Weight (lbs)") (map strip header) ->
  data_cleaning (read_csv header lines) = inr df ->
  column (lit "End Weight (lbs)") df
  = map (fun line => get (clean_row header line) (lit "End Weight (lbs)") NaN) lines.
Proof.
  intros Hlbs Hdf. unfold read_csv in Hdf.
  destruct (data_cleaning_table _ _ _ _ (length_seq _ _) Hdf) as [Hc Hb].
  destruct df as [cs B]. cbn [columns body] in Hc, Hb. subst cs B.
  rewrite (column_combine _ _ (cleaned_row header lines) lines _
             (length_seq _ _)).
  apply map_ext. intros line. now apply get_cleaned_row.
Qed.

(** Row [k] of the cleaned table of a file is its line [k], cleaned. *)
Lemma cleaned_table_row (header : list str) (lines : list (list value)) (df : DataFrame)
    (k : nat) (line : list value) (col : str) :
  data_cleaning (read_csv header lines) = inr df ->
  nth_error lines k = Some line ->
  at_get df k col = lookup col (cleaned_row header lines line).
Proof.
  intros Hdf Hk. apply at_get_row. rewrite (data_cleaning_rows _ _ _ Hdf).
  apply (row_at_combine _ _ k).
  - apply seq_NoDup.
  - apply (nth_error_seq_lt 0). apply (nth_error_lt _ _ _ Hk).
  - now apply map_nth_error.
Qed.

(** * Further properties of the code *)

(** ** Data cleaning (lines 125-150) *)

Lemma lstrip_nonspace (s : str) :
  (forall c t, s = c :: t -> isspace c = false) -> lstrip s = s.
Proof.
  destruct s as [|c t]; [reflexivity|]. intros H. simpl.
  now rewrite (H c t eq_refl).
Qed.

Lemma strip_idem (s : str) : strip (strip s) = strip s.
Proof.
  unfold strip at 1.
  rewrite (lstrip_nonspace (strip s)) by (intros c t E; exact (strip_first s c t E)).
  unfold rstrip. rewrite lstrip_nonspace; [apply rev_involutive|].
  intros c t E. apply (strip_last s (rev t) c).
  rewrite <- (rev_involutive (strip s)), E. reflexivity.
Qed.

Lemma raw_row_strip (header : list str) (line : list value) :
  raw_row (map strip header) line = raw_row header line.
Proof.
  unfold raw_row, record. rewrite length_map.
  generalize (line ++ repeat NaN (length header - length line)).
  induction header as [|h header IH]; intros [|x xs]; simpl; try reflexivity.
  now rewrite strip_idem, IH.
Qed.

Lemma strip_columns_strip (header : list str) (lines : list (list value)) :
  strip_columns (read_csv (map strip header) lines) = strip_columns (read_csv header lines).
Proof.
  unfold strip_columns, read_csv, read_table. cbn [columns body]. f_equal.
  - rewrite map_map. apply map_ext. apply strip_idem.
  - rewrite !(map_combine_rows _ (raw_row header) _ lines 0); try reflexivity.
    intros i x. cbn [fst snd]. f_equal. apply raw_row_strip.
Qed.

(** X2.  Blanks around the column names of the file make no difference to the
    run. *)
Theorem header_blanks_irrelevant (header : list str) (lines : list (list value)) :
  main (map strip header) lines = main header lines.
Proof.
  assert (D : data_cleaning (read_csv (map strip header) lines)
              = data_cleaning (read_csv header lines))
    by (unfold data_cleaning; now rewrite strip_columns_strip).
  unfold main, run, normalized_rows. rewrite D.
  change (columns (read_csv (map strip header) lines)) with (map strip header).
  change (columns (read_csv header lines)) with header.
  rewrite map_map, (map_ext _ _ strip_idem). reflexivity.
Qed.

(** X3.  The run is stopped by the column check exactly when a required column
    is missing: a file with the five required columns is never stopped
    there, whatever else it holds or lacks. *)
Theorem stopped_iff_missing (header : list str) (lines : list (list value)) :
  (exists message, main header lines = Stopped message)
  <-> (exists col, In col required_cols /\ ~ In col (map strip header)).
Proof.
  split.
  - intros [message Hm].
    destruct (filter (fun c => negb (mem c (map strip header))) required_cols)
      as [|col rest] eqn:E.
    + exfalso.
      destruct (data_cleaning_ok header lines) as [df Hdf].
      { intros col Hreq.
        destruct (mem col (map strip header)) eqn:M; [now apply mem_In|].
        assert (Hin : In col (filter (fun c => negb (mem c (map strip header)))
                                required_cols))
          by (apply filter_In; split; [assumption|now rewrite M]).
        rewrite E in Hin. destruct Hin. }
      revert Hm. unfold main, run. rewrite Hdf.
      destruct (process _ initial_tables); discriminate.
    + exists col.
      assert (Hin : In col (filter (fun c => negb (mem c (map strip header)))
                              required_cols)) by (rewrite E; now left).
      apply filter_In in Hin. destruct Hin as [Hreq Hneg]. split; [assumption|].
      intros Hin. apply mem_In in Hin. rewrite Hin in Hneg. discriminate.
  - intros (col & Hreq & Hmiss).
    unfold main, run. rewrite data_cleaning_stops.
    assert (Hin : In col (filter (fun c => negb (mem c (map strip header))) required_cols)).
    { apply filter_In. split; [assumption|].
      destruct (mem col (map strip header)) eqn:M; [|reflexivity].
      apply mem_In in M. contradiction. }
    destruct (filter _ required_cols) as [|c rest]; [destruct Hin|eauto].
Qed.

(** X4.  Cleaning touches only the checked numeric columns: the cell of any
    other column of the file ('SKU', the description, any extra column) is
    in the cleaned row exactly as it was read. *)
Theorem cleaning_keeps_other_columns (header : list str) (line : list value)
    (col : str) :
  In col (map strip header) ->
  ~ In col numeric_cols_to_check ->
  lookup col (clean_row header line) = lookup col (raw_row header line)
  /\ exists v, lookup col (raw_row header line) = Some v.
Proof.
  intros Hin Hnum. split.
  - rewrite (lookup_clean_row _ _ _ Hin).
    destruct (mem col numeric_cols_to_check) eqn:M; [|reflexivity].
    apply mem_In in M. contradiction.
  - apply lookup_in_keys. now rewrite keys_raw_row.
Qed.

(** X5.  The cleaned table is rectangular and keeps the columns of the file in
    their order: its columns are the stripped names of the file, followed by
    'End Weight' exactly when the file lacks that column (and has 'End
    Weight (lbs)'), and every row has exactly those columns.  An 'End
    Weight' column that the file has is kept, coerced like the other numeric
    columns, and is not computed from the pounds. *)
Theorem cleaned_table_columns (header : list str) (lines : list (list value))
    (df : DataFrame) :
  data_cleaning (read_csv header lines) = inr df ->
  columns df =
    map strip header
    ++ (if negb (mem (lit "End Weight") (map strip header))
           && mem (lit "End Weight (lbs)") (map strip header)
        then [lit "End Weight"] else [])
  /\ (forall i row, In (i, row) (body df) -> map fst row = columns df)
  /\ (In (lit "End Weight") (map strip header) ->
      forall i row, In (i, row) (body df) ->
      exists line, In line lines
        /\ lookup (lit "End Weight") row
           = option_map coerce (lookup (lit "End Weight") (raw_row header line))).
Proof.
  intros Hdf.
  pose proof Hdf as Hdf'. unfold read_csv in Hdf'.
  destruct (data_cleaning_table _ _ _ _ (length_seq _ _) Hdf') as [Hcols _].
  pose proof (data_cleaning_rows _ _ _ Hdf) as Hbody.
  split; [exact Hcols|]. split.
  - intros i row Hin. rewrite Hbody in Hin. apply in_combine_r in Hin.
    apply in_map_iff in Hin. destruct Hin as (line & <- & _).
    rewrite Hcols. apply keys_cleaned_row.
  - intros Hew i row Hin. rewrite Hbody in Hin. apply in_combine_r in Hin.
    apply in_map_iff in Hin. destruct Hin as (line & <- & Hline).
    exists line. split; [assumption|].
    rewrite (lookup_cleaned_row _ _ _ _ Hew), (lookup_clean_row _ _ _ Hew). reflexivity.
Qed.
(** ** The loop (lines 162-231): edges and errors *)



(** Whether a pass fails, and with which exception, depends on the row
    alone, not on the tables or on the label. *)
Lemma loop_body_fail_any (T T' : Tables) (i i' : nat) (row : Series) (e : exn) :
  loop_body T i row = inl e -> loop_body T' i' row = inl e.
Proof.
  unfold loop_body.
  destruct (getitem row (lit "Fragrance - Vessel Description")) as [e0|d]; cbn [bind]; [auto|].
  destruct (getitem row (lit "SKU")) as [e0|sku]; cbn [bind]; [auto|].
  destruct (getitem row (lit "Retail Price")) as [e0|price]; cbn [bind]; [auto|].
  destruct (getitem row (lit "End Weight (lbs)")) as [e0|lbs]; cbn [bind]; [auto|].
  destruct (getitem row (lit "Quantity")) as [e0|qty]; cbn [bind]; [auto|].
  destruct (getitem row (lit "Burn Time")) as [e0|bt]; cbn [bind]; [auto|].
  destruct (getitem row (lit "End Weight")) as [e0|ew]; cbn [bind]; [auto|].
  destruct (mul_float lbs f453_592) as [e0|product]; cbn [bind]; [auto|].
  destruct (py_round product) as [e0|grams]; cbn [bind]; [auto|].
  discriminate.
Qed.

Lemma process_fail (rows : list (nat * Series)) (T : Tables) (e : exn) :
  process rows T = inl e ->
  exists i row, In (i, row) rows /\ loop_body initial_tables i row = inl e.
Proof.
  revert T. induction rows as [|[i row] rows IH]; intros T; simpl; [discriminate|].
  destruct (loop_body T i row) as [e0|Tm] eqn:Hb; cbn [bind].
  - intros [= <-]. exists i, row. split; [now left|].
    exact (loop_body_fail_any _ _ _ _ _ _ Hb).
  - intros H. destruct (IH _ H) as (j & r & Hin & Hf). exists j, r. auto.
Qed.

Lemma process_app (rows1 rows2 : list (nat * Series)) (T : Tables) :
  process (rows1 ++ rows2) T = (T' <- process rows1 T ;; process rows2 T').
Proof.
  revert T. induction rows1 as [|[i row] rows1 IH]; intros T; simpl; [reflexivity|].
  destruct (loop_body T i row); cbn [bind]; [reflexivity|apply IH].
Qed.

Lemma combine_seq_app {A : Type} (a b : list A) (start : nat) :
  combine (seq start (length (a ++ b))) (a ++ b)
  = combine (seq start (length a)) a
    ++ combine (seq (start + length a) (length b)) b.
Proof.
  revert start. induction a as [|x a IH]; intros start; simpl.
  - now rewrite Nat.add_0_r.
  - rewrite IH. replace (S start + length a) with (start + S (length a)) by lia.
    reflexivity.
Qed.

(** The product of a number by 453.592 is never NaN. *)
Lemma mul_float_number (lbs : value) :
  is_number lbs = true ->
  exists product, mul_float lbs f453_592 = inr product /\ product <> S754_nan.
Proof.
  destruct lbs as [s|[z|f]]; simpl; [discriminate| |]; intros H.
  - eexists. split; [reflexivity|]. apply fmul_not_nan, float_of_int_not_nan.
  - eexists. split; [reflexivity|]. apply fmul_not_nan. intros ->. discriminate.
Qed.

Lemma py_round_fails (x : spec_float) (e : exn) :
  x <> S754_nan -> py_round x = inl e ->
  e = OverflowError /\ exists s, x = S754_infinity s.
Proof.
  destruct x as [s|s| |s m ex]; simpl; try discriminate; try contradiction.
  intros _ [= <-]. eauto.
Qed.

Lemma clean_row_weight_number (header : list str) (line : list value) (lbs : value) :
  In (lit "End Weight (lbs)") (map strip header) ->
  lookup (lit "End Weight (lbs)") (clean_row header line) = Some lbs ->
  is_number lbs = true.
Proof.
  intros Hin. rewrite (lookup_clean_row _ _ _ Hin).
  change (mem (lit "End Weight (lbs)") numeric_cols_to_check) with true.
  destruct (lookup _ (raw_row header line)); [|discriminate].
  intros [= <-]. apply coerce_is_number.
Qed.

(** Whether a pass fails, and how, depends on which cells the row has and
    on the number of grams of its weight. *)
Lemma loop_body_fail_similar (T T' : Tables) (i i' : nat) (row row' : Series) (e : exn) :
  (forall key, lookup key row = None <-> lookup key row' = None) ->
  (forall v v',
     lookup (lit "End Weight (lbs)") row = Some v ->
     lookup (lit "End Weight (lbs)") row' = Some v' ->
     mul_float v f453_592 = mul_float v' f453_592) ->
  loop_body T i row = inl e -> loop_body T' i' row' = inl e.
Proof.
  intros Hkeys Hw. unfold loop_body, getitem.
  pose proof (Hkeys (lit "Fragrance - Vessel Description")) as K1.
  pose proof (Hkeys (lit "SKU")) as K2.
  pose proof (Hkeys (lit "Retail Price")) as K3.
  pose proof (Hkeys (lit "End Weight (lbs)")) as K4.
  pose proof (Hkeys (lit "Quantity")) as K5.
  pose proof (Hkeys (lit "Burn Time")) as K6.
  pose proof (Hkeys (lit "End Weight")) as K7.
  specialize (Hw (get row (lit "End Weight (lbs)") NaN) (get row' (lit "End Weight (lbs)") NaN)).
  unfold get in Hw.
  destruct (lookup (lit "Fragrance - Vessel Description") row),
           (lookup (lit "Fragrance - Vessel Description") row'); cbn [bind];
    [|discriminate (proj2 K1 eq_refl)|discriminate (proj1 K1 eq_refl)|exact (fun H => H)].
  destruct (lookup (lit "SKU") row), (lookup (lit "SKU") row'); cbn [bind];
    [|discriminate (proj2 K2 eq_refl)|discriminate (proj1 K2 eq_refl)|exact (fun H => H)].
  destruct (lookup (lit "Retail Price") row), (lookup (lit "Retail Price") row'); cbn [bind];
    [|discriminate (proj2 K3 eq_refl)|discriminate (proj1 K3 eq_refl)|exact (fun H => H)].
  destruct (lookup (lit "End Weight (lbs)") row) as [lbs|],
           (lookup (lit "End Weight (lbs)") row') as [lbs'|]; cbn [bind];
    [|discriminate (proj2 K4 eq_refl)|discriminate (proj1 K4 eq_refl)|exact (fun H => H)].
  destruct (lookup (lit "Quantity") row), (lookup (lit "Quantity") row'); cbn [bind];
    [|discriminate (proj2 K5 eq_refl)|discriminate (proj1 K5 eq_refl)|exact (fun H => H)].
  destruct (lookup (lit "Burn Time") row), (lookup (lit "Burn Time") row'); cbn [bind];
    [|discriminate (proj2 K6 eq_refl)|discriminate (proj1 K6 eq_refl)|exact (fun H => H)].
  destruct (lookup (lit "End Weight") row), (lookup (lit "End Weight") row'); cbn [bind];
    [|discriminate (proj2 K7 eq_refl)|discriminate (proj1 K7 eq_refl)|exact (fun H => H)].
  rewrite (Hw eq_refl eq_refl).
  destruct (mul_float lbs' f453_592) as [e0|product]; cbn [bind]; [exact (fun H => H)|].
  destruct (py_round product) as [e0|grams]; cbn [bind]; [exact (fun H => H)|].
  discriminate.
Qed.

Lemma lookup_none_keys (key : str) (row : Series) :
  lookup key row = None <-> ~ In key (map fst row).
Proof.
  split.
  - intros H Hin. destruct (lookup_in_keys key row Hin) as [v Hv].
    rewrite Hv in H. discriminate.
  - apply lookup_not_in_keys.
Qed.

(** The weight of a line gives the same number of grams in whatever dtype
    the loop gets it. *)
Lemma seen_row_weight (header : list str) (lines : list (list value))
    (line : list value) (v0 v : value) :
  lookup (lit "End Weight (lbs)") (clean_row header line) = Some v0 ->
  lookup (lit "End Weight (lbs)") (seen_row header lines line) = Some v ->
  mul_float v f453_592 = mul_float v0 f453_592.
Proof.
  intros H0 H.
  assert (Hin : In (lit "End Weight (lbs)") (map strip header)).
  { rewrite <- (keys_clean_row_eq header line).
    destruct (in_dec (list_eq_dec ascii_dec) (lit "End Weight (lbs)")
                (map fst (clean_row header line))) as [Hi|Hn]; [exact Hi|].
    rewrite (lookup_not_in_keys _ _ Hn) in H0. discriminate. }
  destruct (seen_row_cell header lines line _ Hin) as (w0 & w & Hw0 & Hw & _ & Hpres).
  rewrite Hw0 in H0. apply some_inj in H0. subst w0.
  rewrite Hw in H. apply some_inj in H. subst w.
  now apply mul_float_presented.
Qed.

(** Whether the pass over a line fails, and how, does not depend on the
    other lines of the file. *)
Lemma seen_pass_fail_any (header : list str) (lines lines' : list (list value))
    (line : list value) (T T' : Tables) (i i' : nat) (e : exn) :
  loop_body T i (seen_row header lines line) = inl e ->
  loop_body T' i' (seen_row header lines' line) = inl e.
Proof.
  apply loop_body_fail_similar.
  - intros key. now rewrite !lookup_none_keys, !keys_seen_row.
  - intros v v' Hv Hv'.
    destruct (lookup (lit "End Weight (lbs)") (clean_row header line)) as [v0|] eqn:H0.
    + rewrite (seen_row_weight _ _ _ _ _ H0 Hv), (seen_row_weight _ _ _ _ _ H0 Hv').
      reflexivity.
    + exfalso. rewrite lookup_seen_row in Hv.
      destruct (in_dec (list_eq_dec ascii_dec) (lit "End Weight (lbs)") (map strip header))
        as [Hi|Hn].
      * destruct (clean_row_present header line _ Hi) as [w Hw].
        rewrite Hw in H0. discriminate.
      * rewrite (cleaned_row_absent header lines line _ Hn) in Hv by discriminate.
        discriminate.
Qed.

(** What a pass over a line of a file with the required columns can raise:
    [KeyError('Burn Time')] when that column is absent, otherwise
    [OverflowError] when the weight times 453.592 is infinite. *)
Lemma seen_pass_fails (header : list str) (lines : list (list value))
    (line : list value) (i : nat) (e : exn) :
  (forall col, In col required_cols -> In col (map strip header)) ->
  loop_body initial_tables i (seen_row header lines line) = inl e ->
  (e = KeyError (lit "Burn Time") /\ ~ In (lit "Burn Time") (map strip header))
  \/ (e = OverflowError
      /\ exists lbs s,
           lookup (lit "End Weight (lbs)") (clean_row header line) = Some lbs
           /\ mul_float lbs f453_592 = inr (S754_infinity s)).
Proof.
  intros Hreq. rewrite loop_body_initial.
  destruct (seen_row_cell header lines line (lit "Fragrance - Vessel Description"))
    as (d0 & d & _ & Hd & _); [apply Hreq; cbv; tauto|].
  destruct (seen_row_cell header lines line (lit "SKU"))
    as (sku0 & sku & _ & Hsku & _); [apply Hreq; cbv; tauto|].
  destruct (seen_row_cell header lines line (lit "Retail Price"))
    as (price0 & price & _ & Hprice & _); [apply Hreq; cbv; tauto|].
  assert (Hl : In (lit "End Weight (lbs)") (map strip header))
    by (apply Hreq; cbv; tauto).
  destruct (seen_row_cell header lines line (lit "End Weight (lbs)") Hl)
    as (lbs0 & lbs & Hlbs0 & Hlbs & _ & Hpres).
  destruct (seen_row_cell header lines line (lit "Quantity"))
    as (qty0 & qty & _ & Hqty & _); [apply Hreq; cbv; tauto|].
  unfold getitem. rewrite Hd, Hsku, Hprice, Hlbs, Hqty. cbn [bind].
  destruct (in_dec (list_eq_dec ascii_dec) (lit "Burn Time") (map strip header))
    as [Hbt|Hbt].
  - destruct (seen_row_cell header lines line (lit "Burn Time") Hbt)
      as (bt0 & bt & _ & Hb & _).
    rewrite Hb. cbn [bind].
    destruct (seen_row_end_weight header lines line Hl) as [ew Hew].
    rewrite Hew. cbn [bind].
    rewrite (mul_float_presented _ _ f453_592 Hpres).
    destruct (mul_float_number lbs0 (clean_row_weight_number _ _ _ Hl Hlbs0))
      as (product & Hp & Hnan).
    rewrite Hp. cbn [bind].
    destruct (py_round product) as [e0|grams] eqn:Hr; cbn [bind]; [|discriminate].
    intros He. apply (f_equal (fun r => match r with inl x => x | inr _ => e end)) in He.
    subst e0. right.
    destruct (py_round_fails _ _ Hnan Hr) as (-> & s & ->).
    split; [reflexivity|]. exists lbs0, s. auto.
  - rewrite (seen_row_absent header lines line (lit "Burn Time") Hbt) by discriminate.
    cbn [bind]. intros He.
    apply (f_equal (fun r => match r with inl x => x | inr _ => e end)) in He.
    subst e. left. auto.
Qed.


(** X8.  One failing line ends the whole run with its exception: when the lines
    before it would run to the end on their own and the line alone fails,
    the file fails in the same way, whatever follows the line, and hands
    over no table, not even the rows of the lines before. *)
Theorem first_failure_aborts (header : list str) (pre post : list (list value))
    (line : list value) (e : exn) :
  (exists T, main header pre = Done T) ->
  main header [line] = Unexpected e ->
  main header (pre ++ line :: post) = Unexpected e
  /\ output_tables (main header (pre ++ line :: post)) = [].
Proof.
  intros [T Hpre] Hline.
  assert (Hreq : forall col, In col required_cols -> In col (map strip header))
    by exact (done_validated _ _ _ Hpre).
  assert (Hfail : loop_body initial_tables 0 (seen_row header [line] line) = inl e).
  { revert Hline. rewrite (main_process header [line] Hreq).
    cbn [length seq map combine process].
    destruct (loop_body initial_tables 0 (seen_row header [line] line)) as [e0|T0];
      cbn [bind]; [|discriminate].
    intros He. apply (f_equal (fun o => match o with Unexpected x => x | _ => e end)) in He.
    now subst e0. }
  set (all := pre ++ line :: post).
  assert (Hmain : main header all = Unexpected e).
  { rewrite (main_process header all Hreq).
    unfold all at 1 3.
    rewrite map_app, <- (length_map (seen_row header all) (pre ++ line :: post)), map_app.
    rewrite combine_seq_app, process_app.
    destruct (process_total (combine (seq 0 (length (map (seen_row header all) pre)))
                                     (map (seen_row header all) pre)) initial_tables)
      as [T1 HT1].
    { intros i row Hin. apply in_combine_r in Hin. apply in_map_iff in Hin.
      destruct Hin as (l & <- & Hl).
      destruct (In_nth_error _ _ Hl) as [k Hk].
      destruct (main_row _ _ _ _ _ Hpre Hk) as (rn & rs & ri & Hb & _).
      destruct (loop_body initial_tables i (seen_row header all l)) as [e0|T0] eqn:Hb0;
        [|eauto].
      rewrite (seen_pass_fail_any header all pre l _ initial_tables i k e0 Hb0) in Hb.
      discriminate Hb. }
    rewrite HT1. cbn [bind map combine seq length process].
    rewrite (seen_pass_fail_any header [line] all line _ T1 0
               (0 + length (map (seen_row header all) pre)) e Hfail).
    reflexivity. }
  split; [exact Hmain|]. now rewrite Hmain.
Qed.

(** A run on a table with the required columns and 'Burn Time' reaches line
    233 when every weight gives a finite number of grams. *)
Lemma run_completes (index : list nat) (header : list str) (lines : list (list value)) :
  length index = length lines ->
  (forall col, In col required_cols -> In col (map strip header)) ->
  In (lit "Burn Time") (map strip header) ->
  (forall line lbs,
     In line lines ->
     lookup (lit "End Weight (lbs)") (clean_row header line) = Some lbs ->
     exists grams, (product <- mul_float lbs f453_592 ;; py_round product) = inr grams) ->
  exists T, run (read_table index header lines) = Done T.
Proof.
  intros Hlen Hreq Hbt Hw. rewrite (run_process index header lines Hlen Hreq).
  destruct (process_total (combine index (map (seen_row header lines) lines))
              initial_tables) as [T HT]; [|rewrite HT; eauto].
  intros i row Hin. apply in_combine_r in Hin. apply in_map_iff in Hin.
  destruct Hin as (line & <- & Hline).
  destruct (loop_body initial_tables i (seen_row header lines line)) as [e|T0] eqn:Hb;
    [|eauto].
  exfalso.
  destruct (seen_pass_fails header lines line i e Hreq Hb)
    as [[_ Hno]|(_ & lbs & s & Hl & Hm)]; [contradiction|].
  destruct (Hw line lbs Hline Hl) as [grams Hg].
  rewrite Hm in Hg. cbn [bind py_round] in Hg. discriminate Hg.
Qed.

(** The table of a file none of whose lines has more cells than the header:
    the lines that are not blank, under the labels 0, 1, 2, ... *)
Lemma read_file_plain (header : list str) (lines : list (list value)) :
  header <> [] ->
  (forall line, In line lines -> length line <= length header) ->
  read_file header lines
  = inr (read_csv header
           (filter (fun line => match line with [] => false | _ :: _ => true end) lines)).
Proof.
  intros Hh Hlen. unfold read_file.
  destruct header as [|h header]; [contradiction|].
  set (kept := filter _ lines).
  assert (Hk : forall line, In line kept -> length line <= length (h :: header)).
  { intros line Hin. apply Hlen. unfold kept in Hin. now apply filter_In in Hin. }
  assert (Hf : Nat.max (length (h :: header)) (length (hd [] kept)) = length (h :: header)).
  { apply Nat.max_l. destruct kept as [|l0 kept']; [cbn; lia|].
    apply Hk. now left. }
  rewrite Hf.
  assert (He : existsb (fun line => length (h :: header) <? length line) kept = false).
  { destruct (existsb _ kept) eqn:E; [|reflexivity].
    apply existsb_exists in E. destruct E as (l & Hl & Hlt).
    apply Nat.ltb_lt in Hlt. specialize (Hk l Hl). lia. }
  rewrite He, Nat.sub_diag.
  rewrite (map_ext (skipn 0) (fun l => l)) by reflexivity.
  now rewrite map_id.
Qed.

(** X1.  A run on an uploaded file reaches line 233, its three tables built,
    when the column names of the file are distinct once stripped and hold
    the required columns and 'Burn Time', no line has more cells than the
    header, and every weight gives a finite number of grams. *)
Theorem main_completes (header : list str) (lines : list (list value)) :
  NoDup (map strip header) ->
  (forall col, In col required_cols -> In col (map strip header)) ->
  In (lit "Burn Time") (map strip header) ->
  (forall line, In line lines -> length line <= length header) ->
  (forall line lbs,
     In line lines ->
     lookup (lit "End Weight (lbs)") (clean_row header line) = Some lbs ->
     exists grams, (product <- mul_float lbs f453_592 ;; py_round product) = inr grams) ->
  exists T, run_file header lines = Done T.
Proof.
  intros _ Hreq Hbt Hlen Hw. unfold run_file.
  rewrite (read_file_plain header lines); [|now destruct header|exact Hlen].
  unfold read_csv. apply run_completes; [apply length_seq|assumption|assumption|].
  intros line lbs Hin. apply filter_In in Hin. now apply Hw.
Qed.
(** ** The rows of the three tables (lines 158-231) *)

Lemma keys_setitem (key : str) (v : value) (row : Series) :
  In key (map fst row) -> map fst (setitem key v row) = map fst row.
Proof.
  induction row as [|[k w] row IH]; simpl; [intros []|].
  destruct (str_eqb key k) eqn:E; [reflexivity|].
  intros [->|H]; [now rewrite str_eqb_refl in E|].
  simpl. now rewrite IH.
Qed.

Lemma lookup_setitem_other (key key' : str) (v : value) (row : Series) :
  key <> key' -> lookup key (setitem key' v row) = lookup key row.
Proof.
  intros Hne. induction row as [|[k w] row IH]; simpl.
  - destruct (str_eqb key key') eqn:E; [|reflexivity].
    apply str_eqb_eq in E. contradiction.
  - destruct (str_eqb key' k) eqn:E'; simpl.
    + apply str_eqb_eq in E'. subst k.
      destruct (str_eqb key key') eqn:E; [|reflexivity].
      apply str_eqb_eq in E. contradiction.
    + now rewrite IH.
Qed.

Lemma keys_fold_setitem (cells : list (str * value)) (row : Series) :
  Forall (fun cv => In (fst cv) (map fst row)) cells ->
  map fst (fold_left (fun r cv => setitem (fst cv) (snd cv) r) cells row) = map fst row.
Proof.
  revert row. induction cells as [|[c v] cells IH]; intros row H; simpl; [reflexivity|].
  inversion H as [|? ? Hc Hrest]; subst. cbn [fst] in Hc.
  rewrite IH; [now apply keys_setitem|].
  rewrite keys_setitem by assumption. exact Hrest.
Qed.

(** A new row has exactly the columns of its table, in their order. *)
Lemma keys_new_row (cols : list str) (cells : list (str * value)) :
  Forall (fun cv => In (fst cv) cols) cells ->
  map fst (new_row cols cells) = cols.
Proof.
  intros H. unfold new_row.
  assert (E : map fst (map (fun c : str => (c, NaN)) cols) = cols)
    by (rewrite map_map; apply map_id).
  rewrite keys_fold_setitem; [exact E|]. now rewrite E.
Qed.

Lemma lookup_fold_setitem_other (col : str) (cells : list (str * value)) (row : Series) :
  ~ In col (map fst cells) ->
  lookup col (fold_left (fun r cv => setitem (fst cv) (snd cv) r) cells row)
  = lookup col row.
Proof.
  revert row. induction cells as [|[c v] cells IH]; intros row H; simpl; [reflexivity|].
  rewrite IH by (intros Hin; apply H; now right).
  apply lookup_setitem_other. intros ->. apply H. now left.
Qed.

(** A column that is not assigned stays missing in a new row. *)
Lemma lookup_new_row_unassigned (cols : list str) (cells : list (str * value))
    (col : str) :
  In col cols -> ~ In col (map fst cells) ->
  lookup col (new_row cols cells) = Some NaN.
Proof.
  intros Hin Hno. unfold new_row. rewrite lookup_fold_setitem_other by assumption.
  induction cols as [|c cols IH]; [destruct Hin|]. simpl.
  destruct (str_eqb col c) eqn:E; [reflexivity|].
  destruct Hin as [->|Hin]; [now rewrite str_eqb_refl in E|auto].
Qed.

Lemma at_set_columns (df : DataFrame) (i : nat) (col : str) (v : value) :
  columns (at_set df i col v) = columns df.
Proof. unfold at_set. now destruct (existsb _ _). Qed.

Lemma assign_columns (df : DataFrame) (i : nat) (cells : list (str * value)) :
  columns (assign df i cells) = columns df.
Proof.
  unfold assign. revert df. induction cells as [|cv cells IH]; intros df; simpl;
    [reflexivity|]. now rewrite IH, at_set_columns.
Qed.

Lemma loop_body_columns (T T' : Tables) (i : nat) (row : Series) :
  loop_body T i row = inr T' -> tables_ok T -> tables_ok T'.
Proof.
  unfold loop_body.
  destruct (getitem row (lit "Fragrance - Vessel Description")) as [e|d]; cbn [bind]; [discriminate|].
  destruct (getitem row (lit "SKU")) as [e|sku]; cbn [bind]; [discriminate|].
  destruct (getitem row (lit "Retail Price")) as [e|price]; cbn [bind]; [discriminate|].
  destruct (getitem row (lit "End Weight (lbs)")) as [e|lbs]; cbn [bind]; [discriminate|].
  destruct (getitem row (lit "Quantity")) as [e|qty]; cbn [bind]; [discriminate|].
  destruct (getitem row (lit "Burn Time")) as [e|bt]; cbn [bind]; [discriminate|].
  destruct (getitem row (lit "End Weight")) as [e|ew]; cbn [bind]; [discriminate|].
  destruct (mul_float lbs f453_592) as [e|product]; cbn [bind]; [discriminate|].
  destruct (py_round product) as [e|grams]; cbn [bind]; [discriminate|].
  intros H (Hn & Hs & Hi).
  apply (f_equal (fun x => match x with inr t => t | inl _ => T' end)) in H.
  rewrite <- H. unfold tables_ok.
  cbn [netsuite_import shopify_import netsuite_inventory_adjustment].
  rewrite !assign_columns. auto.
Qed.

Lemma process_columns (rows : list (nat * Series)) (T T' : Tables) :
  process rows T = inr T' -> tables_ok T -> tables_ok T'.
Proof.
  revert T. induction rows as [|[i row] rows IH]; intros T; simpl.
  - now intros [= <-].
  - destruct (loop_body T i row) as [e|Tm] eqn:Hb; cbn [bind]; [discriminate|].
    intros Hp Hok. exact (IH _ Hp (loop_body_columns _ _ _ _ Hb Hok)).
Qed.

Lemma main_columns (header : list str) (lines : list (list value)) (T : Tables) :
  main header lines = Done T -> tables_ok T.
Proof.
  unfold main, run. destruct (data_cleaning _) as [m|df]; [discriminate|].
  destruct (process _ initial_tables) as [e|T0] eqn:Hp; [discriminate|].
  intros H. apply (f_equal (fun o => match o with Done t => t | _ => T end)) in H.
  subst T0. apply (process_columns _ _ _ Hp). repeat split.
Qed.

Lemma Forall2_in_right {A B : Type} (P : A -> B -> Prop) (l : list A) (l' : list B)
    (b : B) :
  Forall2 P l l' -> In b l' -> exists a, In a l /\ P a b.
Proof.
  induction 1 as [|x y l l' Hxy H IH]; [intros []|].
  intros [<-|Hin].
  - exists x. split; [now left|assumption].
  - destruct (IH Hin) as (a & Ha & Hp). exists a. split; [now right|assumption].
Qed.

(** Every row of a table of a finished run comes from the pass over one
    line, as the loop gets it. *)
Lemma main_rows_from_pass (header : list str) (lines : list (list value)) (T : Tables) :
  main header lines = Done T ->
  forall df i r,
    In df (output_tables (Done T)) -> In (i, r) (body df) ->
    exists line rn rs ri,
      In line lines /\ pass (seen_row header lines line) rn rs ri
      /\ ((df = netsuite_import T /\ r = rn)
          \/ (df = shopify_import T /\ r = rs)
          \/ (df = netsuite_inventory_adjustment T /\ r = ri)).
Proof.
  intros Hm df i r Hdf Hin.
  destruct (main_done _ _ _ Hm) as (outs & Hadd & Hlen & En & Es & Ei).
  assert (Hout : exists o, In o outs
            /\ ((df = netsuite_import T /\ r = fst (fst o))
                \/ (df = shopify_import T /\ r = snd (fst o))
                \/ (df = netsuite_inventory_adjustment T /\ r = snd o))).
  { cbn [output_tables] in Hdf.
    destruct Hdf as [<-|[<-|[<-|[]]]];
      [rewrite En in Hin|rewrite Es in Hin|rewrite Ei in Hin];
      apply in_combine_r in Hin; apply in_map_iff in Hin;
      destruct Hin as (o & <- & Ho); exists o; auto. }
  destruct Hout as (o & Ho & Hcase).
  destruct (Forall2_in_right _ _ _ _ Hadd Ho) as ([j row] & Hrow & Hb).
  cbn [fst snd] in Hb.
  apply in_combine_r in Hrow. apply in_map_iff in Hrow.
  destruct Hrow as (line & <- & Hline).
  exists line, (fst (fst o)), (snd (fst o)), (snd o).
  split; [assumption|]. split; [exact (loop_body_pass _ _ _ _ _ Hb)|exact Hcase].
Qed.

(** X9.  The three tables keep their fixed schema: each has its declared
    columns, and every row of it has exactly these columns, in that order,
    so no assignment of the loop adds, drops or moves a column. *)
Theorem output_schema (header : list str) (lines : list (list value)) (T : Tables) :
  main header lines = Done T ->
  columns (netsuite_import T) = netsuite_columns
  /\ columns (shopify_import T) = shopify_columns
  /\ columns (netsuite_inventory_adjustment T) = inventory_columns
  /\ forall df i r,
       In df (output_tables (Done T)) -> In (i, r) (body df) ->
       map fst r = columns df.
Proof.
  intros Hm. destruct (main_columns _ _ _ Hm) as (Hn & Hs & Hi).
  split; [exact Hn|]. split; [exact Hs|]. split; [exact Hi|].
  intros df i r Hdf Hin.
  destruct (main_rows_from_pass _ _ _ Hm df i r Hdf Hin)
    as (line & rn & rs & ri & _ & Hp & Hcase).
  destruct Hp as [d sku price lbs qty bt ew product grams _ _ _ _ _ _ _ _ _].
  pose proof (cells_are_columns sku price lbs qty bt ew
                (get (seen_row header lines line) (lit "Height") (VLit "N/A"))
                (get (seen_row header lines line) (lit "Width") (VLit "N/A"))
                (netsuite_display_name (py_str d)) (py_str d) grams) as (Cn & Ci & Cs).
  destruct Hcase as [(-> & ->)|[(-> & ->)|(-> & ->)]].
  - rewrite Hn. now apply keys_new_row.
  - rewrite Hs. now apply keys_new_row.
  - rewrite Hi. now apply keys_new_row.
Qed.

(** X10.  The columns the loop never assigns are missing (blank in the file) in
    every row: 'subsidiary' and 'includechildren' of the NetSuite table, and
    every Shopify column other than the sixteen that are assigned. *)
Theorem unassigned_columns_blank (header : list str) (lines : list (list value))
    (T : Tables) (k : nat) (line : list value) :
  main header lines = Done T ->
  nth_error lines k = Some line ->
  (forall col, In col (map lit ["subsidiary"; "includechildren"]%string) ->
               at_get (netsuite_import T) k col = Some NaN)
  /\ (forall col,
        In col shopify_columns ->
        ~ In col (map lit ["Handle"; "Title"; "Body (HTML)"; "Tags"; "Published";
                           "Variant SKU"; "Variant Grams"; "Variant Inventory Tracker";
                           "Variant Inventory Policy"; "Variant Fulfillment Service";
                           "Variant Price"; "Variant Requires Shipping";
                           "Variant Taxable"; "Gift Card"; "Variant Weight Unit";
                           "Status"]%string) ->
        at_get (shopify_import T) k col = Some NaN).
Proof.
  intros Hm Hk.
  destruct (main_pass _ _ _ _ _ Hm Hk) as (rn & rs & ri & Hp & Hn & Hs & _).
  destruct Hp as [d sku price lbs qty bt ew product grams _ _ _ _ _ _ _ _ _].
  split.
  - intros col Hin. rewrite Hn. apply lookup_new_row_unassigned.
    + cbv in Hin |- *. tauto.
    + cbv in Hin |- *. intuition (subst; discriminate).
  - intros col Hin Hno. rewrite Hs. now apply lookup_new_row_unassigned.
Qed.

(** X11.  The NetSuite item row: 'externalid' and 'itemid' are the SKU cell of
    the row the loop gets, 'Price' its 'Retail Price' cell, 'Weight' its 'End
    Weight (lbs)' cell (pounds, not the ounces of 'End Weight'); each of
    these cells is the cleaned cell of the line, or the float of the integer
    it holds, and a text is the text of the file.  The fourteen other
    assigned cells are the fixed values of lines 174-187. *)
Theorem netsuite_row (header : list str) (lines : list (list value))
    (T : Tables) (k : nat) (line : list value) :
  main header lines = Done T ->
  nth_error lines k = Some line ->
  exists row sku price lbs,
    nth_error (normalized_rows (read_csv header lines)) k = Some (k, row)
    /\ lookup (lit "SKU") row = Some sku
    /\ lookup (lit "Retail Price") row = Some price
    /\ lookup (lit "End Weight (lbs)") row = Some lbs
    /\ (exists sku0 price0 lbs0,
          lookup (lit "SKU") (clean_row header line) = Some sku0
          /\ presented sku0 sku
          /\ lookup (lit "Retail Price") (clean_row header line) = Some price0
          /\ presented price0 price
          /\ lookup (lit "End Weight (lbs)") (clean_row header line) = Some lbs0
          /\ presented lbs0 lbs)
    /\ let ns := netsuite_import T in
       at_get ns k (lit "externalid") = Some sku
       /\ at_get ns k (lit "itemid") = Some sku
       /\ at_get ns k (lit "Price") = Some price
       /\ at_get ns k (lit "Weight") = Some lbs
       /\ at_get ns k (lit "unitstype") = Some (VLit "Quantity")
       /\ at_get ns k (lit "location") = Some (VLit "ACC 1611")
       /\ at_get ns k (lit "track landed cost") = Some (VLit "FALSE")
       /\ at_get ns k (lit "costingmethod") = Some (VLit "AVERAGE")
       /\ at_get ns k (lit "costcategory") = Some (VLit "Default")
       /\ at_get ns k (lit "atpmethod") = Some (VLit "Discrete ATP")
       /\ at_get ns k (lit "autopreferredstocklevel") = Some (VLit "TRUE")
       /\ at_get ns k (lit "isspecialorderitem") = Some (VLit "FALSE")
       /\ at_get ns k (lit "usebins") = Some (VLit "FALSE")
       /\ at_get ns k (lit "cogsaccount") = Some (VInt 318)
       /\ at_get ns k (lit "incomeaccount") = Some (VInt 429)
       /\ at_get ns k (lit "assetaccount") = Some (VInt 227)
       /\ at_get ns k (lit "taxSchedule") = Some (VLit "Non-taxable")
       /\ at_get ns k (lit "isinactive") = Some (VLit "FALSE").
Proof.
  intros Hm Hk.
  pose proof (done_validated _ _ _ Hm) as Hreq.
  destruct (main_pass _ _ _ _ _ Hm Hk) as (rn & rs & ri & Hp & Hn & _ & _ & Hrow).
  destruct Hp as [d sku price lbs qty bt ew product grams _ Hsku Hprice Hlbs _ _ _ _ _].
  exists (seen_row header lines line), sku, price, lbs.
  split; [exact Hrow|].
  split; [exact Hsku|]. split; [exact Hprice|]. split; [exact Hlbs|]. split.
  - destruct (seen_row_cell header lines line (lit "SKU"))
      as (sku0 & sku' & Hsku0 & Hsku' & _ & Ps); [apply Hreq; cbv; tauto|].
    destruct (seen_row_cell header lines line (lit "Retail Price"))
      as (price0 & price' & Hprice0 & Hprice' & _ & Pp); [apply Hreq; cbv; tauto|].
    destruct (seen_row_cell header lines line (lit "End Weight (lbs)"))
      as (lbs0 & lbs' & Hlbs0 & Hlbs' & _ & Pl); [apply Hreq; cbv; tauto|].
    rewrite Hsku in Hsku'. apply some_inj in Hsku'. subst sku'.
    rewrite Hprice in Hprice'. apply some_inj in Hprice'. subst price'.
    rewrite Hlbs in Hlbs'. apply some_inj in Hlbs'. subst lbs'.
    exists sku0, price0, lbs0. repeat split; assumption.
  - cbv zeta. rewrite !Hn. repeat split.
Qed.

Lemma replace_removes (c : ascii) (s : str) : ~ In c (replace c [] s).
Proof.
  unfold replace. induction s as [|a s IH]; simpl; [intros []|].
  destruct (Ascii.eqb_spec a c) as [->|Hne]; [exact IH|].
  simpl. intros [H|H]; [contradiction|auto].
Qed.

Lemma replace_absent (c : ascii) (new s : str) : ~ In c s -> replace c new s = s.
Proof.
  unfold replace. induction s as [|a s IH]; simpl; [reflexivity|].
  intros Hn. destruct (Ascii.eqb_spec a c) as [->|Hne].
  - exfalso. apply Hn. now left.
  - simpl. f_equal. apply IH. intros H. apply Hn. now right.
Qed.

Lemma replace_filter (c : ascii) (s : str) :
  replace c [] s = filter (fun a => negb (Ascii.eqb a c)) s.
Proof.
  unfold replace. induction s as [|a s IH]; simpl; [reflexivity|].
  destruct (Ascii.eqb a c); simpl; now rewrite IH.
Qed.

(** X12.  The Shopify row: 'Handle' is the text of the SKU cell of the row
    the loop gets with its spaces taken out (the other characters kept in
    order; the text itself when it has no space) and holds no space; 'Title'
    is the text of the description cell, not the display name; 'Variant SKU'
    is the SKU cell and 'Variant Price' the 'Retail Price' cell.  Each of
    these cells is the cleaned cell of the line, or the float of the integer
    it holds, and a text of the file is shown as it is.  The nine other
    cells are the fixed values of lines 220-231. *)
Theorem shopify_row (header : list str) (lines : list (list value))
    (T : Tables) (k : nat) (line : list value) :
  main header lines = Done T ->
  nth_error lines k = Some line ->
  exists row sku d price handle,
    nth_error (normalized_rows (read_csv header lines)) k = Some (k, row)
    /\ lookup (lit "SKU") row = Some sku
    /\ lookup (lit "Fragrance - Vessel Description") row = Some d
    /\ lookup (lit "Retail Price") row = Some price
    /\ (exists sku0 d0 price0,
          lookup (lit "SKU") (clean_row header line) = Some sku0
          /\ presented sku0 sku
          /\ (forall s, sku0 = VStr s -> py_str sku = s)
          /\ lookup (lit "Fragrance - Vessel Description") (clean_row header line) = Some d0
          /\ presented d0 d
          /\ (forall s, d0 = VStr s -> py_str d = s)
          /\ lookup (lit "Retail Price") (clean_row header line) = Some price0
          /\ presented price0 price)
    /\ handle = filter (fun a => negb (Ascii.eqb a " ")) (py_str sku)
    /\ ~ In " "%char handle
    /\ (~ In " "%char (py_str sku) -> handle = py_str sku)
    /\ let sh := shopify_import T in
       at_get sh k (lit "Handle") = Some (VStr handle)
       /\ at_get sh k (lit "Title") = Some (VStr (py_str d))
       /\ at_get sh k (lit "Variant SKU") = Some sku
       /\ at_get sh k (lit "Variant Price") = Some price
       /\ at_get sh k (lit "Published") = Some (VLit "FALSE")
       /\ at_get sh k (lit "Variant Inventory Tracker") = Some (VLit "shopify")
       /\ at_get sh k (lit "Variant Inventory Policy") = Some (VLit "deny")
       /\ at_get sh k (lit "Variant Fulfillment Service") = Some (VLit "manual")
       /\ at_get sh k (lit "Variant Requires Shipping") = Some (VLit "TRUE")
       /\ at_get sh k (lit "Variant Taxable") = Some (VLit "TRUE")
       /\ at_get sh k (lit "Gift Card") = Some (VLit "FALSE")
       /\ at_get sh k (lit "Variant Weight Unit") = Some (VLit "lb")
       /\ at_get sh k (lit "Status") = Some (VLit "active").
Proof.
  intros Hm Hk.
  pose proof (done_validated _ _ _ Hm) as Hreq.
  destruct (main_pass _ _ _ _ _ Hm Hk) as (rn & rs & ri & Hp & _ & Hs & _ & Hrow).
  destruct Hp as [d sku price lbs qty bt ew product grams Hd Hsku Hprice _ _ _ _ _ _].
  exists (seen_row header lines line), sku, d, price, (replace " " [] (py_str sku)).
  split; [exact Hrow|].
  split; [exact Hsku|]. split; [exact Hd|]. split; [exact Hprice|]. split.
  { destruct (seen_row_cell header lines line (lit "SKU"))
      as (sku0 & sku' & Hsku0 & Hsku' & _ & Ps); [apply Hreq; cbv; tauto|].
    destruct (seen_row_cell header lines line (lit "Fragrance - Vessel Description"))
      as (d0 & d' & Hd0 & Hd' & _ & Pd); [apply Hreq; cbv; tauto|].
    destruct (seen_row_cell header lines line (lit "Retail Price"))
      as (price0 & price' & Hprice0 & Hprice' & _ & Pp); [apply Hreq; cbv; tauto|].
    rewrite Hsku in Hsku'. apply some_inj in Hsku'. subst sku'.
    rewrite Hd in Hd'. apply some_inj in Hd'. subst d'.
    rewrite Hprice in Hprice'. apply some_inj in Hprice'. subst price'.
    exists sku0, d0, price0.
    split; [exact Hsku0|]. split; [exact Ps|].
    split; [intros s ->; now rewrite (presented_str _ _ Ps)|].
    split; [exact Hd0|]. split; [exact Pd|].
    split; [intros s ->; now rewrite (presented_str _ _ Pd)|].
    split; [exact Hprice0|exact Pp]. }
  split; [apply replace_filter|]. split; [apply replace_removes|].
  split; [apply replace_absent|].
  cbv zeta. rewrite !Hs. repeat split.
Qed.

(** X13.  The dimensions line of the body text: for 'Height' (and the same for
    'Width') it shows the text of the cell of the row the loop gets, which
    is the cleaned cell of the line, a number, or the float of the integer
    it holds, when the file has the column, and "N/A" when it has not. *)
Theorem body_dimensions (header : list str) (lines : list (list value))
    (T : Tables) (k : nat) (line : list value) :
  main header lines = Done T ->
  nth_error lines k = Some line ->
  exists row burn_time end_weight height width,
    nth_error (normalized_rows (read_csv header lines)) k = Some (k, row)
    /\ at_get (shopify_import T) k (lit "Body (HTML)")
       = Some (VStr (body_html burn_time end_weight height width))
    /\ (In (lit "Height") (map strip header) ->
        exists v0 v, lookup (lit "Height") (clean_row header line) = Some v0
                     /\ is_number v0 = true
                     /\ lookup (lit "Height") row = Some v
                     /\ presented v0 v /\ height = py_str v)
    /\ (~ In (lit "Height") (map strip header) -> height = lit "N/A")
    /\ (In (lit "Width") (map strip header) ->
        exists v0 v, lookup (lit "Width") (clean_row header line) = Some v0
                     /\ is_number v0 = true
                     /\ lookup (lit "Width") row = Some v
                     /\ presented v0 v /\ width = py_str v)
    /\ (~ In (lit "Width") (map strip header) -> width = lit "N/A").
Proof.
  intros Hm Hk.
  destruct (main_pass _ _ _ _ _ Hm Hk) as (rn & rs & ri & Hp & _ & Hs & _ & Hrow).
  destruct Hp as [d sku price lbs qty bt ew product grams _ _ _ _ _ _ _ _ _].
  exists (seen_row header lines line), (py_str bt), (py_str ew),
         (py_str (get (seen_row header lines line) (lit "Height") (VLit "N/A"))),
         (py_str (get (seen_row header lines line) (lit "Width") (VLit "N/A"))).
  split; [exact Hrow|].
  split; [rewrite Hs; reflexivity|].
  assert (Hin : forall col, In col numeric_cols_to_check -> In col (map strip header) ->
            exists v0 v, lookup col (clean_row header line) = Some v0
                      /\ is_number v0 = true
                      /\ lookup col (seen_row header lines line) = Some v
                      /\ presented v0 v
                      /\ py_str (get (seen_row header lines line) col (VLit "N/A"))
                         = py_str v).
  { intros col Hnum Hc.
    destruct (seen_row_cell header lines line col Hc) as (v0 & v & Hv0 & Hv & _ & Pv).
    exists v0, v. split; [exact Hv0|]. split.
    - rewrite (lookup_clean_row _ _ _ Hc), (In_numeric_mem _ Hnum) in Hv0.
      destruct (lookup col (raw_row header line)); cbn [option_map] in Hv0;
        [|discriminate Hv0].
      apply some_inj in Hv0. subst v0. apply coerce_is_number.
    - split; [exact Hv|]. split; [exact Pv|]. unfold get. now rewrite Hv. }
  assert (Hout : forall col, col <> lit "End Weight" -> ~ In col (map strip header) ->
            py_str (get (seen_row header lines line) col (VLit "N/A")) = lit "N/A").
  { intros col Hne Hc. unfold get.
    now rewrite (seen_row_absent header lines line col Hc Hne). }
  split; [apply Hin; cbv; tauto|]. split; [apply Hout; discriminate|].
  split; [apply Hin; cbv; tauto|]. apply Hout; discriminate.
Qed.


(** X14.  A cell of the file that is missing or does not parse comes out as zero
    in every table, and the row is still there: such a 'Retail Price' gives
    'Price' and 'Variant Price' 0.0, such an 'End Weight (lbs)' gives
    'Weight' 0.0 and 'Variant Grams' 0. *)
Theorem unparseable_cells_give_zero (header : list str) (lines : list (list value))
    (T : Tables) (k : nat) (line : list value) :
  main header lines = Done T ->
  nth_error lines k = Some line ->
  let zero := VNum (NFloat (S754_zero false)) in
  let unusable raw :=
    isna raw = true \/ (exists s, raw = VStr s /\ parse_num s = None) in
  (forall raw,
     lookup (lit "Retail Price") (raw_row header line) = Some raw -> unusable raw ->
     at_get (netsuite_import T) k (lit "Price") = Some zero
     /\ at_get (shopify_import T) k (lit "Variant Price") = Some zero)
  /\ (forall raw,
        lookup (lit "End Weight (lbs)") (raw_row header line) = Some raw -> unusable raw ->
        at_get (netsuite_import T) k (lit "Weight") = Some zero
        /\ at_get (shopify_import T) k (lit "Variant Grams") = Some (VInt 0)).
Proof.
  intros Hm Hk zero unusable.
  pose proof (done_validated _ _ _ Hm) as Hreq.
  destruct (main_pass _ _ _ _ _ Hm Hk) as (rn & rs & ri & Hp & Hn & Hs & _).
  destruct Hp as [d sku price lbs qty bt ew product grams _ _ Hprice Hlbs _ _ _ Hprod Hg].
  assert (Hzero : forall col raw v,
            In col numeric_cols_to_check -> In col (map strip header) ->
            lookup col (raw_row header line) = Some raw -> unusable raw ->
            lookup col (seen_row header lines line) = Some v -> v = zero).
  { intros col raw v Hnum Hc Hraw Hbad Hv.
    rewrite lookup_seen_row, (lookup_cleaned_row _ _ _ _ Hc),
      (lookup_clean_row _ _ _ Hc), (In_numeric_mem _ Hnum), Hraw in Hv.
    cbn [option_map] in Hv. rewrite (coerce_null raw Hbad), !astype_float in Hv.
    apply some_inj in Hv. now subst v. }
  split.
  - intros raw Hraw Hbad.
    assert (Hp : price = zero).
    { apply (Hzero (lit "Retail Price") raw);
        [cbv; tauto|apply Hreq; cbv; tauto|exact Hraw|exact Hbad|exact Hprice]. }
    subst price. rewrite Hn, Hs. split; reflexivity.
  - intros raw Hraw Hbad.
    assert (Hl : lbs = zero).
    { apply (Hzero (lit "End Weight (lbs)") raw);
        [cbv; tauto|apply Hreq; cbv; tauto|exact Hraw|exact Hbad|exact Hlbs]. }
    subst lbs. cbn in Hprod.
    apply (f_equal (fun r => match r with inr p => p | inl _ => product end)) in Hprod.
    subst product. cbn in Hg.
    apply (f_equal (fun r => match r with inr p => p | inl _ => grams end)) in Hg.
    subst grams.
    rewrite Hn, Hs. split; reflexivity.
Qed.

Lemma binary_round_aux_nonneg (m e : Z) (l : location) :
  (0 <= m)%Z ->
  is_nonneg_number (VNum (NFloat (binary_round_aux prec emax false m e l))) = true.
Proof.
  intros H. unfold binary_round_aux.
  pose proof (shr_fexp_nonneg m e l H) as H1.
  destruct (shr_fexp prec emax m e l) as [mrs' e'].
  cbn [fst] in H1.
  pose proof (shr_fexp_nonneg _ e' loc_Exact
                (round_nearest_even_nonneg _ (loc_of_shr_record mrs') H1)) as H2.
  destruct (shr_fexp prec emax _ e' loc_Exact) as [mrs'' e''].
  cbn [fst] in H2.
  destruct (shr_m mrs'') as [|p|p]; [reflexivity| |lia].
  destruct (Z.leb e'' (emax - prec)); reflexivity.
Qed.

Lemma fmul_nonneg (x : spec_float) :
  is_nonneg_number (VNum (NFloat x)) = true ->
  is_nonneg_number (VNum (NFloat (fmul x f453_592))) = true.
Proof.
  destruct x as [s|[|]| |[|] m e]; simpl; try discriminate; try reflexivity.
  intros _. apply binary_round_aux_nonneg. lia.
Qed.

Lemma float_of_int_nonneg (z : Z) :
  (0 <= z)%Z -> is_nonneg_number (VNum (NFloat (float_of_int z))) = true.
Proof.
  unfold float_of_int, binary_normalize.
  destruct z as [|m|m]; [reflexivity| |lia]. intros _. unfold binary_round.
  destruct (shl_align _ _ _) as [mz ez]. apply binary_round_aux_nonneg. lia.
Qed.

Lemma round_half_even_nonneg (m : positive) (k : positive) :
  (0 <= round_half_even (Zpos m) k)%Z.
Proof.
  unfold round_half_even.
  assert (Hd : (0 < Z.pow_pos 2 k)%Z)
    by (rewrite Z.pow_pos_fold; apply Z.pow_pos_nonneg; lia).
  assert (Hq : (0 <= Zpos m / Z.pow_pos 2 k)%Z) by (apply Z.div_pos; lia).
  destruct (_ ?= _)%Z; [destruct (Z.even _)| |]; lia.
Qed.

Lemma py_round_nonneg (x : spec_float) (g : Z) :
  is_nonneg_number (VNum (NFloat x)) = true -> py_round x = inr g -> (0 <= g)%Z.
Proof.
  destruct x as [s|s| |[|] m e]; cbn [py_round is_nonneg_number negb];
    try discriminate.
  - intros _ [= <-]. lia.
  - intros _ [= <-]. destruct e as [|p|p].
    + lia.
    + assert (0 < Z.pow_pos 2 p)%Z
        by (rewrite Z.pow_pos_fold; apply Z.pow_pos_nonneg; lia).
      change (0 <= Z.pos m * Z.pow_pos 2 p)%Z.
      apply Z.mul_nonneg_nonneg; lia.
    + apply round_half_even_nonneg.
Qed.

(** X15.  'Variant Grams' is never below zero for a weight that is not below
    zero. *)
Theorem grams_not_negative (header : list str) (lines : list (list value))
    (T : Tables) (k : nat) (line : list value) :
  main header lines = Done T ->
  nth_error lines k = Some line ->
  exists lbs grams,
    lookup (lit "End Weight (lbs)") (clean_row header line) = Some lbs
    /\ at_get (shopify_import T) k (lit "Variant Grams") = Some (VInt grams)
    /\ (is_nonneg_number lbs = true -> (0 <= grams)%Z).
Proof.
  intros Hm Hk.
  pose proof (done_validated _ _ _ Hm) as Hreq.
  destruct (main_pass _ _ _ _ _ Hm Hk) as (rn & rs & ri & Hp & _ & Hs & _).
  destruct Hp as [d sku price lbs qty bt ew product grams _ _ _ Hlbs _ _ _ Hprod Hg].
  destruct (clean_row_present header line (lit "End Weight (lbs)")) as [lbs0 Hlbs0];
    [apply Hreq; cbv; tauto|].
  rewrite (seen_row_weight _ _ _ _ _ Hlbs0 Hlbs) in Hprod.
  exists lbs0, grams. split; [exact Hlbs0|]. split; [rewrite Hs; reflexivity|].
  intros Hpos. apply (py_round_nonneg product grams); [|exact Hg].
  destruct lbs0 as [s|[z|f]]; cbn [mul_float] in Hprod; [discriminate| |];
    apply (f_equal (fun r => match r with inr p => p | inl _ => product end)) in Hprod;
    subst product; apply fmul_nonneg.
  - apply float_of_int_nonneg. cbn in Hpos. now apply Z.leb_le.
  - exact Hpos.
Qed.
(** ** The derived texts (lines 165-168, 214-218) *)

Lemma In_strip (c : ascii) (s : str) : In c (strip s) -> In c s.
Proof.
  intros H. destruct (strip_decomp s) as (l & r & E & _). rewrite E.
  apply in_or_app. right. apply in_or_app. now left.
Qed.

Lemma join_free (c : ascii) (sep : str) (ps : list str) :
  ~ In c sep -> (forall p, In p ps -> ~ In c p) -> ~ In c (join sep ps).
Proof.
  intros Hsep. induction ps as [|p ps IH]; intros H; [intros []|].
  destruct ps as [|q ps]; [apply H; now left|].
  change (join sep (p :: q :: ps)) with (p ++ sep ++ join sep (q :: ps)).
  intros Hin. apply in_app_or in Hin. destruct Hin as [Hin|Hin].
  - exact (H p (or_introl eq_refl) Hin).
  - apply in_app_or in Hin. destruct Hin as [Hin|Hin]; [contradiction|].
    apply IH; [|assumption]. intros p' Hp'. apply H. now right.
Qed.

(** X16.  The display name never holds a '|', whatever the description. *)
Theorem display_name_no_pipe (s : str) : ~ In "|"%char (netsuite_display_name s).
Proof.
  unfold netsuite_display_name. apply join_free.
  - cbv. intuition discriminate.
  - intros p Hin. apply in_map_iff in Hin. destruct Hin as (p0 & <- & Hp0).
    intros H. apply In_strip in H.
    pose proof (split_parts_free "|" s) as Hfree.
    rewrite Forall_forall in Hfree. exact (Hfree p0 Hp0 H).
Qed.

Lemma before_delimiter_free (s : str) :
  ~ In "|"%char (before_delimiter s) /\ ~ In "-"%char (before_delimiter s).
Proof.
  induction s as [|c t [IH1 IH2]]; simpl; [split; intros []|].
  destruct (Ascii.eqb_spec c "|") as [->|Hp]; cbn [orb]; [split; intros []|].
  destruct (Ascii.eqb_spec c "-") as [->|Hd]; [split; intros []|].
  split; intros [H|H]; auto.
Qed.

Lemma lower_char_idem (c : ascii) : lower_char (lower_char c) = lower_char c.
Proof. destruct c as [[] [] [] [] [] [] [] []]; reflexivity. Qed.

Lemma lower_char_comma (c : ascii) :
  Ascii.eqb (lower_char c) "," = Ascii.eqb c ",".
Proof. destruct c as [[] [] [] [] [] [] [] []]; reflexivity. Qed.

Lemma In_lower (c : ascii) (s : str) :
  In c (lower s) -> exists c0, In c0 s /\ lower_char c0 = c.
Proof.
  unfold lower. intros H. apply in_map_iff in H. destruct H as (c0 & E & Hin). eauto.
Qed.

Lemma In_replace_space (c : ascii) (s : str) :
  In c (replace " " (lit "-") s) -> c = "-"%char \/ (In c s /\ c <> " "%char).
Proof.
  unfold replace. induction s as [|a s IH]; simpl; [intros []|].
  destruct (Ascii.eqb_spec a " ") as [->|Hne]; simpl.
  - intros [H|H]; [now left|]. destruct (IH H) as [E|[Hin Hc]]; auto.
  - intros [H|H]; [subst; auto|]. destruct (IH H) as [E|[Hin Hc]]; auto.
Qed.

(** X17.  The fragrance holds no '|' and no '-' and neither starts nor ends with
    whitespace; the smells-like tag holds no space and is in lower case
    already. *)
Theorem fragrance_characters (s : str) :
  ~ In "|"%char (fragrance s)
  /\ ~ In "-"%char (fragrance s)
  /\ (forall c t, fragrance s = c :: t -> isspace c = false)
  /\ (forall t c, fragrance s = t ++ [c] -> isspace c = false)
  /\ ~ In " "%char (smells_like s)
  /\ lower (smells_like s) = smells_like s.
Proof.
  assert (E : fragrance s = strip (before_delimiter s))
    by (unfold fragrance; now rewrite hd_split_before).
  destruct (before_delimiter_free s) as [H1 H2].
  split; [rewrite E; intros H; apply In_strip in H; contradiction|].
  split; [rewrite E; intros H; apply In_strip in H; contradiction|].
  split; [rewrite E; apply strip_first|].
  split; [rewrite E; apply strip_last|].
  unfold smells_like. split.
  - intros H. apply In_lower in H. destruct H as (c0 & Hin & Hc0).
    assert (Hsp : Ascii.eqb c0 " " = true)
      by (rewrite <- lower_char_space, Hc0; reflexivity).
    apply Ascii.eqb_eq in Hsp. subst c0.
    apply In_replace_space in Hin. destruct Hin as [Hd|[_ Hne]];
      [discriminate|contradiction].
  - unfold lower. rewrite map_map. apply map_ext. apply lower_char_idem.
Qed.

Lemma split_app_sep (sep : ascii) (a b : str) :
  ~ In sep a -> split sep (a ++ sep :: b) = a :: split sep b.
Proof.
  induction a as [|c a IH]; intros Hn; simpl.
  - now rewrite Ascii.eqb_refl.
  - destruct (Ascii.eqb_spec c sep) as [->|Hne]; [exfalso; apply Hn; now left|].
    rewrite IH; [reflexivity|]. intros H. apply Hn. now right.
Qed.

(** The parts of a text joined by a separator they do not hold are the
    parts [split] gives back. *)
Lemma split_join (sep : ascii) (parts : list str) :
  parts <> [] -> Forall (fun p => ~ In sep p) parts ->
  split sep (join [sep] parts) = parts.
Proof.
  induction parts as [|p ps IH]; [contradiction|]. intros _ H.
  inversion H as [|? ? Hp Hps]; subst.
  destruct ps as [|q ps].
  - cbn [join]. now apply split_no_sep.
  - change (join [sep] (p :: q :: ps)) with (p ++ sep :: join [sep] (q :: ps)).
    rewrite (split_app_sep sep p _ Hp). f_equal. apply IH; [discriminate|assumption].
Qed.

Lemma smells_like_comma (s : str) :
  ~ In ","%char (fragrance s) -> ~ In ","%char (smells_like s).
Proof.
  intros Hf H. unfold smells_like in H. apply In_lower in H.
  destruct H as (c0 & Hin & Hc0).
  assert (Hc : Ascii.eqb c0 "," = true)
    by (rewrite <- lower_char_comma, Hc0; reflexivity).
  apply Ascii.eqb_eq in Hc. subst c0.
  apply In_replace_space in Hin. destruct Hin as [Hd|[Hin _]];
    [discriminate|contradiction].
Qed.

(** X18.  When neither the last six characters of the SKU nor the fragrance hold
    a comma, the 'Tags' text splits on ',' into exactly four tags: the fixed
    tag, "antique" with the SKU suffix, the smells-like tag, and the
    fragrance (after one space). *)
Theorem tags_four_tags (sku_str s : str) :
  ~ In ","%char (suffix 6 sku_str) ->
  ~ In ","%char (fragrance s) ->
  split "," (tags sku_str s)
  = [ lit "_tab2_antique-restock-101";
      lit "antique" ++ suffix 6 sku_str;
      lit "_tab1_" ++ smells_like s ++ lit "-smells-like";
      lit " " ++ fragrance s ].
Proof.
  intros Hsku Hfrag. pose proof (smells_like_comma s Hfrag) as Hsm.
  unfold tags.
  change (lit "_tab2_antique-restock-101,antique")
    with (lit "_tab2_antique-restock-101" ++ ","%char :: lit "antique").
  change (lit ",_tab1_") with (","%char :: lit "_tab1_").
  change (lit "-smells-like, ") with (lit "-smells-like" ++ ","%char :: lit " ").
  rewrite <- !app_assoc. cbn [app].
  rewrite split_app_sep by (cbv; intuition discriminate).
  f_equal.
  replace (lit "antique" ++ suffix 6 sku_str ++ ","%char :: lit "_tab1_"
             ++ smells_like s ++ lit "-smells-like" ++ ","%char :: lit " " ++ fragrance s)
    with ((lit "antique" ++ suffix 6 sku_str) ++ ","%char ::
          ((lit "_tab1_" ++ smells_like s ++ lit "-smells-like") ++ ","%char ::
           (lit " " ++ fragrance s)))
    by (now rewrite <- !app_assoc).
  rewrite split_app_sep.
  2:{ intros H. apply in_app_or in H. destruct H as [H|H]; [|contradiction].
      cbv in H. intuition discriminate. }
  f_equal. rewrite split_app_sep.
  2:{ intros H. apply in_app_or in H. destruct H as [H|H];
        [cbv in H; intuition discriminate|].
      apply in_app_or in H. destruct H as [H|H]; [contradiction|].
      cbv in H. intuition discriminate. }
  f_equal. apply split_no_sep.
  intros H. apply in_app_or in H. destruct H as [H|H]; [|contradiction].
  cbv in H. intuition discriminate.
Qed.


(** ** The password gate (lines 13-37) *)

Lemma state_lookup_set_same (key : str) (v : sval) (ss : session_state) :
  state_lookup key (state_set key v ss) = Some v.
Proof.
  induction ss as [|[k w] ss IH]; simpl.
  - now rewrite str_eqb_refl.
  - destruct (str_eqb key k) eqn:E; simpl; rewrite E; [reflexivity|exact IH].
Qed.

Lemma state_lookup_set_other (key key' : str) (v : sval) (ss : session_state) :
  key <> key' -> state_lookup key (state_set key' v ss) = state_lookup key ss.
Proof.
  intros Hne. induction ss as [|[k w] ss IH]; simpl.
  - destruct (str_eqb key key') eqn:E; [|reflexivity].
    apply str_eqb_eq in E. contradiction.
  - destruct (str_eqb key' k) eqn:E'; simpl.
    + apply str_eqb_eq in E'. subst k.
      destruct (str_eqb key key') eqn:E; [|reflexivity].
      apply str_eqb_eq in E. contradiction.
    + now rewrite IH.
Qed.

Lemma state_lookup_removed (key : str) (ss : session_state) :
  state_lookup key (filter (fun kv => negb (str_eqb key (fst kv))) ss) = None.
Proof.
  induction ss as [|[k w] ss IH]; simpl; [reflexivity|].
  destruct (str_eqb key k) eqn:E; simpl; [exact IH|]. now rewrite E.
Qed.

Lemma state_lookup_remove_other (key key' : str) (ss : session_state) :
  key <> key' ->
  state_lookup key (filter (fun kv => negb (str_eqb key' (fst kv))) ss)
  = state_lookup key ss.
Proof.
  intros Hne. induction ss as [|[k w] ss IH]; simpl; [reflexivity|].
  destruct (str_eqb key' k) eqn:E'; simpl.
  - apply str_eqb_eq in E'. subst k.
    destruct (str_eqb key key') eqn:E; [|exact IH].
    apply str_eqb_eq in E. contradiction.
  - now rewrite IH.
Qed.

(** What entering a password does to the session, from any session. *)
Lemma submit_result (secret p : str) (ss : session_state) :
  exists ss',
    submit secret p ss = inr ss'
    /\ state_lookup (lit "password_correct") ss' = Some (SBool (str_eqb p secret))
    /\ state_lookup (lit "password") ss'
       = if str_eqb p secret then None else Some (SStr p).
Proof.
  unfold submit, password_entered, state_getitem.
  rewrite state_lookup_set_same. cbn [bind sval_eqb].
  destruct (str_eqb p secret).
  - unfold state_del.
    rewrite state_lookup_set_other by discriminate.
    rewrite state_lookup_set_same.
    eexists. split; [reflexivity|]. split.
    + rewrite state_lookup_remove_other by discriminate.
      apply state_lookup_set_same.
    + apply state_lookup_removed.
  - eexists. split; [reflexivity|]. split.
    + apply state_lookup_set_same.
    + rewrite state_lookup_set_other by discriminate.
      apply state_lookup_set_same.
Qed.

Lemma gate_opens_iff_secret_aux (secret p : str) (ss ss' : session_state) :
  submit secret p ss = inr ss' ->
  fst (check_password ss') = true -> p = secret.
Proof.
  intros Hs. destruct (submit_result secret p ss) as (ss0 & Hs0 & Hc & _).
  rewrite Hs in Hs0. injection Hs0 as <-.
  unfold check_password. rewrite Hc. cbn [truthy].
  destruct (str_eqb p secret) eqn:E; cbn [fst]; [|discriminate].
  intros _. now apply str_eqb_eq.
Qed.

(** X19.  After a password is entered, from any session, the check lets the
    script through exactly when the password is the secret one; after a
    wrong one it shows the input again together with the error, after the
    right one it shows neither. *)
Theorem gate_opens_iff_secret (secret p : str) (ss : session_state) :
  exists ss',
    submit secret p ss = inr ss'
    /\ (fst (check_password ss') = true <-> p = secret)
    /\ (p = secret -> snd (check_password ss') = [])
    /\ (p <> secret -> snd (check_password ss') = [PasswordInput; PasswordIncorrect]).
Proof.
  destruct (submit_result secret p ss) as (ss' & Hs & Hc & _).
  exists ss'. split; [exact Hs|].
  unfold check_password. rewrite Hc. cbn [truthy].
  destruct (str_eqb p secret) eqn:E; cbn [fst snd negb].
  - apply str_eqb_eq in E. repeat split; auto. contradiction.
  - assert (Hne : p <> secret) by (intros ->; now rewrite str_eqb_refl in E).
    repeat split; try discriminate; try contradiction; auto.
Qed.

(** X20.  The right password is not kept in the session once it has been
    checked; a wrong one stays there, under "password", beside the failed
    mark. *)
Theorem password_storage (secret p : str) (ss : session_state) :
  exists ss',
    submit secret p ss = inr ss'
    /\ (p = secret -> state_lookup (lit "password") ss' = None)
    /\ (p <> secret ->
        state_lookup (lit "password") ss' = Some (SStr p)
        /\ state_lookup (lit "password_correct") ss' = Some (SBool false)).
Proof.
  destruct (submit_result secret p ss) as (ss' & Hs & Hc & Hp).
  exists ss'. split; [exact Hs|]. split.
  - intros ->. now rewrite str_eqb_refl in Hp.
  - intros Hne.
    assert (E : str_eqb p secret = false).
    { destruct (str_eqb p secret) eqn:E; [|reflexivity].
      apply str_eqb_eq in E. contradiction. }
    rewrite E in Hp, Hc. auto.
Qed.

(** X21.  Once a password has been entered, the script hands over tables only
    when it was the secret one, and only for an uploaded file whose run ends
    normally: after a wrong password the run stops at the gate whatever file
    is uploaded. *)
Theorem tables_behind_gate (secret p : str) (ss ss' : session_state)
    (uploaded_file : option (list str * list (list value))) :
  submit secret p ss = inr ss' ->
  page_tables (script ss' uploaded_file) <> [] ->
  p = secret
  /\ exists header lines T,
       uploaded_file = Some (header, lines) /\ main header lines = Done T.
Proof.
  intros Hs Hp.
  pose proof (gate_opens_iff_secret_aux secret p ss ss' Hs) as Hok.
  unfold script in Hp.
  destruct (fst (check_password ss')) eqn:E; cbn [negb] in Hp.
  - split; [now apply Hok|].
    destruct uploaded_file as [[header lines]|]; cbn [page_tables] in Hp;
      [|contradiction].
    destruct (main header lines) as [m|e|T] eqn:Hm; cbn [output_tables] in Hp;
      try contradiction.
    exists header, lines, T. auto.
  - cbn [page_tables] in Hp. contradiction.
Qed.

(** ** The names of the downloads (lines 235-256) *)

Lemma digit_inj (a b : nat) : a < 10 -> b < 10 -> digit a = digit b -> a = b.
Proof.
  unfold digit. intros Ha Hb H.
  apply (f_equal nat_of_ascii) in H.
  rewrite !nat_ascii_embedding in H by lia. lia.
Qed.

Lemma two_digits_inj (a b : nat) :
  a < 100 -> b < 100 -> two_digits a = two_digits b -> a = b.
Proof.
  unfold two_digits. intros Ha Hb H.
  assert (H1 : digit (a / 10) = digit (b / 10))
    by exact (f_equal (fun l => nth 0 l Ascii.zero) H).
  assert (H2 : digit (a mod 10) = digit (b mod 10))
    by exact (f_equal (fun l => nth 1 l Ascii.zero) H).
  apply digit_inj in H1;
    [|apply Nat.Div0.div_lt_upper_bound; lia|apply Nat.Div0.div_lt_upper_bound; lia].
  apply digit_inj in H2;
    [|apply Nat.mod_upper_bound; lia|apply Nat.mod_upper_bound; lia].
  rewrite (Nat.div_mod_eq a 10), (Nat.div_mod_eq b 10). now rewrite H1, H2.
Qed.

Lemma two_digits_app_inv (a b : nat) (r r' : str) :
  two_digits a ++ r = two_digits b ++ r' -> two_digits a = two_digits b /\ r = r'.
Proof.
  intros H. split.
  - exact (f_equal (firstn 2) H).
  - exact (f_equal (skipn 2) H).
Qed.

(** X22.  The date part of a download name has eight characters, and the names
    of two days are the same exactly when the days agree in month, day and
    the last two digits of the year; the three names of one day differ. *)
Theorem file_names_by_day (d d' : date) :
  valid_date d -> valid_date d' ->
  length (strftime_m_d_y d) = 8
  /\ (netsuite_file_name (strftime_m_d_y d) = netsuite_file_name (strftime_m_d_y d')
      <-> month d = month d' /\ day d = day d' /\ year d mod 100 = year d' mod 100)
  /\ netsuite_file_name (strftime_m_d_y d) <> shopify_file_name (strftime_m_d_y d)
  /\ netsuite_file_name (strftime_m_d_y d) <> inventory_file_name (strftime_m_d_y d)
  /\ shopify_file_name (strftime_m_d_y d) <> inventory_file_name (strftime_m_d_y d).
Proof.
  intros (Hm & Hd & _) (Hm' & Hd' & _).
  split; [reflexivity|]. split.
  - split.
    + unfold netsuite_file_name. intros H. apply app_inv_head in H.
      apply app_inv_tail in H. unfold strftime_m_d_y in H.
      apply two_digits_app_inv in H. destruct H as [Hmm H].
      apply app_inv_head in H.
      apply two_digits_app_inv in H. destruct H as [Hdd H].
      apply app_inv_head in H. rename H into Hyy.
      apply two_digits_inj in Hmm; [|lia|lia].
      apply two_digits_inj in Hdd; [|lia|lia].
      apply two_digits_inj in Hyy;
        [|apply Nat.mod_upper_bound; lia|apply Nat.mod_upper_bound; lia].
      auto.
    + intros (E1 & E2 & E3). unfold strftime_m_d_y. now rewrite E1, E2, E3.
  - repeat split; intros H;
      apply (f_equal (fun l => nth 0 l Ascii.zero)) in H; discriminate H.
Qed.

End Properties.

(** * The theorems on the example file *)

Lemma example_run :
  main (rt := example_runtime) example_header [example_line] = Done example_tables.
Proof. vm_compute. reflexivity. Defined.

Lemma numeric_run :
  main (rt := example_runtime) example_header [line_numeric] = Done numeric_tables.
Proof. vm_compute. reflexivity. Defined.

Lemma c1_display_name_witness :
  main (rt := example_runtime) example_header [example_line] = Done example_tables
  /\ nth_error [example_line] 0 = Some example_line
  /\ at_get (netsuite_import example_tables) 0 (lit "Display Name")
     = Some (VLit "Vanilla Bean - Mason Jar")
  /\ main (rt := example_runtime) example_header [line_numeric] = Done numeric_tables
  /\ nth_error [line_numeric] 0 = Some line_numeric
  /\ at_get (netsuite_import numeric_tables) 0 (lit "Display Name") = Some (VLit "2024.0").
Proof.
  split; [exact example_run|]. split; [reflexivity|]. split.
  - destruct (c1_display_name (rt := example_runtime) example_header [example_line]
                example_tables 0 example_line example_run eq_refl)
      as (row & raw & d & parts & Hrow & Hraw & Hd & _ & Htext & Hj & Hfree & _ & Hcell & _).
    pin_cell Hraw. subst raw. specialize (Htext _ eq_refl).
    rewrite Htext in Hj.
    assert (Hparts : parts = [lit "Vanilla Bean "; lit " Mason Jar"]).
    { pose proof (split_join "|" parts) as S.
      change (join ["|"%char] parts) with (join (lit "|") parts) in S.
      rewrite Hj in S. symmetry. apply S; [|exact Hfree].
      intros ->. discriminate Hj. }
    rewrite Hcell, Hparts. reflexivity.
  - split; [exact numeric_run|]. split; [reflexivity|].
    destruct (c1_display_name (rt := example_runtime) example_header [line_numeric]
                numeric_tables 0 line_numeric numeric_run eq_refl)
      as (row & raw & d & parts & Hrow & _ & Hd & _ & _ & _ & _ & _ & _ & Hplain & _).
    pin_cell Hrow. subst row. pin_cell Hd. subst d.
    rewrite Hplain; [reflexivity|]. vm_compute. intuition discriminate.
Defined.

Lemma c2_fragrance_tags_witness :
  main (rt := example_runtime) example_header [example_line] = Done example_tables
  /\ nth_error [example_line] 0 = Some example_line
  /\ at_get (shopify_import example_tables) 0 (lit "Tags")
     = Some (VLit "_tab2_antique-restock-101,antique123456,_tab1_vanilla-bean-smells-like, Vanilla Bean")
  /\ main (rt := example_runtime) example_header [line_numeric] = Done numeric_tables
  /\ nth_error [line_numeric] 0 = Some line_numeric
  /\ at_get (shopify_import numeric_tables) 0 (lit "Tags")
     = Some (VLit "_tab2_antique-restock-101,antique6789.0,_tab1_2024.0-smells-like, 2024.0").
Proof.
  split; [exact example_run|]. split; [reflexivity|]. split.
  - destruct (c2_fragrance_tags (rt := example_runtime) example_header [example_line]
                example_tables 0 example_line example_run eq_refl)
      as ((row & raw_d & d & raw_sku & sku & _ & Hrd & _ & _ & Hrs & _ & _ & Htd & Hts
           & _ & _ & _ & Htags) & _).
    pin_cell Hrd. subst raw_d. pin_cell Hrs. subst raw_sku.
    rewrite Htags, (Htd _ eq_refl), (Hts _ eq_refl). reflexivity.
  - split; [exact numeric_run|]. split; [reflexivity|].
    destruct (c2_fragrance_tags (rt := example_runtime) example_header [line_numeric]
                numeric_tables 0 line_numeric numeric_run eq_refl)
      as ((row & raw_d & d & raw_sku & sku & Hrow & _ & Hd & _ & _ & Hsku & _ & _ & _
           & _ & _ & _ & Htags) & _).
    pin_cell Hrow. subst row. pin_cell Hd. subst d. pin_cell Hsku. subst sku.
    rewrite Htags. reflexivity.
Defined.

Lemma c3_missing_columns_witness :
  (exists col, In col required_cols /\ ~ In col (map strip header_no_quantity))
  /\ exists missing_cols,
       main (rt := example_runtime) header_no_quantity [example_line]
       = Stopped (missing_message missing_cols)
       /\ In (lit "Quantity") missing_cols
       /\ contains (lit "Quantity") (missing_message missing_cols) = true.
Proof.
  assert (H : exists col, In col required_cols /\ ~ In col (map strip header_no_quantity)).
  { exists (lit "Quantity"). split; [cbv; tauto|]. cbv. intuition discriminate. }
  split; [exact H|].
  destruct (c3_missing_columns (rt := example_runtime) header_no_quantity [example_line] H)
    as (missing_cols & Hm & Hspec & Hnames & _).
  exists missing_cols. split; [exact Hm|].
  assert (Hq : In (lit "Quantity") missing_cols).
  { apply Hspec. split; [cbv; tauto|]. cbv. intuition discriminate. }
  split; [exact Hq|]. now apply Hnames.
Defined.


Lemma c5_numeric_fields_witness :
  nth_error [line_unparseable] 0 = Some line_unparseable
  /\ nth_error (normalized_rows (rt := example_runtime)
                  (read_csv example_header [line_unparseable])) 0
     = Some (0, seen_row (rt := example_runtime) example_header [line_unparseable]
                  line_unparseable)
  /\ In (lit "Retail Price") numeric_cols_to_check
  /\ In (lit "Quantity") numeric_cols_to_check
  /\ lookup (lit "Retail Price")
       (seen_row (rt := example_runtime) example_header [line_unparseable] line_unparseable)
     = Some (VNum (NFloat (S754_zero false)))
  /\ lookup (lit "Quantity")
       (seen_row (rt := example_runtime) example_header [line_unparseable] line_unparseable)
     = Some (VInt 3).
Proof.
  assert (H1 : nth_error [line_unparseable] 0 = Some line_unparseable) by reflexivity.
  assert (H2 : nth_error (normalized_rows (rt := example_runtime)
                            (read_csv example_header [line_unparseable])) 0
               = Some (0, seen_row (rt := example_runtime) example_header
                            [line_unparseable] line_unparseable))
    by (vm_compute; reflexivity).
  assert (H3 : In (lit "Retail Price") numeric_cols_to_check) by (cbv; tauto).
  assert (H4 : In (lit "Quantity") numeric_cols_to_check) by (cbv; tauto).
  split; [exact H1|]. split; [exact H2|]. split; [exact H3|]. split; [exact H4|].
  destruct (lookup (lit "Retail Price")
              (seen_row (rt := example_runtime) example_header [line_unparseable]
                 line_unparseable)) as [price|] eqn:Hp; [|discriminate Hp].
  destruct (lookup (lit "Quantity")
              (seen_row (rt := example_runtime) example_header [line_unparseable]
                 line_unparseable)) as [qty|] eqn:Hq; [|discriminate Hq].
  split.
  - f_equal.
    apply (proj2 (c5_numeric_fields (rt := example_runtime) example_header
                    [line_unparseable] 0 line_unparseable _ _ price H1 H2 H3 Hp)
             (VLit "call us") eq_refl).
    right. eexists. split; [reflexivity|]. left. reflexivity.
  - f_equal.
    destruct (proj2 (proj2 (c5_numeric_fields (rt := example_runtime) example_header
                              [line_unparseable] 0 line_unparseable _ _ qty H1 H2 H4 Hq)
                       (VInt 3) eq_refl)
                (NInt 3) (or_introl eq_refl) eq_refl) as [E|E]; [exact E|].
    clear E. vm_compute in Hq. apply some_inj in Hq. now rewrite <- Hq.
Defined.

Lemma c6_burn_time_absent_witness :
  (forall col, In col required_cols -> In col (map strip header_required))
  /\ ~ In (lit "Burn Time") (map strip header_required)
  /\ main (rt := example_runtime) header_required [line_required]
     = Unexpected (KeyError (lit "Burn Time")).
Proof.
  assert (H1 : forall col, In col required_cols -> In col (map strip header_required)).
  { intros col H. exact H. }
  assert (H2 : ~ In (lit "Burn Time") (map strip header_required)).
  { cbv. intuition discriminate. }
  split; [exact H1|]. split; [exact H2|].
  exact (proj1 (c6_burn_time_absent (rt := example_runtime) header_required
                  line_required [] H1 H2)).
Defined.


Lemma c8_inventory_row_witness :
  main (rt := example_runtime) example_header [example_line] = Done example_tables
  /\ nth_error [example_line] 0 = Some example_line
  /\ (let inv := netsuite_inventory_adjustment example_tables in
      at_get inv 0 (lit "External ID") = Some (VLit "Antique Restock 123456")
      /\ at_get inv 0 (lit "memo") = Some (VLit "Antique Restock 123456")
      /\ at_get inv 0 (lit "Line memo") = Some (VLit "Antique Restock 123456")
      /\ at_get inv 0 (lit "Full name") = Some (VLit "ABC123456 Vanilla Bean - Mason Jar")
      /\ at_get inv 0 (lit "line qty adj") = Some (VInt 3)
      /\ at_get inv 0 (lit "itemId") = Some (VLit "ABC123456"))
  /\ main (rt := example_runtime) example_header [line_numeric] = Done numeric_tables
  /\ nth_error [line_numeric] 0 = Some line_numeric
  /\ (let inv := netsuite_inventory_adjustment numeric_tables in
      at_get inv 0 (lit "External ID") = Some (VLit "Antique Restock 6789.0")
      /\ at_get inv 0 (lit "Full name") = Some (VLit "123456789.0 2024.0")
      /\ at_get inv 0 (lit "line qty adj") = Some (VNum (NFloat (float_of_int 3)))
      /\ at_get inv 0 (lit "itemId") = Some (VNum (NFloat (float_of_int 123456789)))).
Proof.
  split; [exact example_run|]. split; [reflexivity|]. split.
  - destruct (c8_inventory_row (rt := example_runtime) example_header [example_line]
                example_tables 0 example_line example_run eq_refl)
      as (row & raw & sku & d & qty & sku_str & Hrow & _ & Hsku & _ & Hd & Hqty & Hstr & _
          & _ & _ & _ & He & Hm & Hl & Hf & Hq & Hi).
    pin_cell Hrow. subst row. pin_cell Hsku. subst sku. pin_cell Hd. subst d.
    pin_cell Hqty. subst qty. cbv iota in Hstr. subst sku_str.
    cbv zeta. rewrite He, Hm, Hl, Hf, Hq, Hi. repeat split.
  - split; [exact numeric_run|]. split; [reflexivity|].
    destruct (c8_inventory_row (rt := example_runtime) example_header [line_numeric]
                numeric_tables 0 line_numeric numeric_run eq_refl)
      as (row & raw & sku & d & qty & sku_str & Hrow & _ & Hsku & _ & Hd & Hqty & Hstr & _
          & _ & _ & _ & He & _ & _ & Hf & Hq & Hi).
    pin_cell Hrow. subst row. pin_cell Hsku. subst sku. pin_cell Hd. subst d.
    pin_cell Hqty. subst qty. cbv iota in Hstr. subst sku_str.
    cbv zeta. rewrite He, Hf, Hq, Hi. repeat split.
Defined.

Lemma c9_round_trip_witness :
  contains (lit " - ") (lit "Vanilla Bean | Mason Jar") = false
  /\ forallb (fun p => negb (endswith (lit " -") p))
             (removelast (map strip (split "|" (lit "Vanilla Bean | Mason Jar")))) = true
  /\ split_str (lit " - ") (netsuite_display_name (lit "Vanilla Bean | Mason Jar"))
     = map strip (split "|" (lit "Vanilla Bean | Mason Jar")).
Proof.
  split; [reflexivity|]. split; [reflexivity|].
  exact (c9_round_trip (lit "Vanilla Bean | Mason Jar") eq_refl eq_refl).
Defined.

Lemma c10_variant_grams_witness :
  main (rt := example_runtime) example_header [example_line] = Done example_tables
  /\ nth_error [example_line] 0 = Some example_line
  /\ SFmul 53 1024 f1_5 (S754_finite false 7979674852258742 (-44))
     = S754_finite false 5984756139194056 (-43)
  /\ at_get (shopify_import example_tables) 0 (lit "Variant Grams") = Some (VInt 680).
Proof.
  split; [exact example_run|]. split; [reflexivity|].
  split; [vm_compute; reflexivity|].
  destruct (c10_variant_grams (rt := example_runtime) example_header [example_line]
              example_tables 0 example_line example_run eq_refl)
    as (row & lbs0 & lbs & x & product & grams & Hrow & _ & Hl & _ & Hx & Hp & _ & _
        & Hcell & Hnear & _).
  pin_cell Hrow. subst row. pin_cell Hl. subst lbs. cbv iota in Hx. subst x.
  vm_compute in Hp. subst product.
  rewrite Hcell. unfold VInt. do 3 f_equal.
  apply Qabs_Qle_condition in Hnear. destruct Hnear as [Hlo Hhi].
  unfold Qle in Hlo, Hhi. cbn in Hlo, Hhi. lia.
Defined.

(** * Where the claims fail *)


(** C5 as it is written fails: a quantity of -5 in the file is still -5 in
    the row the loop gets, a number below zero. *)
Lemma c5_counterexample :
  ~ (forall (header : list str) (lines : list (list value)) (k : nat) (row : Series)
            (col : str) (v : value),
       nth_error (normalized_rows (rt := example_runtime) (read_csv header lines)) k
       = Some (k, row) ->
       In col numeric_cols_to_check ->
       lookup col row = Some v ->
       is_nonneg_number v = true).
Proof.
  intros H.
  specialize (H example_header [line_negative_quantity] 0
                (seen_row (rt := example_runtime) example_header [line_negative_quantity]
                   line_negative_quantity)
                (lit "Quantity") (VInt (-5))).
  assert (Hrow : nth_error (normalized_rows (rt := example_runtime)
                              (read_csv example_header [line_negative_quantity])) 0
                 = Some (0, seen_row (rt := example_runtime) example_header
                              [line_negative_quantity] line_negative_quantity))
    by (vm_compute; reflexivity).
  assert (Hin : In (lit "Quantity") numeric_cols_to_check) by (cbv; tauto).
  specialize (H Hrow Hin eq_refl). discriminate H.
Qed.


(** C9 as it is written fails: "a -|b" holds no " - ", its stripped parts
    are "a -" and "b", the display name is "a - - b", and splitting that on
    " - " gives "a" and "- b". *)
Lemma c9_counterexample :
  ~ (forall s : str,
       contains (lit " - ") s = false ->
       split_str (lit " - ") (netsuite_display_name s) = map strip (split "|" s)).
Proof.
  intros H. specialize (H (lit "a -|b") eq_refl). vm_compute in H. discriminate H.
Qed.

(** * The further properties on example files *)

Lemma cleaning_keeps_other_columns_witness :
  In (lit "SKU") (map strip header_spaced)
  /\ ~ In (lit "SKU") numeric_cols_to_check
  /\ lookup (lit "SKU") (clean_row (rt := example_runtime) header_spaced example_line)
     = Some (VLit "ABC123456").
Proof.
  assert (H1 : In (lit "SKU") (map strip header_spaced)) by (cbv; tauto).
  assert (H2 : ~ In (lit "SKU") numeric_cols_to_check) by (cbv; intuition discriminate).
  split; [exact H1|]. split; [exact H2|].
  rewrite (proj1 (cleaning_keeps_other_columns (rt := example_runtime)
                    header_spaced example_line _ H1 H2)).
  reflexivity.
Defined.

Lemma cleaned_table_columns_witness :
  exists df,
    data_cleaning (rt := example_runtime) (read_csv header_with_end_weight [line_with_end_weight])
    = inr df
    /\ columns df = header_with_end_weight
    /\ forall i row, In (i, row) (body df) ->
         lookup (lit "End Weight") row = Some (VInt 99).
Proof.
  eexists. split; [vm_compute; reflexivity|].
  match goal with
  | |- columns ?d = _ /\ _ =>
      destruct (cleaned_table_columns (rt := example_runtime) header_with_end_weight
                  [line_with_end_weight] d eq_refl) as (Hc & _ & Hew)
  end.
  split; [exact Hc|].
  intros i row Hin.
  destruct (Hew ltac:(cbv; tauto) i row Hin) as (line & [<-|[]] & ->).
  reflexivity.
Defined.



Lemma first_failure_aborts_witness :
  (exists T, main (rt := example_runtime) example_header [example_line] = Done T)
  /\ main (rt := example_runtime) example_header [line_infinite_weight]
     = Unexpected OverflowError
  /\ main (rt := example_runtime) example_header
       ([example_line] ++ line_infinite_weight :: [example_line])
     = Unexpected OverflowError.
Proof.
  assert (H1 : exists T, main (rt := example_runtime) example_header [example_line] = Done T)
    by (exists example_tables; exact example_run).
  assert (H2 : main (rt := example_runtime) example_header [line_infinite_weight]
               = Unexpected OverflowError) by (vm_compute; reflexivity).
  split; [exact H1|]. split; [exact H2|].
  exact (proj1 (first_failure_aborts (rt := example_runtime) example_header
                  [example_line] [example_line] line_infinite_weight OverflowError H1 H2)).
Defined.

Lemma output_schema_witness :
  main (rt := example_runtime) example_header [example_line] = Done example_tables
  /\ forall df i r,
       In df (output_tables (Done example_tables)) -> In (i, r) (body df) ->
       map fst r = columns df.
Proof.
  split; [exact example_run|].
  exact (proj2 (proj2 (proj2 (output_schema (rt := example_runtime) example_header
                                [example_line] example_tables example_run)))).
Defined.

Lemma unassigned_columns_blank_witness :
  main (rt := example_runtime) example_header [example_line] = Done example_tables
  /\ nth_error [example_line] 0 = Some example_line
  /\ at_get (netsuite_import example_tables) 0 (lit "subsidiary") = Some NaN
  /\ at_get (shopify_import example_tables) 0 (lit "Vendor") = Some NaN.
Proof.
  split; [exact example_run|]. split; [reflexivity|].
  destruct (unassigned_columns_blank (rt := example_runtime) example_header
              [example_line] example_tables 0 example_line example_run eq_refl)
    as (Hn & Hs).
  split.
  - apply Hn. cbv. tauto.
  - apply Hs; cbv; [tauto|intuition discriminate].
Defined.

Lemma netsuite_row_witness :
  main (rt := example_runtime) example_header [line_numeric] = Done numeric_tables
  /\ nth_error [line_numeric] 0 = Some line_numeric
  /\ (let ns := netsuite_import numeric_tables in
      at_get ns 0 (lit "externalid") = Some (VNum (NFloat (float_of_int 123456789)))
      /\ at_get ns 0 (lit "itemid") = Some (VNum (NFloat (float_of_int 123456789)))
      /\ at_get ns 0 (lit "Price") = Some (VNum (NFloat f24_99))
      /\ at_get ns 0 (lit "Weight") = Some (VNum (NFloat f1_5))
      /\ at_get ns 0 (lit "cogsaccount") = Some (VInt 318)).
Proof.
  split; [exact numeric_run|]. split; [reflexivity|].
  destruct (netsuite_row (rt := example_runtime) example_header [line_numeric]
              numeric_tables 0 line_numeric numeric_run eq_refl)
    as (row & sku & price & lbs & Hrow & Hsku & Hprice & Hlbs & _
        & He & Hi & Hp & Hw & _ & _ & _ & _ & _ & _ & _ & _ & _ & Hc & _).
  pin_cell Hrow. subst row. pin_cell Hsku. subst sku. pin_cell Hprice. subst price.
  pin_cell Hlbs. subst lbs.
  cbv zeta. rewrite He, Hi, Hp, Hw, Hc. repeat split.
Defined.

Lemma shopify_row_witness :
  main (rt := example_runtime) example_header [line_numeric] = Done numeric_tables
  /\ nth_error [line_numeric] 0 = Some line_numeric
  /\ (let sh := shopify_import numeric_tables in
      at_get sh 0 (lit "Handle") = Some (VLit "123456789.0")
      /\ at_get sh 0 (lit "Title") = Some (VLit "2024.0")
      /\ at_get sh 0 (lit "Variant SKU") = Some (VNum (NFloat (float_of_int 123456789)))
      /\ at_get sh 0 (lit "Variant Price") = Some (VNum (NFloat f24_99))).
Proof.
  split; [exact numeric_run|]. split; [reflexivity|].
  destruct (shopify_row (rt := example_runtime) example_header [line_numeric]
              numeric_tables 0 line_numeric numeric_run eq_refl)
    as (row & sku & d & price & handle & Hrow & Hsku & Hd & Hprice & _ & Hh & _ & _
        & Hhandle & Htitle & Hvs & Hvp & _).
  pin_cell Hrow. subst row. pin_cell Hsku. subst sku. pin_cell Hd. subst d.
  pin_cell Hprice. subst price. subst handle.
  cbv zeta. rewrite Hhandle, Htitle, Hvs, Hvp. repeat split.
Defined.

Lemma body_dimensions_witness :
  main (rt := example_runtime) example_header [line_numeric] = Done numeric_tables
  /\ nth_error [line_numeric] 0 = Some line_numeric
  /\ at_get (shopify_import numeric_tables) 0 (lit "Body (HTML)")
     = Some (VStr (body_html (lit "40.0") (lit "24.0") (lit "4.0") (lit "3.0"))).
Proof.
  split; [exact numeric_run|]. split; [reflexivity|].
  destruct (body_dimensions (rt := example_runtime) example_header [line_numeric]
              numeric_tables 0 line_numeric numeric_run eq_refl)
    as (row & bt & ew & h & w & Hrow & Hb & Hh & _ & Hw & _).
  pin_cell Hrow. subst row.
  destruct (Hh ltac:(cbv; tauto)) as (h0 & hv & _ & _ & Hhv & _ & ->).
  destruct (Hw ltac:(cbv; tauto)) as (w0 & wv & _ & _ & Hwv & _ & ->).
  pin_cell Hhv. subst hv. pin_cell Hwv. subst wv.
  rewrite Hb. vm_compute in Hb |- *. apply some_inj in Hb. rewrite <- Hb. reflexivity.
Defined.

Lemma unparseable_cells_give_zero_witness :
  (exists T,
     main (rt := example_runtime) example_header [line_unparseable] = Done T
     /\ at_get (netsuite_import T) 0 (lit "Price") = Some (VNum (NFloat (S754_zero false)))
     /\ at_get (shopify_import T) 0 (lit "Variant Grams") = Some (VInt 0))
  /\ nth_error [line_unparseable] 0 = Some line_unparseable.
Proof.
  split; [|reflexivity].
  eexists. split; [vm_compute; reflexivity|].
  match goal with
  | |- at_get (netsuite_import ?T) _ _ = _ /\ _ =>
      destruct (unparseable_cells_give_zero (rt := example_runtime) example_header
                  [line_unparseable] T 0 line_unparseable eq_refl eq_refl) as (Hp & Hw)
  end.
  split.
  - apply (Hp (VLit "call us") eq_refl). right. eexists. split; reflexivity.
  - apply (Hw NaN eq_refl). now left.
Defined.

Lemma grams_not_negative_witness :
  main (rt := example_runtime) example_header [example_line] = Done example_tables
  /\ nth_error [example_line] 0 = Some example_line
  /\ exists grams,
       at_get (shopify_import example_tables) 0 (lit "Variant Grams") = Some (VInt grams)
       /\ (0 <= grams)%Z.
Proof.
  split; [exact example_run|]. split; [reflexivity|].
  destruct (grams_not_negative (rt := example_runtime) example_header [example_line]
              example_tables 0 example_line example_run eq_refl)
    as (lbs & grams & Hl & Hg & Hpos).
  exists grams. split; [exact Hg|]. apply Hpos.
  vm_compute in Hl. injection Hl as <-. reflexivity.
Defined.

Lemma tags_four_tags_witness :
  ~ In ","%char (suffix 6 (lit "ABC123456"))
  /\ ~ In ","%char (fragrance (lit "Vanilla Bean | Mason Jar"))
  /\ split "," (tags (lit "ABC123456") (lit "Vanilla Bean | Mason Jar"))
     = [ lit "_tab2_antique-restock-101"; lit "antique123456";
         lit "_tab1_vanilla-bean-smells-like"; lit " Vanilla Bean" ].
Proof.
  assert (H1 : ~ In ","%char (suffix 6 (lit "ABC123456")))
    by (cbv; intuition discriminate).
  assert (H2 : ~ In ","%char (fragrance (lit "Vanilla Bean | Mason Jar")))
    by (cbv; intuition discriminate).
  split; [exact H1|]. split; [exact H2|].
  exact (tags_four_tags (lit "ABC123456") (lit "Vanilla Bean | Mason Jar") H1 H2).
Defined.

Lemma tables_behind_gate_witness :
  submit (lit "candle") (lit "candle") [] = inr [(lit "password_correct", SBool true)]
  /\ page_tables (script (rt := example_runtime) [(lit "password_correct", SBool true)]
                   (Some (example_header, [example_line]))) <> []
  /\ lit "candle" = lit "candle".
Proof.
  assert (H1 : submit (lit "candle") (lit "candle") []
               = inr [(lit "password_correct", SBool true)]) by reflexivity.
  assert (H2 : page_tables (script (rt := example_runtime)
                              [(lit "password_correct", SBool true)]
                              (Some (example_header, [example_line]))) <> []).
  { unfold script. cbn [check_password state_lookup fst snd negb page_tables].
    change (str_eqb (lit "password_correct") (lit "password_correct")) with true.
    cbn [truthy negb fst page_tables]. rewrite example_run. discriminate. }
  split; [exact H1|]. split; [exact H2|].
  exact (proj1 (tables_behind_gate (rt := example_runtime) _ _ _ _ _ H1 H2)).
Defined.

Lemma file_names_by_day_witness :
  valid_date {| year := 2025; month := 3; day := 7 |}
  /\ netsuite_file_name (strftime_m_d_y {| year := 2025; month := 3; day := 7 |})
     = lit "netsuite_import_03_07_25.csv"
  /\ length (strftime_m_d_y {| year := 2025; month := 3; day := 7 |}) = 8.
Proof.
  assert (H : valid_date {| year := 2025; month := 3; day := 7 |})
    by (unfold valid_date; cbn; lia).
  split; [exact H|]. split; [reflexivity|].
  exact (proj1 (file_names_by_day _ _ H H)).
Defined.

Lemma main_completes_witness :
  NoDup (map strip example_header)
  /\ (forall col, In col required_cols -> In col (map strip example_header))
  /\ In (lit "Burn Time") (map strip example_header)
  /\ (forall line, In line [example_line; []] -> length line <= length example_header)
  /\ run_file (rt := example_runtime) example_header [example_line; []]
     = Done example_tables.
Proof.
  assert (Hd : NoDup (map strip example_header)).
  { vm_compute. repeat constructor; cbn; intuition discriminate. }
  assert (H1 : forall col, In col required_cols -> In col (map strip example_header)).
  { intros col Hc. cbv in Hc |- *. tauto. }
  assert (H2 : In (lit "Burn Time") (map strip example_header)) by (cbv; tauto).
  assert (H3 : forall line, In line [example_line; []] ->
                            length line <= length example_header).
  { intros line [<-|[<-|[]]]; cbn; lia. }
  split; [exact Hd|]. split; [exact H1|]. split; [exact H2|]. split; [exact H3|].
  destruct (main_completes (rt := example_runtime) example_header [example_line; []]
              Hd H1 H2 H3) as [T HT].
  - intros line lbs [<-|[<-|[]]] Hl; vm_compute in Hl; apply some_inj in Hl; subst lbs;
      eexists; vm_compute; reflexivity.
  - rewrite HT. vm_compute in HT.
    apply (f_equal (fun o => match o with Done t => t | _ => T end)) in HT.
    now rewrite <- HT.
Defined.

Lemma gate_opens_iff_secret_witness :
  exists ss',
    submit (lit "candle") (lit "wick") [] = inr ss'
    /\ fst (check_password ss') = false
    /\ snd (check_password ss') = [PasswordInput; PasswordIncorrect].
Proof.
  destruct (gate_opens_iff_secret (lit "candle") (lit "wick") [])
    as (ss' & Hs & Hiff & _ & Hwrong).
  exists ss'. split; [exact Hs|]. split.
  - destruct (fst (check_password ss')); [|reflexivity].
    discriminate (proj1 Hiff eq_refl).
  - apply Hwrong. discriminate.
Defined.

Lemma password_storage_witness :
  exists ss',
    submit (lit "candle") (lit "candle") [(lit "password", SStr (lit "wick"))] = inr ss'
    /\ state_lookup (lit "password") ss' = None.
Proof.
  destruct (password_storage (lit "candle") (lit "candle")
              [(lit "password", SStr (lit "wick"))]) as (ss' & Hs & Hright & _).
  exists ss'. split; [exact Hs|]. apply Hright. reflexivity.
Defined.
